(** * Causal graph analytics of phantom-metal-taste

    A shallow embedding of the AQL queries issued by [AnalyticsService]
    (orchestrator/services/analytics-service.ts) and by
    [InitiativeService.findUnintendedConsequences]
    (orchestrator/services/initiative-service.ts), together with the part of
    the AQL evaluation rules those queries rely on.

    Numbers are AQL doubles in the running system; here they are exact
    rationals ([Q]), compared with [==], so a computed value is the running
    system's up to rounding.  Where rounding decides the outcome, as in a
    sum of large magnitude, module [Binary64] evaluates the same arithmetic
    on binary64 numbers.  A missing attribute and an explicit [null] are the
    same AQL value and are both [None]. *)

From Stdlib Require Import String Ascii Bool Arith PeanoNat ZArith List.
From Stdlib Require Import DecimalString QArith Qabs Qminmax Qpower Lia Lqa.
From Stdlib Require Import Permutation Sorted.
From Stdlib Require PrimFloat Uint63.
Import ListNotations.

Open Scope Q_scope.

(* ===================================================================== *)
(** ** The fragment of AQL the queries use *)
(* ===================================================================== *)

Module Aql.

(** Arithmetic reads [null] as the number 0. *)
Definition TO_NUMBER (x : option Q) : Q :=
  match x with Some q => q | None => 0 end.

(** [a - b] on possibly-null operands; the result is always a number. *)
Definition minus (a b : option Q) : Q := TO_NUMBER a - TO_NUMBER b.

(** [ABS(x)]. *)
Definition ABS (x : Q) : Q := Qabs x.

(** [a / b]: a division by zero yields [null] (and a warning, which does
    not abort the query). *)
Definition divide (a : Q) (b : option Q) : option Q :=
  if Qeq_bool (TO_NUMBER b) 0 then None else Some (a / TO_NUMBER b).

(** The non-null members of an array. *)
Definition non_null (l : list (option Q)) : list Q :=
  flat_map (fun x => match x with Some q => [q] | None => [] end) l.

Definition SUM (l : list Q) : Q := fold_right Qplus 0 l.

(** [AVG(array)]: nulls are ignored; an array with no number gives [null]. *)
Definition AVG (l : list (option Q)) : option Q :=
  match non_null l with
  | [] => None
  | q :: qs => Some (SUM (q :: qs) / inject_Z (Z.of_nat (length (q :: qs))))
  end.

(** [PRODUCT(array)] of numbers; the empty product is 1. *)
Definition PRODUCT (l : list Q) : Q := fold_right Qmult 1 l.

(** [MIN([a, b])] of two numbers. *)
Definition MIN (a b : Q) : Q := if Qle_bool a b then a else b.

(** [LENGTH(array)] as a number. *)
Definition LENGTH {A : Type} (l : list A) : Q := inject_Z (Z.of_nat (length l)).

(** [x > y] where [y] is a number: [null] sorts below every number. *)
Definition gt (x : option Q) (y : Q) : bool :=
  match x with Some q => negb (Qle_bool q y) | None => false end.

(** Truthiness of a numeric attribute: [null] and 0 are false. *)
Definition truthy (x : option Q) : bool :=
  match x with Some q => negb (Qeq_bool q 0) | None => false end.

(** [x || d] with a numeric default [d]: the left operand when it is
    truthy, the right one otherwise. *)
Definition or_else (x : option Q) (d : Q) : Q :=
  if truthy x then TO_NUMBER x else d.

(** [a == b] on string-or-null values. *)
Definition str_eq (a b : option string) : bool :=
  match a, b with
  | Some x, Some y => String.eqb x y
  | None, None => true
  | _, _ => false
  end.

(** [a IN [s1, ..., sn]] for an array of string literals. *)
Definition str_in (a : option string) (l : list string) : bool :=
  existsb (fun s => str_eq a (Some s)) l.

(** [x != null]. *)
Definition not_null {A : Type} (x : option A) : bool :=
  match x with Some _ => true | None => false end.

End Aql.

(* ===================================================================== *)
(** ** Documents, edges and the store *)
(* ===================================================================== *)

(** A document handle [collection/key]. *)
Record Id : Type := mkId { collection : string; key : string }.

Definition id_eqb (a b : Id) : bool :=
  String.eqb (collection a) (collection b) && String.eqb (key a) (key b).

(** A vertex document, with the attributes the queries read
    (models/types.ts lists them per collection; the store itself is
    schemaless, so every document may carry or lack any of them). *)
Record Doc : Type := mkDoc {
  _id : Id;
  name : option string;
  description : option string;
  type : option string;
  value : option Q;
  target : option Q;
  department : option string;
  status : option string;
  wellnessScore : option Q;
  engagementLevel : option Q;
  intendedOutcome : option string
}.

(** An edge document. [e_id] is its own handle; its collection is the edge
    collection it was saved in.  Of the other attributes the queries read
    only [strength]. *)
Record Edge : Type := mkEdge {
  e_id : Id;
  _from : Id;
  _to : Id;
  strength : option Q
}.

Record Store : Type := mkStore {
  documents : list Doc;
  edge_documents : list Edge
}.

(** Attribute access on a possibly-null document: [null.a] is [null]. *)
Definition attr {A : Type} (f : Doc -> option A) (v : option Doc) : option A :=
  match v with Some d => f d | None => None end.

Definition _key (v : option Doc) : option string :=
  match v with Some d => Some (key (_id d)) | None => None end.

(** [FOR d IN c]: the documents of vertex collection [c], in store order. *)
Definition FOR_IN (st : Store) (c : string) : list Doc :=
  filter (fun d => String.eqb (collection (_id d)) c) (documents st).

(** The edges of edge collection [c]. *)
Definition edges_of (st : Store) (cs : list string) : list Edge :=
  filter (fun e => existsb (String.eqb (collection (e_id e))) cs)
         (edge_documents st).

(** [DOCUMENT(id)]: the document, or [null] when there is none. *)
Definition DOCUMENT (st : Store) (i : Id) : option Doc :=
  find (fun d => id_eqb (_id d) i) (documents st).

(* ===================================================================== *)
(** ** Graph traversal: [FOR v, e, p IN 1..max <direction> start <edges>] *)
(* ===================================================================== *)

Inductive Direction : Type := OUTBOUND | ANY.

(** One hop: the edge followed and the vertex it leads to. *)
Definition Step : Type := (Edge * Id)%type.

(** A traversal result: the vertex reached and the path that reached it. *)
Definition Visit : Type := (Id * list Step)%type.

Definition neighbours (dir : Direction) (cur : Id) (e : Edge) : list Id :=
  match dir with
  | OUTBOUND => if id_eqb (_from e) cur then [_to e] else []
  | ANY => (if id_eqb (_from e) cur then [_to e] else [])
           ++ (if id_eqb (_to e) cur then [_from e] else [])
  end.

Definition edge_used (e : Edge) (used : list Id) : bool :=
  existsb (id_eqb (e_id e)) used.

(** Depth-first enumeration of every path of 1 to [depth] edges that leaves
    [cur].  The traversal options are the defaults: no edge is repeated on a
    path ([uniqueEdges: "path"]), vertices may repeat
    ([uniqueVertices: "none"]), and every path yields a result. *)
Fixpoint extend (E : list Edge) (dir : Direction) (depth : nat)
                (cur : Id) (used : list Id) : list Visit :=
  match depth with
  | O => []
  | S d =>
      flat_map
        (fun e =>
           if edge_used e used then []
           else flat_map
                  (fun v =>
                     (v, [(e, v)])
                       :: map (fun w => (fst w, (e, v) :: snd w))
                              (extend E dir d v (e_id e :: used)))
                  (neighbours dir cur e))
        E
  end.

(** The range is [1..maxDepth], the only one the queries use; a bound below
    1 yields no path here.  A [null] start vertex gives an empty result
    (and a warning). *)
Definition traversal (E : list Edge) (dir : Direction) (maxDepth : nat)
                     (start : option Doc) : list Visit :=
  match start with
  | Some d => extend E dir maxDepth (_id d) []
  | None => []
  end.

(** [p.edges] and, for an outbound traversal result, [p.vertices]. *)
Definition p_edges (w : Visit) : list Edge := map fst (snd w).
Definition p_vertices (start : Id) (w : Visit) : list Id :=
  start :: map snd (snd w).

(** The variable [v] of a traversal: the document of the vertex reached. *)
Definition vertex (st : Store) (w : Visit) : option Doc := DOCUMENT st (fst w).

(* ===================================================================== *)
(** ** Text helpers for the generated messages *)
(* ===================================================================== *)

Definition dquote : string := String (ascii_of_nat 34) EmptyString.

(** [CONCAT(...)]: [null] arguments are skipped. *)
Definition CONCAT (parts : list (option string)) : string :=
  fold_right
    (fun p acc => match p with Some s => String.append s acc | None => acc end)
    EmptyString parts.

Definition number_text (n : nat) : string :=
  NilEmpty.string_of_uint (Nat.to_uint n).

(** A call of an [async] method either fulfils with a value or rejects with
    a named error. *)
Inductive Promise (A : Type) : Type :=
| Fulfilled (a : A)
| Rejected (error : string).
Arguments Fulfilled {A} a.
Arguments Rejected {A} error.

(** [results[0] || null] on the array of rows a query returned. *)
Definition first_or_null {A : Type} (results : list A) : option A :=
  hd_error results.

(* ===================================================================== *)
(** ** AnalyticsService *)
(* ===================================================================== *)

(** The row returned by [calculateIntentionRealityGap]. *)
Module IntentionRealityGap.
Record t : Type := mk {
  initiativeId : option string;
  initiativeName : option string;
  intendedOutcome : option string;
  actualOutcomes : list (option Doc);
  gapScore : Q;
  unintendedConsequences : list (option Doc);
  analysis : string
}.
End IntentionRealityGap.

(** The row returned by [traceCausalPath]. *)
Module CausalPath.
Record node_t : Type := mkNode {
  node : option Id;
  node_type : option string;
  label : option string
}.
Record t : Type := mk {
  from : Id;
  to : Id;
  path : list node_t;
  totalStrength : Q;
  length : Q
}.
End CausalPath.

(** The row returned by [findGameableMetrics]. *)
Module Gameable.
Record t : Type := mk {
  metric : Doc;
  gap : option Q;
  gapPercentage : Q;
  measuredEntities : list (option Doc);
  suspicionLevel : string
}.
End Gameable.

(** The row returned by [calculateDepartmentSynergy]. *)
Module Synergy.
Record t : Type := mk {
  department : option Doc;
  employeeCount : Q;
  avgWellness : option Q;
  avgEngagement : option Q;
  initiativeSuccessRate : Q;
  synergyScore : Q;
  synergyGrade : string;
  ironyLevel : string
}.
End Synergy.

(** The row returned by [detectMetricTheater]. *)
Module Theater.
Record t : Type := mk {
  metric : Doc;
  message : string;
  theaterScore : Q
}.
End Theater.

(** The edge collections of the named graph [causal_graph]
    (db/arango.ts, [initializeGraphs]). *)
Definition causal_graph : list string :=
  ["causes"; "participates_in"; "measures"; "belongs_to"; "influences"]%string.

Module AnalyticsService.

Section Queries.

Variable arango : Store.

(** *** calculateIntentionRealityGap: the [LET] variables of the query *)

Definition intended (initiative : option Doc) : list (option Doc) :=
  filter (fun v => Aql.str_eq (attr type v) (Some "intended"%string))
         (map (vertex arango)
              (traversal (edges_of arango ["causes"%string]) OUTBOUND 1 initiative)).

Definition actual (initiative : option Doc) : list (option Doc) :=
  filter (fun v => Aql.str_in (attr type v) ["unintended"; "emergent"]%string)
         (map (vertex arango)
              (traversal (edges_of arango ["causes"%string]) OUTBOUND 2 initiative)).

Definition metrics (initiative : option Doc) : list (option Doc) :=
  map (vertex arango)
      (traversal (edges_of arango ["measures"%string]) OUTBOUND 1 initiative).

(** [ABS(m.value - m.target) / m.target]. *)
Definition metricGap (m : option Doc) : option Q :=
  Aql.divide (Aql.ABS (Aql.minus (attr value m) (attr target m)))
             (attr target m).

Definition avgMetricGap (initiative : option Doc) : option Q :=
  if (0 <? List.length (metrics initiative))%nat
  then Aql.AVG
         (map metricGap
              (filter (fun m => Aql.not_null (attr target m)
                                && Aql.not_null (attr value m))
                      (metrics initiative)))
  else Some 0.

(** The [LET gapScore], before the cap, in exact arithmetic
    ([Binary64.gapScore] is the same sum on doubles). *)
Definition gapScore (initiative : option Doc) : Q :=
  Aql.LENGTH (actual initiative) * 10
  + Aql.TO_NUMBER (avgMetricGap initiative) * 50
  + (if Qeq_bool (Aql.LENGTH (intended initiative)) 0 then 25 else 0).

Definition divergence (score : Q) : string :=
  if negb (Qle_bool score 75) then "severe"%string
  else if negb (Qle_bool score 50) then "significant"%string
  else "moderate"%string.

Definition gapQuery (initiativeId : string) : list IntentionRealityGap.t :=
  let initiative := DOCUMENT arango (mkId "initiatives" initiativeId) in
  [ IntentionRealityGap.mk
      (_key initiative)
      (attr name initiative)
      (attr intendedOutcome initiative)
      (actual initiative)
      (Aql.MIN (gapScore initiative) 100)
      (actual initiative)
      (CONCAT [ Some (String.append "Initiative " dquote);
                attr name initiative;
                Some (String.append dquote " shows ");
                Some (divergence (gapScore initiative));
                Some " divergence from stated intentions. "%string;
                Some (number_text (List.length (actual initiative)));
                Some " unintended outcomes detected."%string ]) ].

Definition calculateIntentionRealityGap (initiativeId : string)
  : Promise (option IntentionRealityGap.t) :=
  Fulfilled (first_or_null (gapQuery initiativeId)).

(** *** traceCausalPath *)

Definition path_node (n : option Doc) : CausalPath.node_t :=
  CausalPath.mkNode
    (match n with Some d => Some (_id d) | None => None end)
    (match n with Some d => Some (collection (_id d)) | None => None end)
    (match attr name n with
     | Some s => if String.eqb s EmptyString then attr description n else Some s
     | None => attr description n
     end).

(** The product is exact here; on doubles a product of small factors can
    round to 0. *)
Definition totalStrength (w : Visit) : Q :=
  Aql.PRODUCT (map (fun edge => Aql.or_else (strength edge) (1 # 2)) (p_edges w)).

(** The paths the traversal keeps: those that end in [toId]. *)
Definition causalPaths (fromId toId : Id) (maxDepth : nat) : list Visit :=
  filter (fun w => match vertex arango w with
                   | Some d => id_eqb (_id d) toId
                   | None => false
                   end)
         (traversal (edges_of arango ["causes"%string]) OUTBOUND maxDepth
                    (DOCUMENT arango fromId)).

Definition causalPathRow (fromId toId : Id) (w : Visit) : CausalPath.t :=
  CausalPath.mk fromId toId
    (map (fun i => path_node (DOCUMENT arango i)) (p_vertices fromId w))
    (totalStrength w)
    (Aql.LENGTH (p_vertices fromId w)).

Definition traceCausalPath (fromId toId : Id) (maxDepth : option nat)
  : list CausalPath.t :=
  let maxDepth := match maxDepth with Some d => d | None => 5%nat end in
  map (causalPathRow fromId toId) (causalPaths fromId toId maxDepth).

(** *** findGameableMetrics *)

(** [SORT gap DESC]: insertion into a list already sorted by descending
    gap (AQL fixes no order among rows of equal gap). *)
Fixpoint insert_by_gap (r : Doc * option Q) (l : list (Doc * option Q))
  : list (Doc * option Q) :=
  match l with
  | [] => [r]
  | x :: rest =>
      if Aql.gt (snd x) (Aql.TO_NUMBER (snd r))
      then x :: insert_by_gap r rest
      else r :: x :: rest
  end.

Definition SORT_gap_DESC (l : list (Doc * option Q)) : list (Doc * option Q) :=
  fold_right insert_by_gap [] l.

(** The rows that pass both [FILTER]s, each with its [LET gap]. *)
Definition gameableCandidates (threshold : Q) : list (Doc * option Q) :=
  flat_map
    (fun metric =>
       if Aql.not_null (target metric) && Aql.not_null (value metric)
       then let gap := Aql.divide
                         (Aql.ABS (Aql.minus (value metric) (target metric)))
                         (target metric) in
            if Aql.gt gap threshold then [(metric, gap)] else []
       else [])
    (FOR_IN arango "metrics").

Definition suspicion (gap : option Q) : string :=
  if Aql.gt gap (9 # 10) then "EXTREME"%string
  else if Aql.gt gap (7 # 10) then "HIGH"%string
  else "MODERATE"%string.

Definition gameableRow (r : Doc * option Q) : Gameable.t :=
  Gameable.mk
    (fst r)
    (snd r)
    (Aql.TO_NUMBER (snd r) * 100)
    (map (vertex arango)
         (traversal (edges_of arango ["measures"%string]) OUTBOUND 1
                    (Some (fst r))))
    (suspicion (snd r)).

Definition findGameableMetrics (threshold : option Q) : list Gameable.t :=
  let threshold := match threshold with Some t => t | None => 1 # 2 end in
  map gameableRow (SORT_gap_DESC (gameableCandidates threshold)).

(** *** calculateDepartmentSynergy *)

Definition employees (dept : option Doc) : list Doc :=
  filter (fun emp => Aql.str_eq (department emp) (attr name dept))
         (FOR_IN arango "employees").

Definition initiatives (dept : option Doc) : list Doc :=
  filter (fun init => Aql.str_eq (department init) (attr name dept))
         (FOR_IN arango "initiatives").

Definition avgWellness (dept : option Doc) : option Q :=
  Aql.AVG (map wellnessScore
               (filter (fun emp => Aql.not_null (wellnessScore emp))
                       (employees dept))).

Definition avgEngagement (dept : option Doc) : option Q :=
  Aql.AVG (map engagementLevel
               (filter (fun emp => Aql.not_null (engagementLevel emp))
                       (employees dept))).

Definition completedInitiatives (dept : option Doc) : Q :=
  Aql.LENGTH (filter (fun init => Aql.str_eq (status init) (Some "completed"%string))
                     (initiatives dept)).

Definition abandonedInitiatives (dept : option Doc) : Q :=
  Aql.LENGTH (filter (fun init => Aql.str_eq (status init) (Some "abandoned"%string))
                     (initiatives dept)).

(** [completed / (completed + abandoned + 1)]; the divisor is never 0. *)
Definition successRate (dept : option Doc) : Q :=
  Aql.TO_NUMBER
    (Aql.divide (completedInitiatives dept)
                (Some (completedInitiatives dept + abandonedInitiatives dept + 1))).

Definition synergyScore (dept : option Doc) : Q :=
  Aql.TO_NUMBER (avgWellness dept) * (3 # 10)
  + Aql.TO_NUMBER (avgEngagement dept) * (3 # 10)
  + successRate dept * 40.

Definition synergyGrade (score : Q) : string :=
  if negb (Qle_bool score 80) then "SYNERGIZED"%string
  else if negb (Qle_bool score 60) then "ALIGNED"%string
  else "SILOED"%string.

Definition synergyQuery (departmentId : string) : list Synergy.t :=
  let dept := DOCUMENT arango (mkId "departments" departmentId) in
  [ Synergy.mk
      dept
      (Aql.LENGTH (employees dept))
      (avgWellness dept)
      (avgEngagement dept)
      (successRate dept)
      (synergyScore dept)
      (synergyGrade (synergyScore dept))
      "MAXIMUM"%string ].

Definition calculateDepartmentSynergy (departmentId : string)
  : Promise (option Synergy.t) :=
  Fulfilled (first_or_null (synergyQuery departmentId)).

(** *** detectMetricTheater *)

(** [v._id LIKE 'initiatives/%']: a handle is [collection/key] and a
    collection name holds no slash, so the pattern tests the collection. *)
Definition LIKE_collection (v : option Doc) (c : string) : bool :=
  match v with
  | Some d => String.eqb (collection (_id d)) c
  | None => false
  end.

Definition linkedInitiatives (metric : Doc) : list (option Doc) :=
  filter (fun v => LIKE_collection v "initiatives")
         (map (vertex arango)
              (traversal (edges_of arango causal_graph) ANY 2 (Some metric))).

Definition theaterRow (metric : Doc) : Theater.t :=
  Theater.mk
    metric
    (CONCAT [ Some (String.append "Metric " dquote);
              name metric;
              Some (String.append dquote
                      " has been collected but shows no causal link to any initiative. ");
              Some "Possible metric theater detected."%string ])
    100.

Definition detectMetricTheater : list Theater.t :=
  map theaterRow
      (filter (fun metric => Qeq_bool (Aql.LENGTH (linkedInitiatives metric)) 0)
              (FOR_IN arango "metrics")).

End Queries.

End AnalyticsService.

(* ===================================================================== *)
(** ** The gap score on binary64 numbers *)
(* ===================================================================== *)

(** The arithmetic of the [LET avgMetricGap] and [LET gapScore] of
    [calculateIntentionRealityGap] on IEEE 754 binary64 numbers, as AQL
    computes it.  The lists of outcomes and metrics are those of
    [AnalyticsService]; a stored number is read as the double nearest to
    it (numerator and denominator below 2^53). *)
Module Binary64.

Import PrimFloat.

Local Open Scope float_scope.

(** An integer below 2^63 in absolute value, as a double. *)
Definition of_Z (z : Z) : float :=
  if (z <? 0)%Z then - of_uint63 (Uint63.of_Z (- z))
  else of_uint63 (Uint63.of_Z z).

(** A stored number. *)
Definition of_Q (q : Q) : float := of_Z (Qnum q) / of_Z (Zpos (Qden q)).

Definition TO_NUMBER (x : option float) : float :=
  match x with Some f => f | None => 0 end.

Definition number (x : option Q) : option float := option_map of_Q x.

(** [a / b]: a division by zero yields [null]. *)
Definition divide (a : float) (b : option float) : option float :=
  if TO_NUMBER b =? 0 then None else Some (a / TO_NUMBER b).

Definition non_null (l : list (option float)) : list float :=
  flat_map (fun x => match x with Some f => [f] | None => [] end) l.

(** [AVG(array)]: the sum of the numbers, in array order, over their
    count. *)
Definition AVG (l : list (option float)) : option float :=
  match non_null l with
  | [] => None
  | f :: fs => Some (fold_left add (f :: fs) 0
                     / of_Z (Z.of_nat (List.length (f :: fs))))
  end.

Definition MIN (a b : float) : float := if a <=? b then a else b.

Section Queries.

Variable arango : Store.

(** [ABS(m.value - m.target) / m.target]. *)
Definition metricGap (m : option Doc) : option float :=
  divide (abs (TO_NUMBER (number (attr value m))
               - TO_NUMBER (number (attr target m))))
         (number (attr target m)).

Definition avgMetricGap (initiative : option Doc) : option float :=
  if (0 <? List.length (AnalyticsService.metrics arango initiative))%nat
  then AVG (map metricGap
                (filter (fun m => Aql.not_null (attr target m)
                                  && Aql.not_null (attr value m))
                        (AnalyticsService.metrics arango initiative)))
  else Some 0.

Definition gapScore (initiative : option Doc) : float :=
  of_Z (Z.of_nat (List.length (AnalyticsService.actual arango initiative)) * 10)
  + TO_NUMBER (avgMetricGap initiative) * 50
  + (if (List.length (AnalyticsService.intended arango initiative) =? 0)%nat
     then 25 else 0).

(** The [gapScore] field of the row: [MIN([gapScore, 100])]. *)
Definition returnedGapScore (initiativeId : string) : float :=
  MIN (gapScore (DOCUMENT arango (mkId "initiatives" initiativeId))) 100.

End Queries.

End Binary64.

(* ===================================================================== *)
(** ** InitiativeService *)
(* ===================================================================== *)

(** Equality of returned values, for [RETURN DISTINCT].  Two results of one
    query that carry the same handle are the same stored document, so the
    structural comparison agrees with AQL's comparison by value. *)
Definition Q_eq_dec (a b : Q) : {a = b} + {a <> b}.
Proof. repeat decide equality. Defined.

Definition Id_eq_dec (a b : Id) : {a = b} + {a <> b}.
Proof. repeat decide equality. Defined.

Definition Doc_eq_dec (a b : Doc) : {a = b} + {a <> b}.
Proof.
  decide equality;
    try (apply Id_eq_dec);
    repeat (decide equality; try apply Q_eq_dec).
Defined.

Definition value_eq_dec (a b : option Doc) : {a = b} + {a <> b}.
Proof. decide equality. apply Doc_eq_dec. Defined.

Definition RETURN_DISTINCT (l : list (option Doc)) : list (option Doc) :=
  nodup value_eq_dec l.

Module InitiativeService.

Section Queries.

Variable arango : Store.

Definition findUnintendedConsequences (initiativeId : string)
  : list (option Doc) :=
  RETURN_DISTINCT
    (filter (fun v => Aql.str_eq (attr type v) (Some "unintended"%string))
       (filter (fun v => AnalyticsService.LIKE_collection v "outcomes")
          (map (vertex arango)
               (traversal (edges_of arango ["causes"%string]) OUTBOUND 3
                          (DOCUMENT arango (mkId "initiatives" initiativeId)))))).

(** [linkCause] saves one more edge document into [causes]; it does not
    look for an existing link between the two vertices. *)
Definition linkCause (edgeKey initiativeId outcomeId : string) (s : Q) : Store :=
  mkStore (documents arango)
          (edge_documents arango
             ++ [mkEdge (mkId "causes" edgeKey)
                        (mkId "initiatives" initiativeId)
                        (mkId "outcomes" outcomeId)
                        (Some s)]).

End Queries.

End InitiativeService.



(* ===================================================================== *)
(** ** Concrete stores used by the examples *)
(* ===================================================================== *)

Module Fixtures.

Local Open Scope string_scope.

Definition blank (c k : string) : Doc :=
  mkDoc (mkId c k) None None None None None None None None None None.

Definition initiative (k nm dept st : string) : Doc :=
  mkDoc (mkId "initiatives" k) (Some nm) None None None None
        (Some dept) (Some st) None None (Some "Improve productivity").

Definition outcome (k ty : string) : Doc :=
  mkDoc (mkId "outcomes" k) None (Some k) (Some ty) None None
        None None None None None.

Definition metric (k : string) (v t : option Q) : Doc :=
  mkDoc (mkId "metrics" k) (Some k) None (Some "custom") v t
        None None None None None.

Definition employee (k dept : string) (w e : option Q) : Doc :=
  mkDoc (mkId "employees" k) (Some k) None None None None
        (Some dept) None w e None.

Definition dept (k nm : string) : Doc :=
  mkDoc (mkId "departments" k) (Some nm) None None None None
        None None None None None.

Definition link (c k : string) (a b : Doc) (s : option Q) : Edge :=
  mkEdge (mkId c k) (_id a) (_id b) s.

Definition I1 := initiative "i1" "Test Initiative" "Engineering" "active".
Definition O1 := outcome "o1" "intended".
Definition O2 := outcome "o2" "unintended".
Definition M1 := metric "m1" (Some 50) (Some 90).

(** I1 causes O1 (intended) and O2 (unintended); I1 measures M1 (50 of 90). *)
Definition gap_scenario : Store :=
  mkStore [I1; O1; O2; M1]
          [ link "causes" "c1" I1 O1 (Some (1 # 2));
            link "causes" "c2" I1 O2 (Some (9 # 10));
            link "measures" "ms1" I1 M1 None ].

(** As above, but the metric's target is negative. *)
Definition M_neg := metric "m1" (Some 50) (Some (-10)).
Definition negative_target : Store :=
  mkStore [I1; O1; M_neg]
          [ link "causes" "c1" I1 O1 (Some (1 # 2));
            link "measures" "ms1" I1 M_neg None ].

(** O2 linked to I1 by two [linkCause] calls. *)
Definition linked_once : Store :=
  InitiativeService.linkCause (mkStore [I1; O2] []) "c1" "i1" "o2" (9 # 10).
Definition linked_twice : Store :=
  InitiativeService.linkCause linked_once "c2" "i1" "o2" (9 # 10).

(** O2 reached through two intermediate outcomes. *)
Definition Oa := outcome "oa" "intended".
Definition Ob := outcome "ob" "intended".
Definition diamond : Store :=
  mkStore [I1; Oa; Ob; O2]
          [ link "causes" "c1" I1 Oa (Some (1 # 2));
            link "causes" "c2" I1 Ob (Some (1 # 2));
            link "causes" "c3" Oa O2 (Some (1 # 2));
            link "causes" "c4" Ob O2 (Some (1 # 2)) ].

(** I1 measures M1 (50 of 90) through two [measures] edges and a metric
    that is on target (90 of 90) through one. *)
Definition M_met := metric "m4" (Some 90) (Some 90).
Definition measured_twice : Store :=
  mkStore [I1; O1; O2; M1; M_met]
          [ link "causes" "c1" I1 O1 (Some (1 # 2));
            link "causes" "c2" I1 O2 (Some (9 # 10));
            link "measures" "ms1" I1 M1 None;
            link "measures" "ms2" I1 M1 None;
            link "measures" "ms3" I1 M_met None ].


(** A chain I1 -> O1 -> O2 with the given strengths. *)
Definition chain (s1 s2 : option Q) : Store :=
  mkStore [I1; O1; O2]
          [ link "causes" "c1" I1 O1 s1; link "causes" "c2" O1 O2 s2 ].

(** The chain of the unit test, and the path the traversal finds in it. *)
Definition test_chain : Store := chain (Some (8 # 10)) (Some (7 # 10)).
Definition test_chain_path : Visit :=
  (_id O2, [ (link "causes" "c1" I1 O1 (Some (8 # 10)), _id O1);
             (link "causes" "c2" O1 O2 (Some (7 # 10)), _id O2) ]).

(** A chain whose first edge has no strength and whose second has 0. *)
Definition weightless_chain : Store := chain None (Some 0).
Definition weightless_path : Visit :=
  (_id O2, [ (link "causes" "c1" I1 O1 None, _id O1);
             (link "causes" "c2" O1 O2 (Some 0), _id O2) ]).


Definition empty : Store := mkStore [] [].

(** Engineering: wellness 80 and 70, engagement 75 and 65, one completed
    and one abandoned initiative. *)
Definition engineering : Store :=
  mkStore [ dept "d1" "Engineering";
            employee "e1" "Engineering" (Some 80) (Some 75);
            employee "e2" "Engineering" (Some 70) (Some 65);
            initiative "a" "Project A" "Engineering" "completed";
            initiative "b" "Project B" "Engineering" "abandoned" ]
          [].

(** M2 is 95 against a target of 90. *)
Definition M2 := metric "m2" (Some 95) (Some 90).
Definition engagement_metric : Store := mkStore [M2] [].

(** M3 has no edge at all; M1 is measured for O2, which I1 causes. *)
Definition M3 := metric "m3" (Some 75) None.
Definition theater_scenario : Store :=
  mkStore [I1; O2; M1; M3]
          [ link "causes" "c1" I1 O2 (Some (9 # 10));
            link "measures" "ms1" M1 O2 None ].

End Fixtures.

(* ===================================================================== *)
(** ** The specification's vocabulary *)
(* ===================================================================== *)

Module Spec.

(** [clamp(x, lo, hi)]. *)
Definition clamp (x lo hi : Q) : Q := Qmax lo (Qmin x hi).

(** The number of distinct members of a result list. *)
Definition cardinal (l : list (option Doc)) : Q :=
  inject_Z (Z.of_nat (List.length (nodup value_eq_dec l))).

(** The gap score as the specification writes it, from the sets of
    intended and actual outcomes and the average metric gap. *)
Definition gapScore (intended actual : list (option Doc)) (avgMetricGap : Q) : Q :=
  clamp (cardinal actual * 10 + avgMetricGap * 50
         + (if Qeq_bool (cardinal intended) 0 then 25 else 0))
        0 100.

Definition mean (l : list Q) : Q :=
  fold_right Qplus 0 l / inject_Z (Z.of_nat (List.length l)).

Definition mean_or_zero (l : list Q) : Q :=
  match l with [] => 0 | _ :: _ => mean l end.

(** [metricGap(m)] for the metrics that have a value and a target, the
    target not being 0; the others contribute nothing. *)
Definition qualifying_gaps (ms : list (option Doc)) : list Q :=
  flat_map
    (fun m => match attr value m, attr target m with
              | Some v, Some t =>
                  if Qeq_bool t 0 then [] else [Qabs (v - t) / t]
              | _, _ => []
              end)
    ms.

(** The vertices at the far end of the [measures] edges that leave the
    initiative, one entry per edge. *)
Definition measured (st : Store) (init : Doc) : list (option Doc) :=
  map (fun e => DOCUMENT st (_to e))
      (filter (fun e => String.eqb (collection (e_id e)) "measures"
                        && id_eqb (_from e) (_id init))
              (edge_documents st)).

(** The average metric gap as the specification writes it: the mean over
    the set of qualifying metrics measured at hop 1, each metric once, and 0
    when there is none. *)
Definition avgMetricGap (st : Store) (init : Doc) : Q :=
  mean_or_zero (qualifying_gaps (nodup value_eq_dec (measured st init))).

(** The scores of the employees that have one. *)
Definition defined_scores (score : Doc -> option Q) (l : list Doc) : list Q :=
  flat_map (fun e => match score e with Some s => [s] | None => [] end) l.

(** The documents of a collection whose department field is the name of
    the department [d]. *)
Definition of_department (st : Store) (c : string) (d : Doc) : list Doc :=
  filter (fun x => Aql.str_eq (department x) (name d)) (FOR_IN st c).

Definition count_status (s : string) (l : list Doc) : Q :=
  inject_Z (Z.of_nat (List.length
    (filter (fun i => Aql.str_eq (status i) (Some s)) l))).

Definition successRatio (completed abandoned : Q) : Q :=
  completed / (completed + abandoned + 1).

(** An edge joins [a] and [b], in either direction. *)
Definition adjacent (e : Edge) (a b : Id) : Prop :=
  (_from e = a /\ _to e = b) \/ (_to e = a /\ _from e = b).

Definition causal_edge (st : Store) (e : Edge) : Prop :=
  In e (edge_documents st) /\ In (collection (e_id e)) causal_graph.

(** [b] is one or two undirected hops away from [a] in [causal_graph]. *)
Definition within_two_hops (st : Store) (a b : Id) : Prop :=
  (exists e, causal_edge st e /\ adjacent e a b)
  \/ (exists e1 e2 x, causal_edge st e1 /\ causal_edge st e2
                      /\ adjacent e1 a x /\ adjacent e2 x b).

(** Some stored initiative is within two hops of the metric. *)
Definition reaches_initiative (st : Store) (m : Doc) : Prop :=
  exists i d, DOCUMENT st i = Some d
              /\ collection i = "initiatives"%string
              /\ within_two_hops st (_id m) i.

(** The strength attribute is absent, null or 0. *)
Definition strength_missing (e : Edge) : Prop :=
  strength e = None \/ exists s, strength e = Some s /\ s == 0.

(** Every edge document has its own handle. *)
Definition unique_edge_handles (st : Store) : Prop :=
  NoDup (map e_id (edge_documents st)).


End Spec.

(** Equality of possibly-null numbers, up to the value of the number. *)
Definition value_eq (a b : option Q) : Prop :=
  match a, b with
  | Some x, Some y => x == y
  | None, None => True
  | _, _ => False
  end.

(* ===================================================================== *)
(** ** InitiativeService.getInitiativeWithOutcomes *)
(* ===================================================================== *)

(** The variable [e] of a traversal: the last edge of the path. *)
Definition edge (w : Visit) : option Edge := last (map Some (p_edges w)) None.

(** The row returned by [getInitiativeWithOutcomes]. *)
Module InitiativeWithOutcomes.
Record t : Type := mk {
  initiative : option Doc;
  intended : list (option Doc);
  actual : list (option Doc);
  gap : option Q
}.
End InitiativeWithOutcomes.

Module InitiativeRead.

Section Queries.

Variable arango : Store.

(** The attribute [severity] of a document, which [Doc] does not carry. *)
Variable severity : Doc -> option Q.

(** [LET outcomes]: one [{outcome: v, link: e}] per hop-1 result. *)
Definition outcomes (initiative : option Doc) : list (option Doc * option Edge) :=
  map (fun w => (vertex arango w, edge w))
      (traversal (edges_of arango ["causes"%string]) OUTBOUND 1 initiative).

Definition intended (initiative : option Doc) : list (option Doc) :=
  map fst
      (filter (fun o => Aql.str_eq (attr type (fst o)) (Some "intended"%string))
              (outcomes initiative)).

Definition actual (initiative : option Doc) : list (option Doc) :=
  map fst
      (filter (fun o => negb (Aql.str_eq (attr type (fst o)) (Some "intended"%string)))
              (outcomes initiative)).

Definition gap (initiative : option Doc) : option Q :=
  if (0 <? List.length (actual initiative))%nat
  then Aql.AVG (map (attr severity) (actual initiative))
  else Some 0.

Definition outcomesQuery (initiativeId : string) : list InitiativeWithOutcomes.t :=
  let initiative := DOCUMENT arango (mkId "initiatives" initiativeId) in
  [ InitiativeWithOutcomes.mk initiative (intended initiative)
                              (actual initiative) (gap initiative) ].

Definition getInitiativeWithOutcomes (initiativeId : string)
  : Promise (option InitiativeWithOutcomes.t) :=
  Fulfilled (first_or_null (outcomesQuery initiativeId)).

End Queries.

End InitiativeRead.

(* ===================================================================== *)
(** ** VisualizationService *)
(* ===================================================================== *)

(** What a lookup [table[key] || fallback] in an object literal can give:
    a string of the table (or the fallback), or the member of the same name
    that every object inherits. *)
Inductive JsValue : Type :=
| JsString (s : string)
| JsInherited (property : string).

(** A JavaScript number: a value, or [NaN]. *)
Inductive JsNumber : Type :=
| JsNum (q : Q)
| JsNaN.

(** What JavaScript reads in a numeric attribute of a returned document:
    [undefined] where the attribute is absent, [null], or the number. *)
Inductive JsAttribute : Type :=
| JsUndefined
| JsNull
| JsStored (q : Q).

(** [a * 10]: [null] counts as 0, [undefined] gives [NaN]. *)
Definition times_ten (a : JsAttribute) : JsNumber :=
  match a with
  | JsStored q => JsNum (q * 10)
  | JsNull => JsNum 0
  | JsUndefined => JsNaN
  end.

Module HeatmapCell.
Record t : Type := mk {
  row : option string;
  column : string;
  value : Q;
  label : string
}.
End HeatmapCell.

Module ScatterPoint.
Record t : Type := mk {
  x : Q;
  y : Q;
  label : option string;
  size : Q;
  color : JsValue
}.
End ScatterPoint.

Module Flow.
Record node_t : Type := mkNode {
  id : Id;
  name : option string;
  type : option string
}.
Record link_t : Type := mkLink {
  source : nat;
  target : nat;
  value : JsNumber
}.
Record t : Type := mk {
  nodes : list node_t;
  links : list link_t
}.
End Flow.

(** A JavaScript [Map] from handles to indices, in insertion order. *)
Definition IndexMap : Type := list (Id * nat).

(** [m.set(k, v)]: replaces the value of a key already present. *)
Definition Map_set (m : IndexMap) (k : Id) (v : nat) : IndexMap :=
  if existsb (fun p => id_eqb (fst p) k) m
  then map (fun p => if id_eqb (fst p) k then (k, v) else p) m
  else m ++ [(k, v)].

Definition Map_get (m : IndexMap) (k : Id) : option nat :=
  match find (fun p => id_eqb (fst p) k) m with
  | Some p => Some (snd p)
  | None => None
  end.


Module VisualizationService.

Section Queries.

Variable arango : Store.

(** The attribute [synergyIndex] of a department document. *)
Variable synergyIndex : Doc -> option Q.

(** [Number.prototype.toFixed(1)]. *)
Variable toFixed1 : Q -> string.

(** Whether a name is a member that every object inherits
    ([toString], [constructor], ...). *)
Variable inherited : string -> bool.

(** Whether an edge document has an attribute [strength] at all.  AQL reads
    an absent attribute and a stored [null] alike, so [strength] is [None]
    for both; JavaScript tells them apart. *)
Variable hasStrength : Edge -> bool.

(** [String.prototype.substring], which counts UTF-16 code units. *)
Variable substring : nat -> nat -> string -> string.

(** *** getDepartmentSynergyHeatmap *)

Definition heatmapQuery : list (option string * Q * Q * Q) :=
  map (fun dept =>
         (name dept,
          Aql.or_else (AnalyticsService.avgWellness arango (Some dept)) 0,
          Aql.or_else (AnalyticsService.avgEngagement arango (Some dept)) 0,
          Aql.or_else (synergyIndex dept) 0))
      (FOR_IN arango "departments").

Definition heatmapCells (dept : option string * Q * Q * Q) : list HeatmapCell.t :=
  match dept with
  | (department, wellness, engagement, synergy) =>
      [ HeatmapCell.mk department "Wellness" wellness (toFixed1 wellness);
        HeatmapCell.mk department "Engagement" engagement (toFixed1 engagement);
        HeatmapCell.mk department "Synergy" synergy (toFixed1 synergy) ]
  end.

Definition getDepartmentSynergyHeatmap : list HeatmapCell.t :=
  flat_map heatmapCells heatmapQuery.

(** *** getIntentionRealityScatter *)

Definition statusColors : list (string * string) :=
  [ ("planned", "#95A5A6"); ("active", "#3498DB");
    ("completed", "#2ECC71"); ("abandoned", "#E74C3C") ]%string.

(** [colors[status] || '#95A5A6']; a [null] status is the key [null]. *)
Definition getStatusColor (status : option string) : JsValue :=
  match status with
  | None => JsString "#95A5A6"
  | Some s =>
      match find (fun p => String.eqb (fst p) s) statusColors with
      | Some p => JsString (snd p)
      | None => if inherited s then JsInherited s else JsString "#95A5A6"
      end
  end.

Definition intendedCount (init : Doc) : Q :=
  Aql.LENGTH (map (fun _ : option Doc => 1)
                  (AnalyticsService.intended arango (Some init))).

Definition unintendedCount (init : Doc) : Q :=
  Aql.LENGTH (map (fun _ : option Doc => 1)
                  (AnalyticsService.actual arango (Some init))).

(** The rows [{name, intended, unintended, status}] of the query. *)
Definition scatterQuery : list (option string * Q * Q * option string) :=
  flat_map
    (fun init =>
       if Aql.gt (Some (intendedCount init)) 0
          || Aql.gt (Some (unintendedCount init)) 0
       then [(name init, intendedCount init, unintendedCount init, status init)]
       else [])
    (FOR_IN arango "initiatives").

Definition scatterPoint (item : option string * Q * Q * option string)
  : ScatterPoint.t :=
  match item with
  | (nm, intended, unintended, st) =>
      ScatterPoint.mk intended unintended nm (intended + unintended)
                      (getStatusColor st)
  end.

Definition getIntentionRealityScatter : list ScatterPoint.t :=
  map scatterPoint scatterQuery.

(** *** getInitiativeOutcomeFlow *)

(** [cause._from LIKE 'initiatives/%'] and [cause._to LIKE 'outcomes/%']. *)
Definition flowLinks : list Edge :=
  filter (fun cause => String.eqb (collection (_to cause)) "outcomes")
         (filter (fun cause => String.eqb (collection (_from cause)) "initiatives")
                 (edges_of arango ["causes"%string])).

Definition initiativeNode (init : Doc) : Flow.node_t :=
  Flow.mkNode (_id init) (name init) (Some "initiative"%string).

(** [outcome.description.substring(0, 40)] throws a TypeError when the
    outcome has no description. *)
Definition outcomeNode (outcome : Doc) : option Flow.node_t :=
  match description outcome with
  | Some text => Some (Flow.mkNode (_id outcome) (Some (substring 0 40 text))
                                   (type outcome))
  | None => None
  end.

(** The second [forEach]: the nodes pushed, unless some callback throws. *)
Fixpoint outcomeNodes (outcomes : list Doc) : option (list Flow.node_t) :=
  match outcomes with
  | [] => Some []
  | o :: rest =>
      match outcomeNode o with
      | None => None
      | Some n =>
          match outcomeNodes rest with
          | Some ns => Some (n :: ns)
          | None => None
          end
      end
  end.

(** [nodeIndexMap.set(doc._id, start + idx)] for each document in turn. *)
Fixpoint index_from (start : nat) (docs : list Doc) (m : IndexMap) : IndexMap :=
  match docs with
  | [] => m
  | d :: rest => index_from (S start) rest (Map_set m (_id d) start)
  end.

Definition nodeIndexMap : IndexMap :=
  index_from (List.length (FOR_IN arango "initiatives"))
             (FOR_IN arango "outcomes")
             (index_from 0 (FOR_IN arango "initiatives") []).

(** [link.strength] of a document of the query's [links]. *)
Definition link_strength (link : Edge) : JsAttribute :=
  match strength link with
  | Some v => JsStored v
  | None => if hasStrength link then JsNull else JsUndefined
  end.

Definition flowLink (link : Edge) : list Flow.link_t :=
  match Map_get nodeIndexMap (_from link), Map_get nodeIndexMap (_to link) with
  | Some s, Some t => [ Flow.mkLink s t (times_ten (link_strength link)) ]
  | _, _ => []
  end.

Definition getInitiativeOutcomeFlow : Promise Flow.t :=
  match outcomeNodes (FOR_IN arango "outcomes") with
  | None => Rejected "TypeError"
  | Some outcomeNodes =>
      Fulfilled
        (Flow.mk (map initiativeNode (FOR_IN arango "initiatives") ++ outcomeNodes)
                 (flat_map flowLink flowLinks))
  end.

End Queries.

End VisualizationService.

(* ===================================================================== *)
(** ** VisualizationService.getCausalGraphData, for a given initiative *)
(* ===================================================================== *)

Definition Edge_eq_dec (a b : Edge) : {a = b} + {a <> b}.
Proof.
  decide equality;
    try (apply Id_eq_dec);
    repeat (decide equality; try apply Q_eq_dec).
Defined.

Definition edge_value_eq_dec (a b : option Edge) : {a = b} + {a <> b}.
Proof. decide equality. apply Edge_eq_dec. Defined.

Module GraphNode.
Record t : Type := mk {
  id : Id;
  label : string;
  type : JsValue;
  properties : Doc;
  size : Q;
  color : option JsValue
}.
End GraphNode.

Module GraphEdge.
Record t : Type := mk {
  source : Id;
  target : Id;
  label : string;
  weight : Q;
  type : string
}.
End GraphEdge.

Module GraphData.
Record t : Type := mk {
  nodes : list GraphNode.t;
  edges : list GraphEdge.t
}.
End GraphData.

Module CausalGraph.

Section Queries.

Variable arango : Store.

(** The attribute [severity] of a vertex and the attribute [type] of an
    edge, which [Doc] and [Edge] do not carry. *)
Variable severity : Doc -> option Q.
Variable edgeType : Edge -> option string.

(** Whether a name is a member that every object inherits. *)
Variable inherited : string -> bool.

(** [String.prototype.substring], which counts UTF-16 code units. *)
Variable substring : nat -> nat -> string -> string.

(** [LET vertices] and [LET edges] of the query for one initiative. *)
Definition vertices (start : option Doc) : list (option Doc) :=
  nodup value_eq_dec
        (map (vertex arango)
             (traversal (edges_of arango causal_graph) ANY 3 start)).

Definition edges (start : option Doc) : list (option Edge) :=
  nodup edge_value_eq_dec
        (map edge (traversal (edges_of arango causal_graph) ANY 3 start)).

(** The one row of the query: [APPEND([start], vertices)] and [edges]. *)
Definition graphQuery (initiativeId : string)
  : list (option Doc) * list (option Edge) :=
  let start := DOCUMENT arango (mkId "initiatives" initiativeId) in
  (start :: vertices start, edges start).

Definition collectionTypes : list (string * string) :=
  [ ("initiatives", "initiative"); ("outcomes", "outcome");
    ("employees", "employee"); ("departments", "department");
    ("metrics", "metric") ]%string.

(** [mapping[collection] || 'outcome']. *)
Definition mapCollectionToType (c : string) : JsValue :=
  match find (fun p => String.eqb (fst p) c) collectionTypes with
  | Some p => JsString (snd p)
  | None => if inherited c then JsInherited c else JsString "outcome"
  end.

(** [(node.severity || 5) * 2] for an outcome, 10 otherwise. *)
Definition calculateNodeSize (node : Doc) (nodeType : JsValue) : Q :=
  match nodeType with
  | JsString "outcome" => Aql.or_else (severity node) 5 * 2
  | _ => 10
  end.

Definition nodeColors : list (string * string) :=
  [ ("initiative", "#4A90E2"); ("outcome", "#E24A4A");
    ("employee", "#50C878"); ("department", "#F5A623");
    ("metric", "#9013FE") ]%string.

(** [colors[type]], without a fallback: [None] is [undefined]. *)
Definition getNodeColor (nodeType : JsValue) : option JsValue :=
  match nodeType with
  | JsString t =>
      match find (fun p => String.eqb (fst p) t) nodeColors with
      | Some p => Some (JsString (snd p))
      | None => if inherited t then Some (JsInherited t) else None
      end
  | JsInherited _ => None
  end.

(** [a || b] on strings: the empty string and [null] are false. *)
Definition string_or (a : option string) (b : string) : string :=
  match a with
  | Some s => if String.eqb s EmptyString then b else s
  | None => b
  end.

(** [v.name || v.description?.substring(0, 30) || v._key]. *)
Definition nodeLabel (v : Doc) : string :=
  string_or (name v)
            (string_or (match description v with
                        | Some text => Some (substring 0 30 text)
                        | None => None
                        end)
                       (key (_id v))).

(** The callback of [data.vertices.map]: reading [v._id] of [null] throws
    a TypeError. *)
Definition graphNode (v : option Doc) : option GraphNode.t :=
  match v with
  | None => None
  | Some d =>
      let nodeType := mapCollectionToType (collection (_id d)) in
      Some (GraphNode.mk (_id d) (nodeLabel d) nodeType d
                         (calculateNodeSize d nodeType) (getNodeColor nodeType))
  end.

(** A [map] whose callback may throw. *)
Fixpoint map_throwing {A B : Type} (f : A -> option B) (l : list A)
  : option (list B) :=
  match l with
  | [] => Some []
  | a :: rest =>
      match f a with
      | None => None
      | Some b =>
          match map_throwing f rest with
          | Some bs => Some (b :: bs)
          | None => None
          end
      end
  end.

(** [filter(e => e._from && e._to)] keeps every edge, a handle being a
    non-empty string; then the mapping callback. *)
Definition graphEdge (e : option Edge) : option GraphEdge.t :=
  match e with
  | None => None
  | Some e =>
      Some (GraphEdge.mk (_from e) (_to e)
                         (string_or (edgeType e) EmptyString)
                         (Aql.or_else (strength e) (1 # 2))
                         (string_or (edgeType e) "unknown"))
  end.

(** The branch of [getCausalGraphData] taken when an initiative identifier
    (a non-empty string) is given. *)
Definition getCausalGraphData (initiativeId : string) : Promise GraphData.t :=
  let data := graphQuery initiativeId in
  match map_throwing graphNode (fst data) with
  | None => Rejected "TypeError"
  | Some nodes =>
      match map_throwing graphEdge (snd data) with
      | None => Rejected "TypeError"
      | Some graphEdges => Fulfilled (GraphData.mk nodes graphEdges)
      end
  end.

End Queries.

End CausalGraph.

(* ===================================================================== *)
(** ** ArangoConnection.initializeCollections *)
(* ===================================================================== *)

Module ArangoConnection.

Inductive CollectionType : Type := document_collection | edge_collection.

(** The collections of a database, by name, in creation order. *)
Definition Database : Type := list (string * CollectionType).

(** [db.collection(name).exists()]. *)
Definition collection_exists (db : Database) (name : string) : bool :=
  existsb (fun c => String.eqb (fst c) name) db.

(** The [collections] table of [initializeCollections]. *)
Definition collections : list (string * CollectionType) :=
  [ ("initiatives", document_collection);
    ("outcomes", document_collection);
    ("employees", document_collection);
    ("metrics", document_collection);
    ("departments", document_collection);
    ("events", document_collection);
    ("causes", edge_collection);
    ("participates_in", edge_collection);
    ("measures", edge_collection);
    ("belongs_to", edge_collection);
    ("influences", edge_collection) ]%string.

(** One turn of the loop: the database afterwards, and the names for which
    a creation has been logged so far. *)
Definition ensure (state : Database * list string)
                  (c : string * CollectionType) : Database * list string :=
  if collection_exists (fst state) (fst c)
  then state
  else (fst state ++ [c], snd state ++ [fst c]).

Definition initializeCollectionsFrom (wanted : list (string * CollectionType))
                                     (db : Database) : Database * list string :=
  fold_left ensure wanted (db, []).

Definition initializeCollections (db : Database) : Database * list string :=
  initializeCollectionsFrom collections db.

End ArangoConnection.

(* ===================================================================== *)
(** ** More vocabulary and stores for the examples *)
(* ===================================================================== *)

Module Shape.

(** The steps form a chain of edges leaving [start], each followed from
    its [_from] to its [_to]. *)
Fixpoint follows (start : Id) (p : list Step) : Prop :=
  match p with
  | [] => True
  | (e, v) :: rest => _from e = start /\ _to e = v /\ follows v rest
  end.

(** A strength attribute, when present, lies between 0 and 1. *)
Definition normalized (e : Edge) : Prop :=
  match strength e with Some s => 0 <= s /\ s <= 1 | None => True end.

(** A score, when present, lies between [lo] and [hi]. *)
Definition within (lo hi : Q) (x : option Q) : Prop :=
  match x with Some q => lo <= q /\ q <= hi | None => True end.


End Shape.

Module MoreFixtures.

Local Open Scope string_scope.

Import Fixtures.

(** The severity of the outcomes of [gap_scenario]: 5 for o1, 8 for o2. *)
Definition severity (d : Doc) : option Q :=
  if String.eqb (key (_id d)) "o1" then Some 5
  else if String.eqb (key (_id d)) "o2" then Some 8
  else None.

(** Two metrics: one 50 of 90 (gap 4/9), one 200 of 100 (gap 1). *)
Definition M_far := metric "m9" (Some 200) (Some 100).
Definition two_metrics : Store := mkStore [M1; M_far] [].

(** Four metrics, stored in the order of the gaps 4/9, 4/5, 1 and 19/20. *)
Definition M_high := metric "m7" (Some 180) (Some 100).
Definition M_near := metric "m8" (Some 195) (Some 100).
Definition graded_metrics : Store := mkStore [M1; M_high; M_far; M_near] [].

(** A department with a stored synergy index, for the heat map. *)
Definition synergyIndex (d : Doc) : option Q :=
  if String.eqb (key (_id d)) "d1" then Some 42 else None.

End MoreFixtures.

(* ===================================================================== *)
(** ** Basic facts *)
(* ===================================================================== *)

Lemma id_eqb_eq (a b : Id) : id_eqb a b = true <-> a = b.
Proof.
  unfold id_eqb. destruct a as [c1 k1], b as [c2 k2]; simpl.
  rewrite andb_true_iff, !String.eqb_eq. split.
  - intros [-> ->]. reflexivity.
  - intros H. inversion H. auto.
Qed.

Lemma id_eqb_refl (a : Id) : id_eqb a a = true.
Proof. apply id_eqb_eq. reflexivity. Qed.

Lemma id_eqb_neq (a b : Id) : id_eqb a b = false <-> a <> b.
Proof.
  split.
  - intros H E. apply id_eqb_eq in E. congruence.
  - intros H. destruct (id_eqb a b) eqn:E; [apply id_eqb_eq in E; contradiction | reflexivity].
Qed.

Lemma DOCUMENT_Some (st : Store) (i : Id) (d : Doc) :
  DOCUMENT st i = Some d -> In d (documents st) /\ _id d = i.
Proof.
  unfold DOCUMENT. intros H. apply find_some in H.
  destruct H as [Hin Heq]. apply id_eqb_eq in Heq. auto.
Qed.

Lemma MIN_is_Qmin (a b : Q) : Aql.MIN a b == Qmin a b.
Proof.
  unfold Aql.MIN. destruct (Qle_bool a b) eqn:E.
  - apply Qle_bool_iff in E. symmetry. apply Q.min_l. exact E.
  - assert (b <= a).
    { destruct (Qlt_le_dec b a) as [H | H]; [apply Qlt_le_weak; exact H |].
      apply Qle_bool_iff in H. congruence. }
    symmetry. apply Q.min_r. assumption.
Qed.

Lemma not_Qle_bool (a b : Q) : negb (Qle_bool a b) = true <-> b < a.
Proof.
  rewrite negb_true_iff. split.
  - intros H. destruct (Qlt_le_dec b a) as [L | L]; [exact L |].
    apply Qle_bool_iff in L. congruence.
  - intros H. destruct (Qle_bool a b) eqn:E; [| reflexivity].
    apply Qle_bool_iff in E. apply Qlt_not_le in H. contradiction.
Qed.

Lemma LENGTH_nonneg {A : Type} (l : list A) : 0 <= Aql.LENGTH l.
Proof.
  unfold Aql.LENGTH, Qle. simpl. lia.
Qed.

Lemma LENGTH_zero {A : Type} (l : list A) :
  Qeq_bool (Aql.LENGTH l) 0 = true <-> l = [].
Proof.
  rewrite Qeq_bool_iff. unfold Aql.LENGTH, Qeq. simpl. split.
  - intros H. destruct l; [reflexivity | simpl in H; lia].
  - intros ->. reflexivity.
Qed.

(* ===================================================================== *)
(** ** The gap score *)
(* ===================================================================== *)

Section GapScore.

Import AnalyticsService.

Variable st : Store.

Lemma non_null_metricGap (ms : list (option Doc)) :
  Aql.non_null
    (map metricGap
         (filter (fun m => Aql.not_null (attr target m)
                           && Aql.not_null (attr value m)) ms))
  = Spec.qualifying_gaps ms.
Proof.
  induction ms as [| m ms IH]; [reflexivity |].
  unfold Spec.qualifying_gaps. cbn [filter flat_map].
  fold (Spec.qualifying_gaps ms). rewrite <- IH.
  destruct (attr target m) as [t |] eqn:Ht;
    destruct (attr value m) as [v |] eqn:Hv; cbn [Aql.not_null andb];
    try reflexivity.
  cbn [map Aql.non_null flat_map]. unfold metricGap at 1.
  rewrite Ht, Hv. unfold Aql.divide, Aql.minus, Aql.ABS.
  cbn [Aql.TO_NUMBER]. destruct (Qeq_bool t 0); reflexivity.
Qed.

(** The query returns exactly one row, whatever the identifier. *)
Lemma gap_one_row (initiativeId : string) :
  exists r, calculateIntentionRealityGap st initiativeId = Fulfilled (Some r)
            /\ IntentionRealityGap.gapScore r
               = Aql.MIN (gapScore st (DOCUMENT st (mkId "initiatives" initiativeId))) 100
            /\ IntentionRealityGap.initiativeId r
               = _key (DOCUMENT st (mkId "initiatives" initiativeId)).
Proof.
  eexists. split; [reflexivity |]. split; reflexivity.
Qed.

Lemma avgMetricGap_number (initiative : option Doc) :
  Aql.TO_NUMBER (avgMetricGap st initiative)
  == Spec.mean_or_zero (Spec.qualifying_gaps (metrics st initiative)).
Proof.
  unfold avgMetricGap, Aql.AVG. rewrite non_null_metricGap.
  destruct (metrics st initiative) as [| m ms]; [reflexivity |].
  change (0 <? List.length (m :: ms))%nat with true. cbv iota.
  destruct (Spec.qualifying_gaps (m :: ms)); reflexivity.
Qed.

Lemma cardinal_NoDup (l : list (option Doc)) :
  NoDup l -> Spec.cardinal l = Aql.LENGTH l.
Proof.
  intros H. unfold Spec.cardinal, Aql.LENGTH.
  rewrite (nodup_fixed_point value_eq_dec H). reflexivity.
Qed.

Lemma cardinal_zero (l : list (option Doc)) :
  Qeq_bool (Spec.cardinal l) 0 = Qeq_bool (Aql.LENGTH l) 0.
Proof.
  destruct l as [| x l]; [reflexivity |].
  assert (Hl : Qeq_bool (Aql.LENGTH (x :: l)) 0 = false).
  { destruct (Qeq_bool (Aql.LENGTH (x :: l)) 0) eqn:E; [| reflexivity].
    apply LENGTH_zero in E. discriminate. }
  rewrite Hl. unfold Spec.cardinal.
  destruct (nodup value_eq_dec (x :: l)) as [| y n] eqn:E.
  - assert (In x (nodup value_eq_dec (x :: l))) as Hin
        by (apply nodup_In; left; reflexivity).
    rewrite E in Hin. contradiction.
  - destruct (Qeq_bool (inject_Z (Z.of_nat (List.length (y :: n)))) 0) eqn:F;
      [| reflexivity].
    apply (LENGTH_zero (y :: n)) in F. discriminate.
Qed.

(** Where no outcome is listed twice and the sum is not negative, the
    returned score is the specification's. *)
Lemma gapScore_matches_spec (initiativeId : string) :
  let initiative := DOCUMENT st (mkId "initiatives" initiativeId) in
  NoDup (actual st initiative) ->
  0 <= gapScore st initiative ->
  exists r, calculateIntentionRealityGap st initiativeId = Fulfilled (Some r)
            /\ IntentionRealityGap.gapScore r
               == Spec.gapScore (intended st initiative) (actual st initiative)
                    (Spec.mean_or_zero
                       (Spec.qualifying_gaps (metrics st initiative))).
Proof.
  intros initiative Hnd Hpos.
  destruct (gap_one_row initiativeId) as [r [Hr [Hs _]]].
  exists r. split; [exact Hr |]. rewrite Hs. fold initiative.
  unfold Spec.gapScore, Spec.clamp.
  rewrite cardinal_NoDup by exact Hnd. rewrite cardinal_zero.
  rewrite <- avgMetricGap_number. fold (gapScore st initiative).
  rewrite MIN_is_Qmin.
  symmetry. apply Q.max_r. apply Q.min_glb; [exact Hpos | discriminate].
Qed.

End GapScore.

Section GapClaims.

Import AnalyticsService Fixtures.

(** The scenario of the specification: one intended and one unintended
    outcome at hop 1 and one metric at 50 of 90 give 290/9, about 32.2,
    and the word moderate. *)
Lemma gap_scenario_score :
  exists r, calculateIntentionRealityGap gap_scenario "i1" = Fulfilled (Some r)
            /\ IntentionRealityGap.gapScore r == 290 # 9
            /\ 322 # 10 <= IntentionRealityGap.gapScore r
            /\ IntentionRealityGap.gapScore r < 323 # 10
            /\ divergence (gapScore gap_scenario (Some I1)) = "moderate"%string
            /\ intended gap_scenario (Some I1) = [Some O1]
            /\ actual gap_scenario (Some I1) = [Some O2].
Proof.
  eexists. split; [reflexivity |].
  repeat split; vm_compute; congruence.
Qed.

(** C1. On a store where the initiative measures a metric with a negative
    target (value 50, target -10), [calculateIntentionRealityGap] returns
    the gap score -300: the sum is capped at 100 but not raised to 0, where
    the specification's clamp gives 0. *)
Theorem gapScore_negative_on_negative_target :
  exists r, calculateIntentionRealityGap negative_target "i1" = Fulfilled (Some r)
            /\ IntentionRealityGap.gapScore r == - (300)
            /\ IntentionRealityGap.gapScore r < 0
            /\ Spec.gapScore (intended negative_target (Some I1))
                             (actual negative_target (Some I1))
                             (Spec.mean_or_zero
                                (Spec.qualifying_gaps
                                   (metrics negative_target (Some I1))))
               == 0.
Proof.
  eexists. split; [reflexivity |].
  repeat split; vm_compute; congruence.
Qed.

(** C4. After two [linkCause] calls for the same initiative and outcome,
    the [actual] list of [calculateIntentionRealityGap] holds the outcome
    twice and the score counts it twice (45 instead of 35); so does an
    outcome reached through two intermediate vertices.
    [findUnintendedConsequences] returns it once. *)
Theorem actual_lists_outcome_once_per_path :
  actual linked_twice (Some I1) = [Some O2; Some O2]
  /\ ~ NoDup (actual linked_twice (Some I1))
  /\ actual diamond (Some I1) = [Some O2; Some O2]
  /\ InitiativeService.findUnintendedConsequences linked_twice "i1" = [Some O2]
  /\ InitiativeService.findUnintendedConsequences diamond "i1" = [Some O2]
  /\ (exists r, calculateIntentionRealityGap linked_once "i1" = Fulfilled (Some r)
                /\ IntentionRealityGap.gapScore r == 35)
  /\ (exists r, calculateIntentionRealityGap linked_twice "i1" = Fulfilled (Some r)
                /\ IntentionRealityGap.gapScore r == 45).
Proof.
  split; [reflexivity |].
  split.
  { change (actual linked_twice (Some I1)) with [Some O2; Some O2].
    intros H. inversion H as [| x l Hin _]. apply Hin. left. reflexivity. }
  split; [reflexivity |].
  split; [vm_compute; reflexivity |].
  split; [vm_compute; reflexivity |].
  split; eexists; (split; [reflexivity | vm_compute; reflexivity]).
Qed.

(** C5, the claim as stated fails: on the empty store the identifier
    resolves to nothing, and both operations fulfil with a row instead of
    rejecting with NotFoundError. *)
Lemma unresolved_identifier_not_rejected :
  DOCUMENT empty (mkId "initiatives" "ghost") = None
  /\ DOCUMENT empty (mkId "departments" "ghost") = None
  /\ calculateIntentionRealityGap empty "ghost" <> Rejected "NotFoundError"
  /\ calculateDepartmentSynergy empty "ghost" <> Rejected "NotFoundError"
  /\ (exists r, calculateIntentionRealityGap empty "ghost" = Fulfilled (Some r)
                /\ IntentionRealityGap.gapScore r == 25)
  /\ (exists r, calculateDepartmentSynergy empty "ghost" = Fulfilled (Some r)
                /\ Synergy.synergyScore r == 0).
Proof.
  split; [reflexivity |]. split; [reflexivity |].
  split; [discriminate |]. split; [discriminate |].
  split; eexists; (split; [reflexivity | vm_compute; reflexivity]).
Qed.

(** C5, amended. Neither operation fails with NotFoundError: for every
    identifier, whether or not it resolves, each call is fulfilled and
    nothing is raised.  For an identifier that resolves the result is the
    row of that initiative, whose initiativeId is the identifier, or of that
    department. *)
Theorem analytics_fulfil_for_every_identifier (st : Store) (id : string) :
  (exists v, calculateIntentionRealityGap st id = Fulfilled v)
  /\ (exists v, calculateDepartmentSynergy st id = Fulfilled v)
  /\ (forall error, calculateIntentionRealityGap st id <> Rejected error)
  /\ (forall error, calculateDepartmentSynergy st id <> Rejected error)
  /\ (forall init,
         DOCUMENT st (mkId "initiatives" id) = Some init ->
         exists r, calculateIntentionRealityGap st id = Fulfilled (Some r)
                   /\ IntentionRealityGap.initiativeId r = Some id
                   /\ IntentionRealityGap.initiativeName r = name init)
  /\ (forall d,
         DOCUMENT st (mkId "departments" id) = Some d ->
         exists s, calculateDepartmentSynergy st id = Fulfilled (Some s)
                   /\ Synergy.department s = Some d).
Proof.
  split; [eexists; reflexivity |]. split; [eexists; reflexivity |].
  split; [discriminate |]. split; [discriminate |]. split.
  - intros init Hinit. eexists. split; [reflexivity |].
    cbn [IntentionRealityGap.initiativeId IntentionRealityGap.initiativeName].
    rewrite Hinit. destruct (DOCUMENT_Some _ _ _ Hinit) as [_ Hid].
    cbn [_key attr]. rewrite Hid. split; reflexivity.
  - intros d Hd. eexists. split; [reflexivity |].
    cbn [Synergy.department]. exact Hd.
Qed.

End GapClaims.

(* ===================================================================== *)
(** ** Facts about the traversal *)
(* ===================================================================== *)

Lemma edges_of_In (st : Store) (cs : list string) (e : Edge) :
  In e (edges_of st cs)
  <-> In e (edge_documents st) /\ In (collection (e_id e)) cs.
Proof.
  unfold edges_of. rewrite filter_In, existsb_exists. split.
  - intros [H [c [Hc Heq]]]. apply String.eqb_eq in Heq. subst c. auto.
  - intros [H Hc]. split; [exact H |].
    exists (collection (e_id e)). split; [exact Hc | apply String.eqb_refl].
Qed.

Lemma edge_used_false (e : Edge) (used : list Id) :
  edge_used e used = false <-> ~ In (e_id e) used.
Proof.
  unfold edge_used. split.
  - intros H Hin.
    assert (existsb (id_eqb (e_id e)) used = true) as T.
    { apply existsb_exists. exists (e_id e). split; [exact Hin | apply id_eqb_refl]. }
    congruence.
  - intros H. destruct (existsb (id_eqb (e_id e)) used) eqn:E; [| reflexivity].
    apply existsb_exists in E. destruct E as [x [Hx Heq]].
    apply id_eqb_eq in Heq. subst x. contradiction.
Qed.

Section Extend.

Variable E : list Edge.
Variable dir : Direction.

Lemma extend_inv (d : nat) (cur : Id) (used : list Id) (w : Visit) :
  In w (extend E dir (S d) cur used) ->
  exists e v, In e E /\ edge_used e used = false
              /\ In v (neighbours dir cur e)
              /\ (w = (v, [(e, v)])
                  \/ exists w', In w' (extend E dir d v (e_id e :: used))
                                /\ w = (fst w', (e, v) :: snd w')).
Proof.
  cbn [extend]. intros H. apply in_flat_map in H.
  destruct H as [e [He H]]. destruct (edge_used e used) eqn:U; [contradiction |].
  apply in_flat_map in H. destruct H as [v [Hv H]].
  exists e, v. repeat split; auto.
  destruct H as [H | H]; [left; symmetry; exact H | right].
  apply in_map_iff in H. destruct H as [w' [Hw' Hin]].
  exists w'. split; [exact Hin | symmetry; exact Hw'].
Qed.

Lemma extend_first_hop (d : nat) (cur : Id) (used : list Id) (e : Edge) (v : Id) :
  In e E -> edge_used e used = false -> In v (neighbours dir cur e) ->
  In (v, [(e, v)]) (extend E dir (S d) cur used).
Proof.
  intros He U Hv. cbn [extend]. apply in_flat_map. exists e. split; [exact He |].
  rewrite U. apply in_flat_map. exists v. split; [exact Hv |]. left. reflexivity.
Qed.

Lemma extend_next_hop (d : nat) (cur : Id) (used : list Id) (e : Edge) (v : Id)
      (w : Visit) :
  In e E -> edge_used e used = false -> In v (neighbours dir cur e) ->
  In w (extend E dir d v (e_id e :: used)) ->
  In (fst w, (e, v) :: snd w) (extend E dir (S d) cur used).
Proof.
  intros He U Hv Hw. cbn [extend]. apply in_flat_map. exists e. split; [exact He |].
  rewrite U. apply in_flat_map. exists v. split; [exact Hv |]. right.
  apply in_map_iff. exists w. split; [reflexivity | exact Hw].
Qed.


End Extend.

Lemma neighbours_OUTBOUND (cur v : Id) (e : Edge) :
  In v (neighbours OUTBOUND cur e) <-> _from e = cur /\ _to e = v.
Proof.
  simpl. destruct (id_eqb (_from e) cur) eqn:Q.
  - apply id_eqb_eq in Q. simpl. split.
    + intros [H | []]. auto.
    + intros [_ H]. left. exact H.
  - apply id_eqb_neq in Q. simpl. split; [contradiction | intros [H _]; contradiction].
Qed.

Lemma neighbours_ANY (cur v : Id) (e : Edge) :
  In v (neighbours ANY cur e) <-> Spec.adjacent e cur v.
Proof.
  unfold Spec.adjacent. simpl. rewrite in_app_iff.
  destruct (id_eqb (_from e) cur) eqn:Q1; destruct (id_eqb (_to e) cur) eqn:Q2;
    first [apply id_eqb_eq in Q1 | apply (proj1 (id_eqb_neq _ _)) in Q1];
    first [apply id_eqb_eq in Q2 | apply (proj1 (id_eqb_neq _ _)) in Q2];
    simpl; intuition.
Qed.

Lemma extend_path_edges (E : list Edge) (dir : Direction) (d : nat)
      (cur : Id) (used : list Id) (w : Visit) :
  In w (extend E dir d cur used) -> Forall (fun e => In e E) (p_edges w).
Proof.
  revert cur used w. induction d as [| d IH]; intros cur used w H; [contradiction |].
  apply extend_inv in H. destruct H as [e [v [He [_ [_ H]]]]].
  destruct H as [-> | [w' [Hw' ->]]]; unfold p_edges; simpl.
  - constructor; [exact He | constructor].
  - constructor; [exact He | apply (IH _ _ _ Hw')].
Qed.

(* ===================================================================== *)
(** ** Path strength *)
(* ===================================================================== *)

Section PathStrength.

Import AnalyticsService.

Lemma PRODUCT_app (l1 l2 : list Q) :
  Aql.PRODUCT (l1 ++ l2) == Aql.PRODUCT l1 * Aql.PRODUCT l2.
Proof.
  induction l1 as [| x l1 IH]; simpl.
  - ring.
  - rewrite IH. ring.
Qed.

Lemma or_else_stored (s : Q) (d : Q) :
  ~ s == 0 -> Aql.or_else (Some s) d = s.
Proof.
  intros H. unfold Aql.or_else, Aql.truthy.
  destruct (Qeq_bool s 0) eqn:E; [apply Qeq_bool_iff in E; contradiction | reflexivity].
Qed.

Lemma or_else_missing (e : Edge) (d : Q) :
  Spec.strength_missing e -> Aql.or_else (strength e) d = d.
Proof.
  intros [H | [s [H Hs]]]; rewrite H; unfold Aql.or_else, Aql.truthy.
  - reflexivity.
  - apply Qeq_bool_iff in Hs. rewrite Hs. reflexivity.
Qed.

Lemma PRODUCT_stored (es : list Edge) (ss : list Q) :
  Forall2 (fun e s => strength e = Some s /\ ~ s == 0) es ss ->
  Aql.PRODUCT (map (fun edge => Aql.or_else (strength edge) (1 # 2)) es)
  == Aql.PRODUCT ss.
Proof.
  induction 1 as [| e s es ss [Hs Hnz] _ IH]; simpl; [reflexivity |].
  rewrite Hs, (or_else_stored _ _ Hnz), IH. reflexivity.
Qed.

Lemma PRODUCT_missing (es : list Edge) :
  Forall Spec.strength_missing es ->
  Aql.PRODUCT (map (fun edge => Aql.or_else (strength edge) (1 # 2)) es)
  == (1 # 2) ^ Z.of_nat (List.length es).
Proof.
  induction 1 as [| e es He _ IH]; [reflexivity |].
  cbn [map Aql.PRODUCT fold_right List.length].
  fold (Aql.PRODUCT (map (fun edge => Aql.or_else (strength edge) (1 # 2)) es)).
  rewrite (or_else_missing _ _ He), IH.
  rewrite Nat2Z.inj_succ, <- Z.add_1_l.
  rewrite Qpower_plus by discriminate. reflexivity.
Qed.

Lemma half_power_positive (n : nat) : 0 < (1 # 2) ^ Z.of_nat n.
Proof.
  apply Qpower_0_lt. reflexivity.
Qed.

Variable st : Store.

Lemma traceCausalPath_rows (fromId toId : Id) (maxDepth : option nat)
      (r : CausalPath.t) :
  In r (traceCausalPath st fromId toId maxDepth) ->
  exists w,
    In w (causalPaths st fromId toId
            (match maxDepth with Some d => d | None => 5%nat end))
    /\ r = causalPathRow st fromId toId w.
Proof.
  unfold traceCausalPath. intros H. apply in_map_iff in H.
  destruct H as [w [Hr Hw]]. exists w. split; [exact Hw | symmetry; exact Hr].
Qed.

Lemma causalPaths_edges (fromId toId : Id) (d : nat) (w : Visit) :
  In w (causalPaths st fromId toId d) ->
  Forall (fun e => In e (edge_documents st)
                   /\ collection (e_id e) = "causes"%string)
         (p_edges w).
Proof.
  unfold causalPaths. intros H. apply filter_In in H. destruct H as [H _].
  unfold traversal in H. destruct (DOCUMENT st fromId); [| contradiction].
  apply extend_path_edges in H. apply Forall_forall.
  intros e He. rewrite Forall_forall in H. specialize (H e He).
  apply edges_of_In in H. destruct H as [H1 [H2 | []]]. auto.
Qed.

(** A two-hop chain of [causes] edges between stored vertices is among the
    reported paths as soon as the depth bound allows two hops. *)
Lemma two_hop_path_is_reported (a b c : Id) (e1 e2 : Edge) (da dc : Doc) (d : nat) :
  In e1 (edge_documents st) -> collection (e_id e1) = "causes"%string ->
  In e2 (edge_documents st) -> collection (e_id e2) = "causes"%string ->
  _from e1 = a -> _to e1 = b -> _from e2 = b -> _to e2 = c ->
  e_id e2 <> e_id e1 ->
  DOCUMENT st a = Some da -> DOCUMENT st c = Some dc ->
  In (causalPathRow st a c (c, [(e1, b); (e2, c)]))
     (traceCausalPath st a c (Some (S (S d)))).
Proof.
  intros H1 C1 H2 C2 F1 T1 F2 T2 Hne Da Dc.
  unfold traceCausalPath. apply in_map. unfold causalPaths.
  apply filter_In. split.
  - rewrite Da. unfold traversal.
    destruct (DOCUMENT_Some _ _ _ Da) as [_ Ha]. rewrite Ha.
    apply (extend_next_hop _ _ _ _ _ e1 b (c, [(e2, c)])).
    + apply edges_of_In. split; [exact H1 | rewrite C1; left; reflexivity].
    + reflexivity.
    + apply neighbours_OUTBOUND. auto.
    + apply extend_first_hop.
      * apply edges_of_In. split; [exact H2 | rewrite C2; left; reflexivity].
      * apply edge_used_false. intros [H | []]. congruence.
      * apply neighbours_OUTBOUND. auto.
  - unfold vertex. simpl. rewrite Dc.
    destruct (DOCUMENT_Some _ _ _ Dc) as [_ Hc]. rewrite Hc. apply id_eqb_refl.
Qed.

End PathStrength.

Section PathStrengthClaims.

Import AnalyticsService Fixtures.

(** The chain of the unit test, strengths 0.8 and 0.7: the one reported
    path has strength 0.56, which is neither the sum nor the minimum. *)
Lemma chain_strength_is_product :
  map CausalPath.totalStrength
      (traceCausalPath (chain (Some (8 # 10)) (Some (7 # 10))) (_id I1) (_id O2) None)
  = [(8 # 10) * ((7 # 10) * 1)]
  /\ (8 # 10) * ((7 # 10) * 1) == (8 # 10) * (7 # 10)
  /\ ~ (8 # 10) * ((7 # 10) * 1) == (8 # 10) + (7 # 10)
  /\ ~ (8 # 10) * ((7 # 10) * 1) == Qmin (8 # 10) (7 # 10).
Proof.
  split; [reflexivity |]. split; [reflexivity |]. split; vm_compute; discriminate.
Qed.

(** C3, the claim as stated fails: on the chain I1 -> O1 -> O2 with stored
    strengths 0 and 0.7 the reported total strength is 0.35, not the
    product 0 of the two strengths. *)
Lemma zero_strength_not_multiplied :
  ~ (forall r,
        In r (traceCausalPath (chain (Some 0) (Some (7 # 10)))
                              (_id I1) (_id O2) None) ->
        CausalPath.totalStrength r == 0 * (7 # 10)).
Proof.
  intros H.
  specialize (H (causalPathRow (chain (Some 0) (Some (7 # 10))) (_id I1) (_id O2)
                   (_id O2, [ (link "causes" "c1" I1 O1 (Some 0), _id O1);
                              (link "causes" "c2" O1 O2 (Some (7 # 10)), _id O2) ]))).
  assert (Hin : In (causalPathRow (chain (Some 0) (Some (7 # 10))) (_id I1) (_id O2)
                   (_id O2, [ (link "causes" "c1" I1 O1 (Some 0), _id O1);
                              (link "causes" "c2" O1 O2 (Some (7 # 10)), _id O2) ]))
                   (traceCausalPath (chain (Some 0) (Some (7 # 10)))
                                    (_id I1) (_id O2) None)).
  { left. reflexivity. }
  specialize (H Hin). vm_compute in H. discriminate.
Qed.

(** C3, amended. For every path reported by [traceCausalPath] whose edges
    all store a strength other than 0, [totalStrength] is the product of
    the stored strengths; for a two-hop path with such strengths s1 and s2
    it is s1 * s2.  And every two-hop chain A -> B -> C of [causes] edges
    with such strengths is reported, with total strength s1 * s2, once the
    depth bound allows two hops.  (An edge whose strength is absent, null
    or 0 enters the product as 0.5.) *)
Theorem totalStrength_is_product_of_stored_strengths :
  (forall (st : Store) (fromId toId : Id) (maxDepth : option nat)
          (r : CausalPath.t),
      In r (traceCausalPath st fromId toId maxDepth) ->
      exists w,
        In w (causalPaths st fromId toId
                (match maxDepth with Some d => d | None => 5%nat end))
        /\ r = causalPathRow st fromId toId w
        /\ Forall (fun e => In e (edge_documents st)
                            /\ collection (e_id e) = "causes"%string)
                  (p_edges w)
        /\ (forall ss,
               Forall2 (fun e s => strength e = Some s /\ ~ s == 0) (p_edges w) ss ->
               CausalPath.totalStrength r == Aql.PRODUCT ss)
        /\ (forall e1 e2 s1 s2,
               p_edges w = [e1; e2] ->
               strength e1 = Some s1 -> strength e2 = Some s2 ->
               ~ s1 == 0 -> ~ s2 == 0 ->
               CausalPath.totalStrength r == s1 * s2))
  /\ (forall (st : Store) (a b c : Id) (e1 e2 : Edge) (da dc : Doc)
             (s1 s2 : Q) (d : nat),
         In e1 (edge_documents st) -> collection (e_id e1) = "causes"%string ->
         In e2 (edge_documents st) -> collection (e_id e2) = "causes"%string ->
         _from e1 = a -> _to e1 = b -> _from e2 = b -> _to e2 = c ->
         e_id e2 <> e_id e1 ->
         DOCUMENT st a = Some da -> DOCUMENT st c = Some dc ->
         strength e1 = Some s1 -> strength e2 = Some s2 ->
         ~ s1 == 0 -> ~ s2 == 0 ->
         exists r,
           In r (traceCausalPath st a c (Some (S (S d))))
           /\ CausalPath.totalStrength r == s1 * s2
           /\ CausalPath.length r == 3).
Proof.
  split.
  - intros st fromId toId maxDepth r H.
    apply traceCausalPath_rows in H. destruct H as [w [Hw ->]].
    exists w. split; [exact Hw |]. split; [reflexivity |].
    split; [apply (causalPaths_edges _ _ _ _ _ Hw) |].
    split.
    + intros ss Hss. simpl. unfold totalStrength. apply PRODUCT_stored. exact Hss.
    + intros e1 e2 s1 s2 He H1 H2 N1 N2. simpl. unfold totalStrength.
      rewrite He. simpl. rewrite H1, H2.
      rewrite (or_else_stored _ _ N1), (or_else_stored _ _ N2). ring.
  - intros st a b c e1 e2 da dc s1 s2 d H1 C1 H2 C2 F1 T1 F2 T2 Hne Da Dc S1 S2 N1 N2.
    exists (causalPathRow st a c (c, [(e1, b); (e2, c)])).
    split; [apply (two_hop_path_is_reported st a b c e1 e2 da dc d); assumption |].
    split; [| reflexivity].
    simpl. unfold totalStrength, p_edges. simpl. rewrite S1, S2.
    rewrite (or_else_stored _ _ N1), (or_else_stored _ _ N2). ring.
Qed.

(** C10. In every path reported by [traceCausalPath], an edge whose
    strength is absent, null or 0 contributes the factor 0.5: the total is
    0.5 times the product of the other edges' factors.  A path made only
    of such edges has total strength 0.5 to the number of its edges, which
    is strictly positive. *)
Theorem missing_strength_counts_as_half
        (st : Store) (fromId toId : Id) (maxDepth : option nat)
        (r : CausalPath.t) :
  In r (traceCausalPath st fromId toId maxDepth) ->
  exists w,
    In w (causalPaths st fromId toId
            (match maxDepth with Some d => d | None => 5%nat end))
    /\ r = causalPathRow st fromId toId w
    /\ (forall es1 e es2,
           p_edges w = es1 ++ e :: es2 ->
           Spec.strength_missing e ->
           CausalPath.totalStrength r
           == (1 # 2)
              * Aql.PRODUCT
                  (map (fun edge => Aql.or_else (strength edge) (1 # 2))
                       (es1 ++ es2)))
    /\ (Forall Spec.strength_missing (p_edges w) ->
        CausalPath.totalStrength r
        == (1 # 2) ^ Z.of_nat (List.length (p_edges w))
        /\ 0 < CausalPath.totalStrength r).
Proof.
  intros H. apply traceCausalPath_rows in H. destruct H as [w [Hw ->]].
  exists w. split; [exact Hw |]. split; [reflexivity |]. split.
  - intros es1 e es2 He Hm. simpl. unfold totalStrength. rewrite He.
    rewrite !map_app, !PRODUCT_app. cbn [map Aql.PRODUCT fold_right].
    rewrite (or_else_missing _ _ Hm).
    fold (Aql.PRODUCT (map (fun edge => Aql.or_else (strength edge) (1 # 2)) es2)).
    ring.
  - intros Hall. simpl. unfold totalStrength.
    rewrite (PRODUCT_missing _ Hall). split; [reflexivity |].
    apply half_power_positive.
Qed.

End PathStrengthClaims.

(* ===================================================================== *)
(** ** Department synergy *)
(* ===================================================================== *)

Section Synergy.

Import AnalyticsService Fixtures.

Lemma non_null_scores (score : Doc -> option Q) (l : list Doc) :
  Aql.non_null (map score (filter (fun emp => Aql.not_null (score emp)) l))
  = Spec.defined_scores score l.
Proof.
  induction l as [| e l IH]; [reflexivity |].
  unfold Spec.defined_scores. cbn [filter flat_map].
  fold (Spec.defined_scores score l). rewrite <- IH.
  destruct (score e) as [s |] eqn:Hs; cbn [Aql.not_null].
  - cbn [map Aql.non_null flat_map]. rewrite Hs. reflexivity.
  - reflexivity.
Qed.

Lemma AVG_scores (score : Doc -> option Q) (l : list Doc) :
  Aql.TO_NUMBER
    (Aql.AVG (map score (filter (fun emp => Aql.not_null (score emp)) l)))
  == Spec.mean_or_zero (Spec.defined_scores score l).
Proof.
  unfold Aql.AVG. rewrite non_null_scores.
  destruct (Spec.defined_scores score l); reflexivity.
Qed.

Lemma divide_by_positive (a b : Q) :
  0 < b -> Aql.TO_NUMBER (Aql.divide a (Some b)) == a / b.
Proof.
  intros Hb. unfold Aql.divide. cbn [Aql.TO_NUMBER].
  destruct (Qeq_bool b 0) eqn:E; [| reflexivity].
  apply Qeq_bool_iff in E. rewrite E in Hb. discriminate.
Qed.

Lemma successRate_ratio (st : Store) (dept : option Doc) :
  successRate st dept
  == Spec.successRatio (completedInitiatives st dept) (abandonedInitiatives st dept).
Proof.
  unfold successRate, Spec.successRatio. apply divide_by_positive.
  pose proof (LENGTH_nonneg
                (filter (fun init => Aql.str_eq (status init) (Some "completed"%string))
                        (initiatives st dept))) as Hc.
  pose proof (LENGTH_nonneg
                (filter (fun init => Aql.str_eq (status init) (Some "abandoned"%string))
                        (initiatives st dept))) as Ha.
  unfold completedInitiatives, abandonedInitiatives. lra.
Qed.

Lemma synergyGrade_cases (score : Q) :
  (80 < score -> synergyGrade score = "SYNERGIZED"%string)
  /\ (60 < score -> score <= 80 -> synergyGrade score = "ALIGNED"%string)
  /\ (score <= 60 -> synergyGrade score = "SILOED"%string).
Proof.
  unfold synergyGrade. repeat split.
  - intros H. apply not_Qle_bool in H. rewrite H. reflexivity.
  - intros H1 H2. apply Qle_bool_iff in H2. rewrite H2.
    apply not_Qle_bool in H1. rewrite H1. reflexivity.
  - intros H. assert (H' : score <= 80) by lra.
    apply Qle_bool_iff in H. apply Qle_bool_iff in H'. rewrite H, H'. reflexivity.
Qed.

(** C6. For a department that resolves, the returned [synergyScore] is
    avgWellness * 0.3 + avgEngagement * 0.3 + successRatio * 40, the
    averages being the means over the department's employees that have the
    score (0 when none has), successRatio being
    completed / (completed + abandoned + 1) over its initiatives, and the
    grade is SYNERGIZED above 80, ALIGNED above 60, SILOED otherwise.  With
    wellness 80 and 70, engagement 75 and 65, one completed and one
    abandoned initiative the score is 341/6, about 56.83, graded SILOED. *)
Theorem synergyScore_formula :
  (forall (st : Store) (id : string) (d : Doc),
      DOCUMENT st (mkId "departments" id) = Some d ->
      exists r,
        calculateDepartmentSynergy st id = Fulfilled (Some r)
        /\ Synergy.synergyScore r
           == Spec.mean_or_zero
                (Spec.defined_scores wellnessScore
                   (Spec.of_department st "employees" d)) * (3 # 10)
              + Spec.mean_or_zero
                  (Spec.defined_scores engagementLevel
                     (Spec.of_department st "employees" d)) * (3 # 10)
              + Spec.successRatio
                  (Spec.count_status "completed"
                     (Spec.of_department st "initiatives" d))
                  (Spec.count_status "abandoned"
                     (Spec.of_department st "initiatives" d)) * 40
        /\ (80 < Synergy.synergyScore r ->
            Synergy.synergyGrade r = "SYNERGIZED"%string)
        /\ (60 < Synergy.synergyScore r -> Synergy.synergyScore r <= 80 ->
            Synergy.synergyGrade r = "ALIGNED"%string)
        /\ (Synergy.synergyScore r <= 60 ->
            Synergy.synergyGrade r = "SILOED"%string))
  /\ (exists r,
         calculateDepartmentSynergy engineering "d1" = Fulfilled (Some r)
         /\ value_eq (Synergy.avgWellness r) (Some 75)
         /\ value_eq (Synergy.avgEngagement r) (Some 70)
         /\ Synergy.initiativeSuccessRate r == 1 # 3
         /\ Synergy.synergyScore r == 341 # 6
         /\ 5683 # 100 <= Synergy.synergyScore r
         /\ Synergy.synergyScore r < 5684 # 100
         /\ Synergy.synergyGrade r = "SILOED"%string).
Proof.
  split.
  - intros st id d Hd. eexists. split; [reflexivity |].
    cbn [Synergy.synergyScore Synergy.synergyGrade first_or_null hd_error synergyQuery].
    rewrite Hd. split; [| apply synergyGrade_cases].
    unfold synergyScore, avgWellness, avgEngagement.
    rewrite !AVG_scores, successRate_ratio. reflexivity.
  - eexists. split; [reflexivity |].
    repeat split; vm_compute; congruence.
Qed.

End Synergy.

(* ===================================================================== *)
(** ** Gameable metrics *)
(* ===================================================================== *)

Section Gameable.

Import AnalyticsService Fixtures.

Variable st : Store.

Lemma insert_by_gap_perm (r : Doc * option Q) (l : list (Doc * option Q)) :
  Permutation (insert_by_gap r l) (r :: l).
Proof.
  induction l as [| x l IH]; simpl; [apply Permutation_refl |].
  destruct (Aql.gt (snd x) (Aql.TO_NUMBER (snd r))).
  - apply Permutation_trans with (x :: r :: l).
    + apply perm_skip. exact IH.
    + apply perm_swap.
  - apply Permutation_refl.
Qed.

Lemma SORT_gap_DESC_perm (l : list (Doc * option Q)) :
  Permutation (SORT_gap_DESC l) l.
Proof.
  induction l as [| r l IH]; simpl; [apply Permutation_refl |].
  apply Permutation_trans with (r :: SORT_gap_DESC l).
  - apply insert_by_gap_perm.
  - apply perm_skip. exact IH.
Qed.

Lemma insert_by_gap_sorted (r : Doc * option Q) (l : list (Doc * option Q)) :
  Forall (fun x => snd x <> None) l ->
  StronglySorted (fun a b => Aql.TO_NUMBER (snd b) <= Aql.TO_NUMBER (snd a)) l ->
  StronglySorted (fun a b => Aql.TO_NUMBER (snd b) <= Aql.TO_NUMBER (snd a))
                 (insert_by_gap r l).
Proof.
  intros Hsome Hs. induction Hs as [| x l Hs IH Hx]; simpl.
  - constructor; constructor.
  - inversion Hsome as [| ? ? Hxs Hls]; subst.
    destruct (snd x) as [gx |] eqn:Ex; [| congruence].
    cbn [Aql.gt]. destruct (negb (Qle_bool gx (Aql.TO_NUMBER (snd r)))) eqn:C.
    + apply not_Qle_bool in C. constructor; [apply IH; exact Hls |].
      rewrite Ex.
      apply (Permutation_Forall (Permutation_sym (insert_by_gap_perm r l))).
      constructor; [simpl; lra | exact Hx].
    + apply negb_false_iff, Qle_bool_iff in C.
      constructor; [constructor; [exact Hs | rewrite Ex; exact Hx] |].
      constructor; [rewrite Ex; exact C |].
      eapply Forall_impl; [| exact Hx].
      intros a Ha. simpl in Ha. lra.
Qed.

Lemma SORT_gap_DESC_sorted (l : list (Doc * option Q)) :
  Forall (fun x => snd x <> None) l ->
  StronglySorted (fun a b => Aql.TO_NUMBER (snd b) <= Aql.TO_NUMBER (snd a))
                 (SORT_gap_DESC l).
Proof.
  induction 1 as [| r l Hr Hl IH]; simpl; [constructor |].
  apply insert_by_gap_sorted; [| exact IH].
  apply (Permutation_Forall (Permutation_sym (SORT_gap_DESC_perm l))). exact Hl.
Qed.

Lemma gameableCandidates_In (threshold : Q) (m : Doc) (g : option Q) :
  In (m, g) (gameableCandidates st threshold)
  <-> In m (FOR_IN st "metrics")
      /\ exists v t, value m = Some v /\ target m = Some t /\ ~ t == 0
                     /\ threshold < Qabs (v - t) / t
                     /\ g = Some (Qabs (v - t) / t).
Proof.
  unfold gameableCandidates. rewrite in_flat_map. split.
  - intros [m' [Hm' H]].
    destruct (target m') as [t |] eqn:Ht; [| contradiction].
    destruct (value m') as [v |] eqn:Hv; [| contradiction].
    cbn [Aql.not_null andb] in H.
    unfold Aql.divide, Aql.minus, Aql.ABS in H. cbn [Aql.TO_NUMBER] in H.
    destruct (Qeq_bool t 0) eqn:Et; [contradiction |].
    cbn [Aql.gt] in H.
    destruct (negb (Qle_bool (Qabs (v - t) / t) threshold)) eqn:C; [| contradiction].
    destruct H as [H | []]. inversion H; subst m' g.
    split; [exact Hm' |]. exists v, t. repeat split; auto.
    + intros Z. apply Qeq_bool_iff in Z. congruence.
    + apply not_Qle_bool. exact C.
  - intros [Hm [v [t [Hv [Ht [Hnz [Hth ->]]]]]]].
    exists m. split; [exact Hm |]. rewrite Hv, Ht. cbn [Aql.not_null andb].
    unfold Aql.divide, Aql.minus, Aql.ABS. cbn [Aql.TO_NUMBER].
    destruct (Qeq_bool t 0) eqn:Et; [apply Qeq_bool_iff in Et; contradiction |].
    cbn [Aql.gt]. apply not_Qle_bool in Hth. rewrite Hth. left. reflexivity.
Qed.

Lemma gameableCandidates_gap (threshold : Q) :
  Forall (fun x => snd x <> None) (gameableCandidates st threshold).
Proof.
  apply Forall_forall. intros [m g] H. apply gameableCandidates_In in H.
  destruct H as [_ [v [t [_ [_ [_ [_ ->]]]]]]]. discriminate.
Qed.

Lemma suspicion_cases (g : Q) :
  (9 # 10 < g -> suspicion (Some g) = "EXTREME"%string)
  /\ (7 # 10 < g -> g <= 9 # 10 -> suspicion (Some g) = "HIGH"%string)
  /\ (g <= 7 # 10 -> suspicion (Some g) = "MODERATE"%string).
Proof.
  unfold suspicion. cbn [Aql.gt]. repeat split.
  - intros H. apply not_Qle_bool in H. rewrite H. reflexivity.
  - intros H1 H2. apply Qle_bool_iff in H2. rewrite H2.
    apply not_Qle_bool in H1. rewrite H1. reflexivity.
  - intros H. assert (H' : g <= 9 # 10) by lra.
    apply Qle_bool_iff in H. apply Qle_bool_iff in H'. rewrite H, H'. reflexivity.
Qed.

Lemma StronglySorted_map {A B : Type} (f : A -> B) (R : B -> B -> Prop)
      (l : list A) :
  StronglySorted (fun a b => R (f a) (f b)) l -> StronglySorted R (map f l).
Proof.
  induction 1 as [| a l Hs IH Ha]; simpl; constructor; [exact IH |].
  apply Forall_map. exact Ha.
Qed.

End Gameable.

Section GameableClaim.

Import AnalyticsService Fixtures.

(** C7. [findGameableMetrics] returns a row for exactly the metrics that
    have a value and a target, the target not 0, and whose gap
    |value - target| / target exceeds the threshold (0.5 when the caller
    gives none); the rows are in descending order of gap; a row's
    suspicionLevel is EXTREME above 0.9, HIGH above 0.7 and MODERATE for
    every other retained gap.  The metric at 95 of 90 is returned as
    MODERATE under threshold 0.05 and is not returned under 0.5. *)
Theorem findGameableMetrics_spec :
  (forall (st : Store) (threshold : option Q),
      (forall r,
          In r (findGameableMetrics st threshold)
          <-> exists m v t,
              In m (FOR_IN st "metrics")
              /\ value m = Some v /\ target m = Some t /\ ~ t == 0
              /\ match threshold with Some th => th | None => 1 # 2 end
                 < Qabs (v - t) / t
              /\ r = gameableRow st (m, Some (Qabs (v - t) / t)))
      /\ StronglySorted
           (fun a b => Aql.TO_NUMBER (Gameable.gap b)
                       <= Aql.TO_NUMBER (Gameable.gap a))
           (findGameableMetrics st threshold)
      /\ (forall r,
             In r (findGameableMetrics st threshold) ->
             exists g,
               Gameable.gap r = Some g
               /\ (9 # 10 < g -> Gameable.suspicionLevel r = "EXTREME"%string)
               /\ (7 # 10 < g -> g <= 9 # 10 ->
                   Gameable.suspicionLevel r = "HIGH"%string)
               /\ (g <= 7 # 10 ->
                   Gameable.suspicionLevel r = "MODERATE"%string)))
  /\ (map (fun r => (Gameable.metric r, Gameable.gap r, Gameable.suspicionLevel r))
          (findGameableMetrics engagement_metric (Some (5 # 100)))
      = [(M2, Some (Qabs (95 - 90) / 90), "MODERATE"%string)]
      /\ Qabs (95 - 90) / 90 == 1 # 18
      /\ findGameableMetrics engagement_metric (Some (1 # 2)) = []
      /\ findGameableMetrics engagement_metric None = []).
Proof.
  split.
  - intros st threshold.
    set (th := match threshold with Some th => th | None => 1 # 2 end).
    assert (Hrows : forall r,
               In r (findGameableMetrics st threshold)
               <-> exists c, In c (gameableCandidates st th)
                             /\ r = gameableRow st c).
    { intros r. unfold findGameableMetrics. fold th. rewrite in_map_iff. split.
      - intros [c [Hc Hin]]. exists c. split; [| symmetry; exact Hc].
        apply (Permutation_in _ (SORT_gap_DESC_perm _) Hin).
      - intros [c [Hin Hc]]. exists c. split; [symmetry; exact Hc |].
        apply (Permutation_in _ (Permutation_sym (SORT_gap_DESC_perm _)) Hin). }
    split; [| split].
    + intros r. rewrite Hrows. split.
      * intros [[m g] [Hc ->]]. apply gameableCandidates_In in Hc.
        destruct Hc as [Hm [v [t [Hv [Ht [Hnz [Hth ->]]]]]]].
        exists m, v, t. repeat split; auto.
      * intros [m [v [t [Hm [Hv [Ht [Hnz [Hth ->]]]]]]]].
        exists (m, Some (Qabs (v - t) / t)). split; [| reflexivity].
        apply gameableCandidates_In. split; [exact Hm |].
        exists v, t. repeat split; auto.
    + unfold findGameableMetrics. fold th.
      apply (StronglySorted_map (gameableRow st)
               (fun a b => Aql.TO_NUMBER (Gameable.gap b)
                           <= Aql.TO_NUMBER (Gameable.gap a))).
      apply SORT_gap_DESC_sorted. apply gameableCandidates_gap.
    + intros r Hr. apply Hrows in Hr. destruct Hr as [[m g] [Hc ->]].
      apply gameableCandidates_In in Hc.
      destruct Hc as [_ [v [t [_ [_ [_ [_ ->]]]]]]].
      exists (Qabs (v - t) / t). split; [reflexivity |].
      apply suspicion_cases.
  - split; [reflexivity |]. split; [reflexivity |]. split; reflexivity.
Qed.

End GameableClaim.

(* ===================================================================== *)
(** ** Metric theater *)
(* ===================================================================== *)

Section Theater.

Import AnalyticsService Fixtures.

Variable st : Store.

Lemma FOR_IN_collection (c : string) (d : Doc) :
  In d (FOR_IN st c) <-> In d (documents st) /\ collection (_id d) = c.
Proof.
  unfold FOR_IN. rewrite filter_In, String.eqb_eq. reflexivity.
Qed.

Lemma unique_handle (e1 e2 : Edge) :
  Spec.unique_edge_handles st ->
  In e1 (edge_documents st) -> In e2 (edge_documents st) ->
  e_id e1 = e_id e2 -> e1 = e2.
Proof.
  unfold Spec.unique_edge_handles.
  induction (edge_documents st) as [| x l IH]; intros Hnd H1 H2 Heq; [contradiction |].
  simpl in Hnd. inversion Hnd as [| ? ? Hx Hl]; subst.
  destruct H1 as [-> | H1]; destruct H2 as [-> | H2].
  - reflexivity.
  - exfalso. apply Hx. rewrite Heq. apply in_map. exact H2.
  - exfalso. apply Hx. rewrite <- Heq. apply in_map. exact H1.
  - apply IH; assumption.
Qed.

Lemma causal_edge_In (e : Edge) :
  In e (edges_of st causal_graph) <-> Spec.causal_edge st e.
Proof. apply edges_of_In. Qed.

(** What the two-hop undirected traversal visits. *)
Lemma two_hops_visited (a b : Id) :
  (exists p, In (b, p) (extend (edges_of st causal_graph) ANY 2 a []))
  <-> (exists e, Spec.causal_edge st e /\ Spec.adjacent e a b)
      \/ (exists e1 e2 x, Spec.causal_edge st e1 /\ Spec.causal_edge st e2
                          /\ e_id e2 <> e_id e1
                          /\ Spec.adjacent e1 a x /\ Spec.adjacent e2 x b).
Proof.
  split.
  - intros [p H]. apply extend_inv in H.
    destruct H as [e1 [x [He1 [_ [Hx H]]]]].
    apply causal_edge_In in He1. apply neighbours_ANY in Hx.
    destruct H as [H | [w' [Hw' H]]].
    + inversion H; subst. left. exists e1. split; assumption.
    + apply extend_inv in Hw'.
      destruct Hw' as [e2 [y [He2 [U [Hy Hw']]]]].
      apply causal_edge_In in He2. apply neighbours_ANY in Hy.
      apply edge_used_false in U.
      destruct Hw' as [-> | [w'' [[] _]]].
      inversion H; subst. right. exists e1, e2, x.
      split; [exact He1 |]. split; [exact He2 |]. split; [| split; assumption].
      intros Heq. apply U. left. symmetry. exact Heq.
  - intros [[e [He Ha]] | [e1 [e2 [x [He1 [He2 [Hne [Ha1 Ha2]]]]]]]].
    + exists [(e, b)]. apply extend_first_hop.
      * apply causal_edge_In. exact He.
      * reflexivity.
      * apply neighbours_ANY. exact Ha.
    + exists [(e1, x); (e2, b)].
      apply (extend_next_hop _ _ _ _ _ e1 x (b, [(e2, b)])).
      * apply causal_edge_In. exact He1.
      * reflexivity.
      * apply neighbours_ANY. exact Ha1.
      * apply extend_first_hop.
        -- apply causal_edge_In. exact He2.
        -- apply edge_used_false. intros [H | []]. congruence.
        -- apply neighbours_ANY. exact Ha2.
Qed.

(** Going out and back along one edge returns to the start. *)
Lemma adjacent_back (e : Edge) (a x b : Id) :
  Spec.adjacent e a x -> Spec.adjacent e x b -> b = a.
Proof.
  unfold Spec.adjacent. intros [[H1 H2] | [H1 H2]] [[H3 H4] | [H3 H4]]; congruence.
Qed.

Lemma linkedInitiatives_empty (metric : Doc) :
  Spec.unique_edge_handles st ->
  collection (_id metric) = "metrics"%string ->
  (linkedInitiatives st metric = [] <-> ~ Spec.reaches_initiative st metric).
Proof.
  intros Hu Hm. split.
  - intros Hnil [i [d [Hd [Hi Hreach]]]].
    assert (Hvis : exists p, In (i, p)
                     (extend (edges_of st causal_graph) ANY 2 (_id metric) [])).
    { apply two_hops_visited. destruct Hreach as [H | [e1 [e2 [x [H1 [H2 [A1 A2]]]]]]].
      - left. exact H.
      - right. exists e1, e2, x.
        split; [exact H1 |]. split; [exact H2 |]. split; [| split; assumption].
        intros Heq.
        assert (e2 = e1) as ->.
        { apply unique_handle; [exact Hu | apply H2 | apply H1 | exact Heq]. }
        pose proof (adjacent_back _ _ _ _ A1 A2) as Hback.
        rewrite Hback, Hm in Hi. discriminate. }
    destruct Hvis as [p Hp].
    assert (In (Some d) (linkedInitiatives st metric)) as Hin.
    { unfold linkedInitiatives. apply filter_In. split.
      - apply in_map_iff. exists (i, p). split; [exact Hd | exact Hp].
      - simpl. destruct (DOCUMENT_Some _ _ _ Hd) as [_ ->].
        rewrite Hi. reflexivity. }
    rewrite Hnil in Hin. contradiction.
  - intros Hno. destruct (linkedInitiatives st metric) as [| v l] eqn:E;
      [reflexivity | exfalso].
    assert (In v (linkedInitiatives st metric)) as Hin by (rewrite E; left; reflexivity).
    unfold linkedInitiatives in Hin. apply filter_In in Hin.
    destruct Hin as [Hin Hlike]. apply in_map_iff in Hin.
    destruct Hin as [[i p] [Hv Hp]]. unfold vertex in Hv. simpl in Hv. subst v.
    unfold LIKE_collection in Hlike.
    destruct (DOCUMENT st i) as [d |] eqn:Hd; [| discriminate].
    apply String.eqb_eq in Hlike.
    destruct (DOCUMENT_Some _ _ _ Hd) as [_ Hid]. rewrite Hid in Hlike.
    apply Hno. exists i, d. split; [exact Hd |]. split; [exact Hlike |].
    assert (exists p, In (i, p)
              (extend (edges_of st causal_graph) ANY 2 (_id metric) [])) as Hvis
        by (exists p; exact Hp).
    apply two_hops_visited in Hvis.
    destruct Hvis as [H | [e1 [e2 [x [H1 [H2 [_ [A1 A2]]]]]]]].
    + left. exact H.
    + right. exists e1, e2, x. auto.
Qed.

End Theater.

Section TheaterClaim.

Import AnalyticsService Fixtures.

(** C8. In a store whose edges have distinct handles, [detectMetricTheater]
    returns one row per metric from which no stored initiative is within
    two undirected hops over the edges of [causal_graph], in the order of
    the metrics collection, each with theaterScore 100; a metric that
    reaches an initiative gets no row. *)
Theorem detectMetricTheater_spec (st : Store) :
  Spec.unique_edge_handles st ->
  exists isTheater : Doc -> bool,
    (forall m, In m (FOR_IN st "metrics") ->
               (isTheater m = true <-> ~ Spec.reaches_initiative st m))
    /\ detectMetricTheater st
       = map (theaterRow) (filter isTheater (FOR_IN st "metrics"))
    /\ Forall (fun r => Theater.theaterScore r == 100
                        /\ In (Theater.metric r) (FOR_IN st "metrics")
                        /\ ~ Spec.reaches_initiative st (Theater.metric r))
              (detectMetricTheater st).
Proof.
  intros Hu.
  assert (Hp : forall m, In m (FOR_IN st "metrics") ->
               (Qeq_bool (Aql.LENGTH (linkedInitiatives st m)) 0 = true
                <-> ~ Spec.reaches_initiative st m)).
  { intros m Hm. rewrite LENGTH_zero. apply linkedInitiatives_empty; [exact Hu |].
    apply FOR_IN_collection in Hm. apply Hm. }
  exists (fun metric => Qeq_bool (Aql.LENGTH (linkedInitiatives st metric)) 0).
  split; [exact Hp |]. split; [reflexivity |].
  unfold detectMetricTheater. apply Forall_forall. intros r Hr.
  apply in_map_iff in Hr. destruct Hr as [m [<- Hm]].
  apply filter_In in Hm. destruct Hm as [Hm Hz].
  split; [reflexivity |]. split; [exact Hm |]. apply Hp; assumption.
Qed.

(** The scenario of the specification: M3 has no edge and is reported with
    theaterScore 100; M1, two hops from I1, is not. *)
Lemma theater_scenario_rows :
  map (fun r => (Theater.metric r, Theater.theaterScore r))
      (detectMetricTheater theater_scenario)
  = [(M3, 100)].
Proof. reflexivity. Qed.

End TheaterClaim.

(* ===================================================================== *)
(** ** Growth of the gap score when an outcome is linked *)
(* ===================================================================== *)

Section Counting.

Context {A B : Type}.
Variable q : B -> bool.



End Counting.

Section OutboundEnds.

(** The vertices an outbound traversal reaches, one per path. *)
Lemma ends_unfold (E l : list Edge) (d : nat) (cur : Id) (used : list Id) :
  map fst
      (flat_map
         (fun e =>
            if edge_used e used then []
            else flat_map
                   (fun v =>
                      (v, [(e, v)])
                        :: map (fun w => (fst w, (e, v) :: snd w))
                               (extend E OUTBOUND d v (e_id e :: used)))
                   (neighbours OUTBOUND cur e))
         l)
  = flat_map
      (fun e =>
         if edge_used e used then []
         else if id_eqb (_from e) cur
              then _to e :: map fst (extend E OUTBOUND d (_to e) (e_id e :: used))
              else [])
      l.
Proof.
  induction l as [| e l IH]; [reflexivity |].
  cbn [flat_map]. rewrite map_app, IH. f_equal.
  destruct (edge_used e used); [reflexivity |].
  cbn [neighbours]. destruct (id_eqb (_from e) cur); [| reflexivity].
  cbn [flat_map]. rewrite app_nil_r. cbn [map fst]. rewrite map_map. reflexivity.
Qed.

Lemma ends_S (E : list Edge) (d : nat) (cur : Id) (used : list Id) :
  map fst (extend E OUTBOUND (S d) cur used)
  = flat_map
      (fun e =>
         if edge_used e used then []
         else if id_eqb (_from e) cur
              then _to e :: map fst (extend E OUTBOUND d (_to e) (e_id e :: used))
              else [])
      E.
Proof. cbn [extend]. apply ends_unfold. Qed.

Variable q : Id -> bool.
Variable E : list Edge.
Variable e : Edge.





End OutboundEnds.

Section StoreWrites.

Import AnalyticsService.



Variable st : Store.

Lemma map_vertex (l : list Visit) :
  map (vertex st) l = map (DOCUMENT st) (map fst l).
Proof. rewrite map_map. reflexivity. Qed.










End StoreWrites.

(* ===================================================================== *)
(** ** The theorems at concrete stores *)
(* ===================================================================== *)

Section Instances.

Import AnalyticsService Fixtures.

(** The product law at the chain of the unit test (0.8, then 0.7). *)
Lemma totalStrength_is_product_of_stored_strengths_at_test_chain :
  exists w,
    In w (causalPaths test_chain (_id I1) (_id O2) 5)
    /\ causalPathRow test_chain (_id I1) (_id O2) test_chain_path
       = causalPathRow test_chain (_id I1) (_id O2) w
    /\ Forall (fun e => In e (edge_documents test_chain)
                        /\ collection (e_id e) = "causes"%string)
              (p_edges w)
    /\ (forall ss,
           Forall2 (fun e s => strength e = Some s /\ ~ s == 0) (p_edges w) ss ->
           CausalPath.totalStrength
             (causalPathRow test_chain (_id I1) (_id O2) test_chain_path)
           == Aql.PRODUCT ss)
    /\ (forall e1 e2 s1 s2,
           p_edges w = [e1; e2] ->
           strength e1 = Some s1 -> strength e2 = Some s2 ->
           ~ s1 == 0 -> ~ s2 == 0 ->
           CausalPath.totalStrength
             (causalPathRow test_chain (_id I1) (_id O2) test_chain_path)
           == s1 * s2).
Proof.
  apply (proj1 totalStrength_is_product_of_stored_strengths
           test_chain (_id I1) (_id O2) None).
  left. reflexivity.
Defined.

(** The default factor at a chain whose strengths are absent and 0. *)
Lemma missing_strength_counts_as_half_at_weightless_chain :
  exists w,
    In w (causalPaths weightless_chain (_id I1) (_id O2) 5)
    /\ causalPathRow weightless_chain (_id I1) (_id O2) weightless_path
       = causalPathRow weightless_chain (_id I1) (_id O2) w
    /\ (forall es1 e es2,
           p_edges w = es1 ++ e :: es2 ->
           Spec.strength_missing e ->
           CausalPath.totalStrength
             (causalPathRow weightless_chain (_id I1) (_id O2) weightless_path)
           == (1 # 2)
              * Aql.PRODUCT
                  (map (fun edge => Aql.or_else (strength edge) (1 # 2))
                       (es1 ++ es2)))
    /\ (Forall Spec.strength_missing (p_edges w) ->
        CausalPath.totalStrength
          (causalPathRow weightless_chain (_id I1) (_id O2) weightless_path)
        == (1 # 2) ^ Z.of_nat (List.length (p_edges w))
        /\ 0 < CausalPath.totalStrength
                 (causalPathRow weightless_chain (_id I1) (_id O2)
                                weightless_path)).
Proof.
  apply (missing_strength_counts_as_half
           weightless_chain (_id I1) (_id O2) None).
  left. reflexivity.
Defined.

(** The synergy formula at the Engineering department of the unit test. *)
Lemma synergyScore_formula_at_engineering :
  exists r,
    calculateDepartmentSynergy engineering "d1" = Fulfilled (Some r)
    /\ Synergy.synergyScore r
       == Spec.mean_or_zero
            (Spec.defined_scores wellnessScore
               (Spec.of_department engineering "employees"
                                   (dept "d1" "Engineering"))) * (3 # 10)
          + Spec.mean_or_zero
              (Spec.defined_scores engagementLevel
                 (Spec.of_department engineering "employees"
                                     (dept "d1" "Engineering"))) * (3 # 10)
          + Spec.successRatio
              (Spec.count_status "completed"
                 (Spec.of_department engineering "initiatives"
                                     (dept "d1" "Engineering")))
              (Spec.count_status "abandoned"
                 (Spec.of_department engineering "initiatives"
                                     (dept "d1" "Engineering"))) * 40
    /\ (80 < Synergy.synergyScore r ->
        Synergy.synergyGrade r = "SYNERGIZED"%string)
    /\ (60 < Synergy.synergyScore r -> Synergy.synergyScore r <= 80 ->
        Synergy.synergyGrade r = "ALIGNED"%string)
    /\ (Synergy.synergyScore r <= 60 ->
        Synergy.synergyGrade r = "SILOED"%string).
Proof.
  apply (proj1 synergyScore_formula engineering "d1"%string
               (dept "d1" "Engineering")).
  reflexivity.
Defined.

(** Theater detection at a store with one linked and one orphan metric. *)
Lemma detectMetricTheater_spec_at_theater_scenario :
  exists isTheater : Doc -> bool,
    (forall m, In m (FOR_IN theater_scenario "metrics") ->
               (isTheater m = true
                <-> ~ Spec.reaches_initiative theater_scenario m))
    /\ detectMetricTheater theater_scenario
       = map (theaterRow) (filter isTheater (FOR_IN theater_scenario "metrics"))
    /\ Forall (fun r => Theater.theaterScore r == 100
                        /\ In (Theater.metric r) (FOR_IN theater_scenario "metrics")
                        /\ ~ Spec.reaches_initiative theater_scenario
                               (Theater.metric r))
              (detectMetricTheater theater_scenario).
Proof.
  apply (detectMetricTheater_spec theater_scenario).
  unfold Spec.unique_edge_handles. simpl.
  repeat constructor; simpl; intuition discriminate.
Defined.

End Instances.

(* ===================================================================== *)
(** ** findUnintendedConsequences *)
(* ===================================================================== *)

Section Distinct.

Import Fixtures.

Variable st : Store.

(** [RETURN DISTINCT] lists every unintended outcome within three
    [causes] hops, each once, and no two rows share a handle. *)
Lemma findUnintendedConsequences_distinct (initiativeId : string) :
  NoDup (InitiativeService.findUnintendedConsequences st initiativeId)
  /\ (forall a b,
         In a (InitiativeService.findUnintendedConsequences st initiativeId) ->
         In b (InitiativeService.findUnintendedConsequences st initiativeId) ->
         attr (fun d => Some (_id d)) a = attr (fun d => Some (_id d)) b ->
         a = b)
  /\ (forall v,
         In v (InitiativeService.findUnintendedConsequences st initiativeId)
         <-> exists w,
             In w (traversal (edges_of st ["causes"%string]) OUTBOUND 3
                     (DOCUMENT st (mkId "initiatives" initiativeId)))
             /\ v = vertex st w
             /\ AnalyticsService.LIKE_collection v "outcomes" = true
             /\ Aql.str_eq (attr type v) (Some "unintended"%string) = true).
Proof.
  unfold InitiativeService.findUnintendedConsequences, RETURN_DISTINCT.
  assert (Hchar : forall v,
             In v (nodup value_eq_dec
                     (filter (fun v => Aql.str_eq (attr type v) (Some "unintended"%string))
                        (filter (fun v => AnalyticsService.LIKE_collection v "outcomes")
                           (map (vertex st)
                              (traversal (edges_of st ["causes"%string]) OUTBOUND 3
                                 (DOCUMENT st (mkId "initiatives" initiativeId)))))))
             <-> exists w,
                 In w (traversal (edges_of st ["causes"%string]) OUTBOUND 3
                         (DOCUMENT st (mkId "initiatives" initiativeId)))
                 /\ v = vertex st w
                 /\ AnalyticsService.LIKE_collection v "outcomes" = true
                 /\ Aql.str_eq (attr type v) (Some "unintended"%string) = true).
  { intros v. rewrite nodup_In, !filter_In, in_map_iff. split.
    - intros [[[w [Hw Hin]] Hl] Ht]. exists w. auto.
    - intros [w [Hin [Hw [Hl Ht]]]]. split; [split |]; auto.
      exists w. auto. }
  split; [apply NoDup_nodup |]. split; [| exact Hchar].
  intros a b Ha Hb Heq.
  apply Hchar in Ha. apply Hchar in Hb.
  destruct Ha as [wa [_ [Ha [La _]]]]. destruct Hb as [wb [_ [Hb [Lb _]]]].
  destruct a as [da |]; [| discriminate]. destruct b as [db |]; [| discriminate].
  simpl in Heq. injection Heq as Heq.
  unfold vertex in Ha, Hb. symmetry in Ha, Hb.
  destruct (DOCUMENT_Some _ _ _ Ha) as [_ Ia].
  destruct (DOCUMENT_Some _ _ _ Hb) as [_ Ib].
  rewrite <- Ha, <- Hb. congruence.
Qed.

End Distinct.

(* ===================================================================== *)
(** ** Further facts about numbers and lists *)
(* ===================================================================== *)

Lemma length_S_Q {A : Type} (x : A) (l : list A) :
  inject_Z (Z.of_nat (List.length (x :: l)))
  == inject_Z (Z.of_nat (List.length l)) + 1.
Proof.
  cbn [List.length]. rewrite Nat2Z.inj_succ, <- Z.add_1_r, inject_Z_plus.
  reflexivity.
Qed.

Lemma length_pos_Q {A : Type} (x : A) (l : list A) :
  0 < inject_Z (Z.of_nat (List.length (x :: l))).
Proof.
  rewrite length_S_Q. pose proof (LENGTH_nonneg l) as H.
  unfold Aql.LENGTH in H. lra.
Qed.

(** The sum of a list lies between the bounds of its members, each counted
    once. *)
Lemma sum_between (lo hi : Q) (l : list Q) :
  Forall (fun q => lo <= q /\ q <= hi) l ->
  lo * inject_Z (Z.of_nat (List.length l)) <= fold_right Qplus 0 l
  /\ fold_right Qplus 0 l <= hi * inject_Z (Z.of_nat (List.length l)).
Proof.
  induction 1 as [| x l [Hlo Hhi] _ [IHlo IHhi]].
  - cbn [List.length fold_right]. change (inject_Z (Z.of_nat 0)) with 0.
    split; lra.
  - rewrite length_S_Q. cbn [fold_right]. split; lra.
Qed.

(** The mean of a non-empty list lies between the bounds of its members. *)
Lemma mean_between (lo hi : Q) (x : Q) (l : list Q) :
  Forall (fun q => lo <= q /\ q <= hi) (x :: l) ->
  lo <= Spec.mean (x :: l) /\ Spec.mean (x :: l) <= hi.
Proof.
  intros H. destruct (sum_between lo hi (x :: l) H) as [Hlo Hhi].
  pose proof (length_pos_Q x l) as Hn. unfold Spec.mean. split.
  - apply Qle_shift_div_l; assumption.
  - apply Qle_shift_div_r; assumption.
Qed.

Lemma mean_or_zero_between (lo hi : Q) (l : list Q) :
  lo <= 0 -> 0 <= hi ->
  Forall (fun q => lo <= q /\ q <= hi) l ->
  lo <= Spec.mean_or_zero l /\ Spec.mean_or_zero l <= hi.
Proof.
  intros Hlo Hhi H. destruct l as [| x l]; [simpl; split; assumption |].
  apply mean_between. exact H.
Qed.

Lemma filter_none {A : Type} (f : A -> bool) (l : list A) :
  (forall x, In x l -> f x = false) -> filter f l = [].
Proof.
  induction l as [| a l IH]; intros H; [reflexivity |].
  simpl. rewrite (H a (or_introl eq_refl)). apply IH.
  intros x Hx. apply H. right. exact Hx.
Qed.

Lemma no_member_nil {A : Type} (l : list A) :
  (forall x, ~ In x l) -> l = [].
Proof.
  destruct l as [| a l]; [reflexivity |].
  intros H. exfalso. apply (H a). left. reflexivity.
Qed.

Lemma last_nonempty_default {A : Type} (b c a : A) (l : list A) :
  last (b :: l) c = last (b :: l) a.
Proof.
  revert b. induction l as [| x l IH]; intros b; [reflexivity |].
  change (last (b :: x :: l) c) with (last (x :: l) c).
  change (last (b :: x :: l) a) with (last (x :: l) a).
  apply IH.
Qed.

Lemma last_cons_default {A : Type} (a b c : A) (l : list A) :
  last (a :: b :: l) c = last (b :: l) a.
Proof.
  change (last (a :: b :: l) c) with (last (b :: l) c).
  apply last_nonempty_default.
Qed.

Lemma StronglySorted_app_r {A : Type} (R : A -> A -> Prop) (l1 l2 : list A) :
  StronglySorted R (l1 ++ l2) -> StronglySorted R l2.
Proof.
  induction l1 as [| a l1 IH]; intros H; [exact H |].
  simpl in H. inversion H; subst. apply IH. assumption.
Qed.

(** In a sorted list, an element relates to every later one. *)
Lemma StronglySorted_before {A : Type} (R : A -> A -> Prop)
      (l1 l2 l3 : list A) (a b : A) :
  StronglySorted R (l1 ++ a :: l2 ++ b :: l3) -> R a b.
Proof.
  intros H. apply StronglySorted_app_r in H. inversion H as [| ? ? _ Hall]; subst.
  rewrite Forall_forall in Hall. apply Hall.
  apply in_or_app. right. left. reflexivity.
Qed.

(* ===================================================================== *)
(** ** The shape of traversal results *)
(* ===================================================================== *)

Lemma extend_shape (E : list Edge) (d : nat) (cur : Id) (used : list Id)
      (w : Visit) :
  In w (extend E OUTBOUND d cur used) ->
  Shape.follows cur (snd w)
  /\ fst w = last (map snd (snd w)) cur
  /\ (1 <= List.length (snd w) <= d)%nat
  /\ NoDup (map e_id (p_edges w))
  /\ (forall e, In e (p_edges w) -> ~ In (e_id e) used).
Proof.
  revert cur used w. induction d as [| d IH]; intros cur used w H; [contradiction |].
  apply extend_inv in H. destruct H as [e [v [He [U [Hv H]]]]].
  apply neighbours_OUTBOUND in Hv. destruct Hv as [Hf Ht].
  apply edge_used_false in U.
  destruct H as [-> | [w' [Hw' ->]]].
  - unfold p_edges. simpl. repeat split; auto; try lia.
    + constructor; [intros [] | constructor].
    + intros e' [<- | []]. exact U.
  - destruct (IH _ _ _ Hw') as [Hfol [Hlast [[Hlo Hhi] [Hnd Hun]]]].
    unfold p_edges in *. cbn [fst snd map List.length].
    split; [cbn [Shape.follows]; auto |].
    split.
    { destruct (snd w') as [| s rest] eqn:Es; [simpl in Hlo; lia |].
      cbn [map]. rewrite last_cons_default. rewrite Hlast. reflexivity. }
    split; [lia |].
    split.
    { constructor; [| exact Hnd].
      intros Hin. apply in_map_iff in Hin. destruct Hin as [e' [Heq He']].
      apply (Hun e' He'). left. symmetry. exact Heq. }
    intros e' [<- | He']; [exact U |].
    intros Hin. apply (Hun e' He'). right. exact Hin.
Qed.

(** A larger depth bound keeps every result of a smaller one. *)
Lemma extend_depth_mono (E : list Edge) (dir : Direction) (d : nat)
      (cur : Id) (used : list Id) (w : Visit) :
  In w (extend E dir d cur used) -> In w (extend E dir (S d) cur used).
Proof.
  revert cur used w. induction d as [| d IH]; intros cur used w H; [contradiction |].
  apply extend_inv in H. destruct H as [e [v [He [U [Hv H]]]]].
  destruct H as [-> | [w' [Hw' ->]]].
  - apply extend_first_hop; assumption.
  - apply extend_next_hop; try assumption. apply IH. exact Hw'.
Qed.

(** One hop out of a vertex: one result per edge that leaves it. *)
Lemma ends_one_hop (E : list Edge) (cur : Id) :
  map fst (extend E OUTBOUND 1 cur [])
  = map _to (filter (fun e => id_eqb (_from e) cur) E).
Proof.
  rewrite ends_S. cbn [edge_used existsb extend map].
  induction E as [| e E IH]; [reflexivity |].
  cbn [flat_map filter].
  destruct (id_eqb (_from e) cur); cbn [map app]; rewrite IH; reflexivity.
Qed.

(* ===================================================================== *)
(** ** Bounds of the gap score *)
(* ===================================================================== *)

Section GapBounds.

Import AnalyticsService Fixtures.

Lemma sum_nonneg (l : list Q) :
  Forall (fun q => 0 <= q) l -> 0 <= fold_right Qplus 0 l.
Proof.
  induction 1 as [| x l Hx _ IH]; simpl; lra.
Qed.

Lemma mean_or_zero_nonneg (l : list Q) :
  Forall (fun q => 0 <= q) l -> 0 <= Spec.mean_or_zero l.
Proof.
  intros H. destruct l as [| x l]; [simpl; lra |].
  unfold Spec.mean_or_zero, Spec.mean. apply Qle_shift_div_l.
  - apply length_pos_Q.
  - pose proof (sum_nonneg _ H). lra.
Qed.

Lemma qualifying_gaps_nonneg (ms : list (option Doc)) :
  Forall (fun m => forall t, attr target m = Some t -> 0 <= t) ms ->
  Forall (fun q => 0 <= q) (Spec.qualifying_gaps ms).
Proof.
  induction 1 as [| m ms Hm _ IH]; [constructor |].
  unfold Spec.qualifying_gaps. cbn [flat_map]. fold (Spec.qualifying_gaps ms).
  apply Forall_app. split; [| exact IH].
  destruct (attr value m) as [v |]; [| constructor].
  destruct (attr target m) as [t |] eqn:Ht; [| constructor].
  destruct (Qeq_bool t 0) eqn:Et; constructor; [| constructor].
  assert (0 < t).
  { specialize (Hm t eq_refl).
    assert (~ t == 0) by (intros Z; apply Qeq_bool_iff in Z; congruence).
    destruct (Qlt_le_dec 0 t) as [L | L]; [exact L |].
    exfalso. apply H. apply Qle_antisym; assumption. }
  apply Qle_shift_div_l; [assumption |].
  pose proof (Qabs_nonneg (v - t)). lra.
Qed.


(** X1. The gap score returned by [calculateIntentionRealityGap] never
    exceeds 100, and it is not negative when no metric the initiative
    measures has a negative target. *)
Theorem gapScore_within_bounds (st : Store) (id : string)
        (r : IntentionRealityGap.t) :
  calculateIntentionRealityGap st id = Fulfilled (Some r) ->
  IntentionRealityGap.gapScore r <= 100
  /\ (Forall (fun m => forall t, attr target m = Some t -> 0 <= t)
             (metrics st (DOCUMENT st (mkId "initiatives" id))) ->
      0 <= IntentionRealityGap.gapScore r).
Proof.
  intros Hr. destruct (gap_one_row st id) as [r0 [Hr0 [Hs _]]].
  rewrite Hr in Hr0. injection Hr0 as ->. rewrite Hs, MIN_is_Qmin. split.
  - apply Q.le_min_r.
  - intros Hm. apply Q.min_glb; [| discriminate].
    unfold gapScore. rewrite avgMetricGap_number.
    pose proof (mean_or_zero_nonneg _ (qualifying_gaps_nonneg _ Hm)) as Havg.
    pose proof (LENGTH_nonneg (actual st (DOCUMENT st (mkId "initiatives" id)))) as Ha.
    destruct (Qeq_bool (Aql.LENGTH (intended st (DOCUMENT st (mkId "initiatives" id)))) 0);
      lra.
Qed.

End GapBounds.

(* ===================================================================== *)
(** ** The average metric gap *)
(* ===================================================================== *)

Section MetricGap.

Import AnalyticsService Fixtures.

Lemma filter_filter {A : Type} (p q : A -> bool) (l : list A) :
  filter p (filter q l) = filter (fun x => q x && p x) l.
Proof.
  induction l as [| x l IH]; [reflexivity |].
  cbn [filter]. destruct (q x); cbn [filter andb]; rewrite IH; reflexivity.
Qed.

(** The [LET metrics] of the query: the far ends of the [measures] edges
    that leave the initiative, one entry per edge, in edge order. *)
Lemma metrics_measured (st : Store) (init : Doc) :
  metrics st (Some init) = Spec.measured st init.
Proof.
  unfold metrics, traversal, Spec.measured, edges_of.
  rewrite map_vertex, ends_one_hop, map_map, filter_filter.
  f_equal. apply filter_ext. intros e. cbn [existsb].
  rewrite orb_false_r, String.eqb_sym. reflexivity.
Qed.

(** C2. [avgMetricGap] is the mean of |value - target| / target over the
    results of the hop-1 outbound [measures] traversal that have a value and
    a non-zero target, read as 0 where none qualifies.  The traversal yields
    one result per edge, so a metric measured through two edges is averaged
    twice: with M1 (gap 4/9) measured twice and a metric on target measured
    once the query computes 8/27 where the mean over the two metrics is
    2/9, and returns the score 670/27 instead of 190/9.  Where no metric is
    listed twice the two agree. *)
Theorem avgMetricGap_counts_metric_per_edge :
  (forall st init, metrics st (Some init) = Spec.measured st init)
  /\ (forall st init,
         Aql.TO_NUMBER (avgMetricGap st (Some init))
         == Spec.mean_or_zero (Spec.qualifying_gaps (Spec.measured st init)))
  /\ (forall st init,
         NoDup (Spec.measured st init) ->
         Aql.TO_NUMBER (avgMetricGap st (Some init)) == Spec.avgMetricGap st init)
  /\ metrics measured_twice (Some I1) = [Some M1; Some M1; Some M_met]
  /\ value_eq (avgMetricGap measured_twice (Some I1)) (Some (8 # 27))
  /\ Spec.avgMetricGap measured_twice I1 == 2 # 9
  /\ (exists r, calculateIntentionRealityGap measured_twice "i1" = Fulfilled (Some r)
                /\ IntentionRealityGap.gapScore r == 670 # 27)
  /\ Spec.gapScore (intended measured_twice (Some I1))
                   (actual measured_twice (Some I1))
                   (Spec.avgMetricGap measured_twice I1)
     == 190 # 9.
Proof.
  split; [exact metrics_measured |].
  split; [intros st init; rewrite <- metrics_measured; apply avgMetricGap_number |].
  split.
  { intros st init Hnd. unfold Spec.avgMetricGap.
    rewrite (nodup_fixed_point value_eq_dec Hnd), <- metrics_measured.
    apply avgMetricGap_number. }
  split; [reflexivity |].
  split; [vm_compute; reflexivity |].
  split; [vm_compute; reflexivity |].
  split; [eexists; split; [reflexivity | vm_compute; reflexivity] |].
  vm_compute. reflexivity.
Qed.

End MetricGap.

(* ===================================================================== *)
(** ** Growth of the gap score *)
(* ===================================================================== *)

Section GapGrowth.

Import AnalyticsService Fixtures.




(** On the scenario of the specification the sum on doubles is the exact
    one up to rounding: 32.2 and a little more. *)
Lemma binary64_gap_scenario_score :
  PrimFloat.ltb (Binary64.of_Q (322 # 10))
                (Binary64.returnedGapScore gap_scenario "i1") = true
  /\ PrimFloat.ltb (Binary64.returnedGapScore gap_scenario "i1")
                   (Binary64.of_Q (323 # 10)) = true.
Proof.
  split; vm_compute; reflexivity.
Qed.



End GapGrowth.

(* ===================================================================== *)
(** ** The paths of traceCausalPath *)
(* ===================================================================== *)

Section PathShape.

Import AnalyticsService Fixtures.

Lemma causalPaths_inv (st : Store) (fromId toId : Id) (d : nat) (w : Visit) :
  In w (causalPaths st fromId toId d) ->
  exists start target,
    DOCUMENT st fromId = Some start /\ DOCUMENT st toId = Some target
    /\ fst w = toId
    /\ In w (extend (edges_of st ["causes"%string]) OUTBOUND d fromId []).
Proof.
  unfold causalPaths. intros H. apply filter_In in H. destruct H as [Hin Hf].
  unfold traversal in Hin. destruct (DOCUMENT st fromId) as [start |] eqn:Hs;
    [| contradiction].
  destruct (DOCUMENT_Some _ _ _ Hs) as [_ Hid]. rewrite Hid in Hin.
  unfold vertex in Hf. destruct (DOCUMENT st (fst w)) as [target |] eqn:Ht;
    [| discriminate].
  apply id_eqb_eq in Hf. destruct (DOCUMENT_Some _ _ _ Ht) as [_ Hid'].
  exists start, target. rewrite <- Hf, Hid'. auto.
Qed.

(** X2. Every path reported by [traceCausalPath] is a result of the
    traversal between two stored vertices: a chain of stored [causes] edges
    that leaves the start vertex and ends in the target, has at least one
    and at most [maxDepth] edges (5 by default), repeats no edge, and its
    [length] is the number of its edges plus one. *)
Theorem traceCausalPath_paths_are_chains
        (st : Store) (fromId toId : Id) (maxDepth : option nat)
        (r : CausalPath.t) :
  In r (traceCausalPath st fromId toId maxDepth) ->
  exists w,
    r = causalPathRow st fromId toId w
    /\ In w (causalPaths st fromId toId
              (match maxDepth with Some d => d | None => 5%nat end))
    /\ DOCUMENT st fromId <> None /\ DOCUMENT st toId <> None
    /\ Forall (fun e => In e (edge_documents st)
                        /\ collection (e_id e) = "causes"%string)
              (p_edges w)
    /\ Shape.follows fromId (snd w)
    /\ last (map snd (snd w)) fromId = toId
    /\ (1 <= List.length (p_edges w)
        <= match maxDepth with Some d => d | None => 5 end)%nat
    /\ NoDup (map e_id (p_edges w))
    /\ CausalPath.length r == inject_Z (Z.of_nat (List.length (p_edges w))) + 1
    /\ List.length (CausalPath.path r) = S (List.length (p_edges w)).
Proof.
  intros H. apply traceCausalPath_rows in H. destruct H as [w [Hw ->]].
  pose proof (causalPaths_edges st _ _ _ _ Hw) as Hedges.
  pose proof Hw as Hpath.
  apply causalPaths_inv in Hw. destruct Hw as [start [target [Hs [Ht [Hto Hin]]]]].
  destruct (extend_shape _ _ _ _ _ Hin) as [Hfol [Hlast [Hlen [Hnd _]]]].
  exists w. split; [reflexivity |]. split; [exact Hpath |].
  split; [congruence |]. split; [congruence |]. split; [exact Hedges |].
  split; [exact Hfol |].
  split; [rewrite <- Hlast; exact Hto |].
  unfold p_edges in *. rewrite length_map.
  split; [exact Hlen |]. split; [exact Hnd |]. split.
  - cbn [CausalPath.length causalPathRow]. unfold Aql.LENGTH, p_vertices.
    rewrite length_S_Q, length_map. reflexivity.
  - cbn [CausalPath.path causalPathRow]. unfold p_vertices.
    rewrite length_map. cbn [List.length]. rewrite length_map. reflexivity.
Qed.

Lemma factor_in_unit_interval (e : Edge) :
  Shape.normalized e ->
  0 < Aql.or_else (strength e) (1 # 2) /\ Aql.or_else (strength e) (1 # 2) <= 1.
Proof.
  unfold Shape.normalized, Aql.or_else, Aql.truthy.
  destruct (strength e) as [s |]; [| intros _; split; [reflexivity | discriminate]].
  intros [Hlo Hhi]. destruct (Qeq_bool s 0) eqn:E; cbn [negb Aql.TO_NUMBER].
  - split; [reflexivity | discriminate].
  - split; [| exact Hhi].
    assert (~ s == 0) by (intros Z; apply Qeq_bool_iff in Z; congruence).
    destruct (Qlt_le_dec 0 s) as [L | L]; [exact L |].
    exfalso. apply H. apply Qle_antisym; assumption.
Qed.

Lemma PRODUCT_in_unit_interval (es : list Edge) :
  Forall Shape.normalized es ->
  0 < Aql.PRODUCT (map (fun edge => Aql.or_else (strength edge) (1 # 2)) es)
  /\ Aql.PRODUCT (map (fun edge => Aql.or_else (strength edge) (1 # 2)) es) <= 1.
Proof.
  induction 1 as [| e es He _ [IHlo IHhi]].
  - simpl. split; [reflexivity | discriminate].
  - cbn [map Aql.PRODUCT fold_right].
    fold (Aql.PRODUCT (map (fun edge => Aql.or_else (strength edge) (1 # 2)) es)).
    destruct (factor_in_unit_interval e He) as [Flo Fhi]. split.
    + apply Qmult_lt_0_compat; assumption.
    + setoid_replace 1 with (1 * 1) by reflexivity.
      apply Qmult_le_compat_nonneg; split; lra.
Qed.

(** A chain is at most as strong as its weakest link. *)
Lemma PRODUCT_le_member (es : list Edge) (e : Edge) :
  Forall Shape.normalized es -> In e es ->
  Aql.PRODUCT (map (fun edge => Aql.or_else (strength edge) (1 # 2)) es)
  <= Aql.or_else (strength e) (1 # 2).
Proof.
  induction 1 as [| a es Ha Hes IH]; [contradiction |].
  cbn [map Aql.PRODUCT fold_right].
  fold (Aql.PRODUCT (map (fun edge => Aql.or_else (strength edge) (1 # 2)) es)).
  destruct (factor_in_unit_interval a Ha) as [Flo Fhi].
  destruct (PRODUCT_in_unit_interval es Hes) as [Plo Phi].
  intros [<- | Hin].
  - nra.
  - specialize (IH Hin). nra.
Qed.

(** X3. When every stored [causes] strength lies between 0 and 1, the
    total strength of a reported path is not negative and does not exceed
    the factor of any edge of the path, which is the edge's strength, or 0.5
    where that is absent, null or 0; so it is at most 1. *)
Theorem totalStrength_in_unit_interval
        (st : Store) (fromId toId : Id) (maxDepth : option nat)
        (r : CausalPath.t) :
  In r (traceCausalPath st fromId toId maxDepth) ->
  (forall e, In e (edge_documents st) ->
             collection (e_id e) = "causes"%string -> Shape.normalized e) ->
  0 <= CausalPath.totalStrength r /\ CausalPath.totalStrength r <= 1
  /\ exists w,
       In w (causalPaths st fromId toId
               (match maxDepth with Some d => d | None => 5%nat end))
       /\ r = causalPathRow st fromId toId w
       /\ forall e, In e (p_edges w) ->
                    CausalPath.totalStrength r
                    <= Aql.or_else (strength e) (1 # 2)
                    /\ Aql.or_else (strength e) (1 # 2) <= 1.
Proof.
  intros H Hnorm. apply traceCausalPath_rows in H. destruct H as [w [Hw ->]].
  cbn [CausalPath.totalStrength causalPathRow]. unfold totalStrength.
  assert (Hall : Forall Shape.normalized (p_edges w)).
  { pose proof (causalPaths_edges st _ _ _ _ Hw) as He.
    eapply Forall_impl; [| exact He].
    intros e [Hin Hc]. apply Hnorm; assumption. }
  destruct (PRODUCT_in_unit_interval _ Hall) as [Hlo Hhi].
  split; [apply Qlt_le_weak; exact Hlo |]. split; [exact Hhi |].
  exists w. split; [exact Hw |]. split; [reflexivity |].
  intros e He. split; [apply PRODUCT_le_member; assumption |].
  rewrite Forall_forall in Hall.
  apply (factor_in_unit_interval e (Hall e He)).
Qed.

(** X4. [traceCausalPath] reports no path, and raises nothing, when the
    start or the target handle does not resolve to a stored document, even
    if edges refer to that handle. *)
Theorem traceCausalPath_unresolved_endpoint
        (st : Store) (fromId toId : Id) (maxDepth : option nat) :
  DOCUMENT st fromId = None \/ DOCUMENT st toId = None ->
  traceCausalPath st fromId toId maxDepth = [].
Proof.
  intros H. apply no_member_nil. intros r Hr.
  apply traceCausalPath_rows in Hr. destruct Hr as [w [Hw _]].
  apply causalPaths_inv in Hw. destruct Hw as [start [target [Hs [Ht _]]]].
  destruct H as [H | H]; congruence.
Qed.

End PathShape.

(* ===================================================================== *)
(** ** More on findGameableMetrics *)
(* ===================================================================== *)

Section GameableMore.

Import AnalyticsService Fixtures.

Variable st : Store.

Lemma findGameableMetrics_rows (threshold : option Q) (r : Gameable.t) :
  In r (findGameableMetrics st threshold)
  <-> exists c,
      In c (gameableCandidates st
              (match threshold with Some t => t | None => 1 # 2 end))
      /\ r = gameableRow st c.
Proof.
  unfold findGameableMetrics. rewrite in_map_iff. split.
  - intros [c [Hc Hin]]. exists c. split; [| symmetry; exact Hc].
    apply (Permutation_in _ (SORT_gap_DESC_perm _) Hin).
  - intros [c [Hin Hc]]. exists c. split; [symmetry; exact Hc |].
    apply (Permutation_in _ (Permutation_sym (SORT_gap_DESC_perm _)) Hin).
Qed.

Lemma findGameableMetrics_sorted (threshold : option Q) :
  StronglySorted
    (fun a b => Aql.TO_NUMBER (Gameable.gap b) <= Aql.TO_NUMBER (Gameable.gap a))
    (findGameableMetrics st threshold).
Proof.
  unfold findGameableMetrics.
  apply (StronglySorted_map (gameableRow st)
           (fun a b => Aql.TO_NUMBER (Gameable.gap b)
                       <= Aql.TO_NUMBER (Gameable.gap a))).
  apply SORT_gap_DESC_sorted. apply gameableCandidates_gap.
Qed.

Lemma findGameableMetrics_length (threshold : option Q) :
  List.length (findGameableMetrics st threshold)
  = List.length (gameableCandidates st
                   (match threshold with Some t => t | None => 1 # 2 end)).
Proof.
  unfold findGameableMetrics. rewrite length_map.
  apply Permutation_length. apply SORT_gap_DESC_perm.
Qed.

Lemma flat_map_length_le {A B : Type} (f g : A -> list B) (l : list A) :
  (forall x, (List.length (f x) <= List.length (g x))%nat) ->
  (List.length (flat_map f l) <= List.length (flat_map g l))%nat.
Proof.
  intros H. induction l as [| a l IH]; simpl; [lia |].
  rewrite !length_app. specialize (H a). lia.
Qed.

Lemma flat_map_length_le_one {A B : Type} (f : A -> list B) (l : list A) :
  (forall x, (List.length (f x) <= 1)%nat) ->
  (List.length (flat_map f l) <= List.length l)%nat.
Proof.
  intros H. induction l as [| a l IH]; simpl; [lia |].
  rewrite length_app. specialize (H a). lia.
Qed.

Lemma gameableCandidates_shrink (t1 t2 : Q) :
  t1 <= t2 ->
  (List.length (gameableCandidates st t2)
   <= List.length (gameableCandidates st t1)
   <= List.length (FOR_IN st "metrics"))%nat.
Proof.
  intros Hle. unfold gameableCandidates. split.
  - apply flat_map_length_le. intros m.
    destruct (Aql.not_null (target m) && Aql.not_null (value m)); [| simpl; lia].
    cbv zeta.
    destruct (Aql.divide (Aql.ABS (Aql.minus (value m) (target m))) (target m))
      as [g |]; cbn [Aql.gt]; [| simpl; lia].
    destruct (negb (Qle_bool g t2)) eqn:C2; [| simpl; lia].
    apply not_Qle_bool in C2.
    assert (t1 < g) as C1 by lra. apply not_Qle_bool in C1. rewrite C1.
    simpl. lia.
  - apply flat_map_length_le_one. intros m.
    destruct (Aql.not_null (target m) && Aql.not_null (value m)); [| simpl; lia].
    cbv zeta.
    destruct (Aql.gt
                (Aql.divide (Aql.ABS (Aql.minus (value m) (target m))) (target m))
                t1); simpl; lia.
Qed.

Lemma suspicion_inv (g : Q) :
  (suspicion (Some g) = "EXTREME"%string -> 9 # 10 < g)
  /\ (suspicion (Some g) = "HIGH"%string -> 7 # 10 < g).
Proof.
  unfold suspicion. cbn [Aql.gt].
  destruct (negb (Qle_bool g (9 # 10))) eqn:C9.
  - apply not_Qle_bool in C9. split; intros _; lra.
  - destruct (negb (Qle_bool g (7 # 10))) eqn:C7.
    + apply not_Qle_bool in C7. split; [discriminate | intros _; exact C7].
    + split; discriminate.
Qed.

End GameableMore.

Section GameableMoreClaims.

Import AnalyticsService Fixtures.

(** X5. Raising the threshold of [findGameableMetrics] only removes rows:
    every row returned under the higher threshold is returned under the
    lower one, and the result never has more rows than there are metrics. *)
Theorem findGameableMetrics_threshold_monotone (st : Store) (t1 t2 : Q) :
  t1 <= t2 ->
  (forall r, In r (findGameableMetrics st (Some t2)) ->
             In r (findGameableMetrics st (Some t1)))
  /\ (List.length (findGameableMetrics st (Some t2))
      <= List.length (findGameableMetrics st (Some t1))
      <= List.length (FOR_IN st "metrics"))%nat.
Proof.
  intros Hle. split.
  - intros r Hr. apply findGameableMetrics_rows in Hr.
    destruct Hr as [[m g] [Hc ->]]. apply findGameableMetrics_rows.
    exists (m, g). split; [| reflexivity].
    apply gameableCandidates_In in Hc.
    destruct Hc as [Hm [v [t [Hv [Ht [Hnz [Hth ->]]]]]]].
    apply gameableCandidates_In. split; [exact Hm |].
    exists v, t. repeat split; auto. cbv beta iota in Hth. lra.
  - rewrite !findGameableMetrics_length. apply gameableCandidates_shrink. exact Hle.
Qed.

(** X6. In the result of [findGameableMetrics] the suspicion levels never
    rise: a row that precedes an EXTREME row is EXTREME, and a row that
    precedes a HIGH row is HIGH or EXTREME. *)
Theorem findGameableMetrics_levels_descend
        (st : Store) (threshold : option Q)
        (l1 l2 l3 : list Gameable.t) (a b : Gameable.t) :
  findGameableMetrics st threshold = l1 ++ a :: l2 ++ b :: l3 ->
  (Gameable.suspicionLevel b = "EXTREME"%string ->
   Gameable.suspicionLevel a = "EXTREME"%string)
  /\ (Gameable.suspicionLevel b = "HIGH"%string ->
      Gameable.suspicionLevel a = "HIGH"%string
      \/ Gameable.suspicionLevel a = "EXTREME"%string).
Proof.
  intros Heq.
  pose proof (findGameableMetrics_sorted st threshold) as Hs. rewrite Heq in Hs.
  apply StronglySorted_before in Hs.
  assert (Ha : In a (findGameableMetrics st threshold))
    by (rewrite Heq; apply in_or_app; right; left; reflexivity).
  assert (Hb : In b (findGameableMetrics st threshold)).
  { rewrite Heq. apply in_or_app. right. right.
    apply in_or_app. right. left. reflexivity. }
  apply findGameableMetrics_rows in Ha. destruct Ha as [[ma ga] [Hca ->]].
  apply findGameableMetrics_rows in Hb. destruct Hb as [[mb gb] [Hcb ->]].
  apply gameableCandidates_In in Hca. destruct Hca as [_ [va [ta [_ [_ [_ [_ ->]]]]]]].
  apply gameableCandidates_In in Hcb. destruct Hcb as [_ [vb [tb [_ [_ [_ [_ ->]]]]]]].
  cbn [Gameable.gap Gameable.suspicionLevel gameableRow fst snd Aql.TO_NUMBER] in *.
  destruct (suspicion_inv (Qabs (vb - tb) / tb)) as [He Hh].
  destruct (suspicion_cases (Qabs (va - ta) / ta)) as [Ce [Ch _]].
  split.
  - intros Hb. apply Ce. specialize (He Hb). lra.
  - intros Hb. specialize (Hh Hb).
    destruct (Qlt_le_dec (9 # 10) (Qabs (va - ta) / ta)) as [L | L].
    + right. apply Ce. exact L.
    + left. apply Ch; [lra | exact L].
Qed.

End GameableMoreClaims.

(* ===================================================================== *)
(** ** Bounds of the synergy score *)
(* ===================================================================== *)

Section SynergyBounds.

Import AnalyticsService Fixtures.

Lemma defined_scores_within (lo hi : Q) (score : Doc -> option Q) (l : list Doc) :
  Forall (fun e => Shape.within lo hi (score e)) l ->
  Forall (fun q => lo <= q /\ q <= hi) (Spec.defined_scores score l).
Proof.
  induction 1 as [| e l He _ IH]; [constructor |].
  unfold Spec.defined_scores. cbn [flat_map]. fold (Spec.defined_scores score l).
  unfold Shape.within in He. destruct (score e) as [s |]; [| exact IH].
  constructor; assumption.
Qed.

Lemma successRate_bounds (st : Store) (dept : option Doc) :
  0 <= successRate st dept /\ successRate st dept < 1.
Proof.
  rewrite successRate_ratio. unfold Spec.successRatio.
  pose proof (LENGTH_nonneg
                (filter (fun init => Aql.str_eq (status init) (Some "completed"%string))
                        (initiatives st dept))) as Hc.
  pose proof (LENGTH_nonneg
                (filter (fun init => Aql.str_eq (status init) (Some "abandoned"%string))
                        (initiatives st dept))) as Ha.
  fold (completedInitiatives st dept) in Hc. fold (abandonedInitiatives st dept) in Ha.
  split.
  - apply Qle_shift_div_l; lra.
  - apply Qlt_shift_div_r; lra.
Qed.

(** X7. The success rate returned by [calculateDepartmentSynergy] is at
    least 0 and always below 1.  When the wellness and engagement scores of
    the department's employees lie between 0 and 100, the synergy score is
    at least 0 and below 100, and a department without a completed
    initiative is graded SILOED. *)
Theorem synergyScore_within_bounds (st : Store) (id : string) (r : Synergy.t) :
  calculateDepartmentSynergy st id = Fulfilled (Some r) ->
  (0 <= Synergy.initiativeSuccessRate r /\ Synergy.initiativeSuccessRate r < 1)
  /\ (Forall (fun emp => Shape.within 0 100 (wellnessScore emp)
                         /\ Shape.within 0 100 (engagementLevel emp))
             (employees st (DOCUMENT st (mkId "departments" id))) ->
      0 <= Synergy.synergyScore r
      /\ Synergy.synergyScore r < 100
      /\ (completedInitiatives st (DOCUMENT st (mkId "departments" id)) == 0 ->
          Synergy.synergyGrade r = "SILOED"%string)).
Proof.
  intros Hr. unfold calculateDepartmentSynergy, synergyQuery in Hr.
  cbn [first_or_null hd_error] in Hr. injection Hr as <-.
  cbn [Synergy.initiativeSuccessRate Synergy.synergyScore Synergy.synergyGrade].
  set (dept := DOCUMENT st (mkId "departments" id)).
  pose proof (successRate_bounds st dept) as [Rlo Rhi].
  split; [split; assumption |].
  intros Hemp.
  assert (Hw : 0 <= Aql.TO_NUMBER (avgWellness st dept)
               /\ Aql.TO_NUMBER (avgWellness st dept) <= 100).
  { unfold avgWellness. rewrite AVG_scores.
    apply mean_or_zero_between; [lra | lra |].
    apply defined_scores_within. eapply Forall_impl; [| exact Hemp].
    intros e [H _]. exact H. }
  assert (He : 0 <= Aql.TO_NUMBER (avgEngagement st dept)
               /\ Aql.TO_NUMBER (avgEngagement st dept) <= 100).
  { unfold avgEngagement. rewrite AVG_scores.
    apply mean_or_zero_between; [lra | lra |].
    apply defined_scores_within. eapply Forall_impl; [| exact Hemp].
    intros e [_ H]. exact H. }
  unfold synergyScore. split; [lra |]. split; [lra |].
  intros Hzero. apply synergyGrade_cases.
  assert (successRate st dept == 0) as ->.
  { rewrite successRate_ratio. unfold Spec.successRatio. rewrite Hzero.
    unfold Qdiv. ring. }
  lra.
Qed.

End SynergyBounds.

(* ===================================================================== *)
(** ** More on detectMetricTheater *)
(* ===================================================================== *)

Section TheaterMore.

Import AnalyticsService Fixtures.

(** X8. A metric that no edge of [causal_graph] touches is always reported
    by [detectMetricTheater]; a metric joined by one such edge, in either
    direction, to a stored initiative is never reported. *)
Theorem detectMetricTheater_isolated_and_linked (st : Store) (m : Doc) :
  In m (FOR_IN st "metrics") ->
  ((forall e, Spec.causal_edge st e -> _from e <> _id m /\ _to e <> _id m) ->
   In (theaterRow m) (detectMetricTheater st))
  /\ ((exists e i d, Spec.causal_edge st e /\ Spec.adjacent e (_id m) i
                     /\ DOCUMENT st i = Some d
                     /\ collection i = "initiatives"%string) ->
      forall r, In r (detectMetricTheater st) -> Theater.metric r <> m).
Proof.
  intros Hm. split.
  - intros Hiso. unfold detectMetricTheater. apply in_map. apply filter_In.
    split; [exact Hm |]. apply LENGTH_zero.
    unfold linkedInitiatives, traversal.
    assert (extend (edges_of st causal_graph) ANY 2 (_id m) [] = []) as ->.
    { apply no_member_nil. intros w Hw. apply extend_inv in Hw.
      destruct Hw as [e [v [He [_ [Hv _]]]]].
      apply causal_edge_In in He. apply neighbours_ANY in Hv.
      destruct (Hiso e He) as [Hf Ht].
      destruct Hv as [[H _] | [H _]]; contradiction. }
    reflexivity.
  - intros [e [i [d [He [Hadj [Hd Hi]]]]]] r Hr Heq.
    unfold detectMetricTheater in Hr. apply in_map_iff in Hr.
    destruct Hr as [m' [<- Hm']]. cbn [Theater.metric theaterRow] in Heq. subst m'.
    apply filter_In in Hm'. destruct Hm' as [_ Hz]. apply LENGTH_zero in Hz.
    assert (In (Some d) (linkedInitiatives st m)) as Hin.
    { unfold linkedInitiatives. apply filter_In. split.
      - apply in_map_iff. exists (i, [(e, i)]). split; [exact Hd |].
        unfold traversal. apply extend_first_hop.
        + apply causal_edge_In. exact He.
        + reflexivity.
        + apply neighbours_ANY. exact Hadj.
      - cbn [LIKE_collection]. destruct (DOCUMENT_Some _ _ _ Hd) as [_ ->].
        rewrite Hi. reflexivity. }
    rewrite Hz in Hin. contradiction.
Qed.

End TheaterMore.

(* ===================================================================== *)
(** ** findUnintendedConsequences and linkCause *)
(* ===================================================================== *)

Section Unintended.

Import AnalyticsService Fixtures.

Lemma findUnintendedConsequences_In (st : Store) (id : string) (w : Visit) (d : Doc) :
  In w (traversal (edges_of st ["causes"%string]) OUTBOUND 3
          (DOCUMENT st (mkId "initiatives" id))) ->
  vertex st w = Some d ->
  collection (_id d) = "outcomes"%string ->
  type d = Some "unintended"%string ->
  In (Some d) (InitiativeService.findUnintendedConsequences st id).
Proof.
  intros Hw Hv Hc Ht. unfold InitiativeService.findUnintendedConsequences, RETURN_DISTINCT.
  apply nodup_In. apply filter_In. split.
  - apply filter_In. split.
    + apply in_map_iff. exists w. split; assumption.
    + cbn [LIKE_collection]. rewrite Hc. reflexivity.
  - cbn [attr]. rewrite Ht. reflexivity.
Qed.

(** X9. [findUnintendedConsequences] returns stored outcome documents of
    type unintended only, never null; no document is returned twice and no
    two rows share a handle, however many paths lead to an outcome; and an
    identifier that names no initiative gives the empty list, not an
    error. *)
Theorem findUnintendedConsequences_rows (st : Store) (id : string) :
  NoDup (InitiativeService.findUnintendedConsequences st id)
  /\ (forall v,
         In v (InitiativeService.findUnintendedConsequences st id) ->
         exists d,
           v = Some d /\ DOCUMENT st (_id d) = Some d
           /\ collection (_id d) = "outcomes"%string
           /\ type d = Some "unintended"%string)
  /\ (forall a b,
         In a (InitiativeService.findUnintendedConsequences st id) ->
         In b (InitiativeService.findUnintendedConsequences st id) ->
         attr (fun d => Some (_id d)) a = attr (fun d => Some (_id d)) b ->
         a = b)
  /\ (DOCUMENT st (mkId "initiatives" id) = None ->
      InitiativeService.findUnintendedConsequences st id = []).
Proof.
  destruct (findUnintendedConsequences_distinct st id) as [Hnd [Hkey Hchar]].
  split; [exact Hnd |]. split; [| split; [exact Hkey |]].
  - intros v Hv. apply Hchar in Hv. destruct Hv as [w [_ [Hw [Hl Ht]]]].
    destruct v as [d |]; [| discriminate]. exists d.
    cbn [LIKE_collection] in Hl. apply String.eqb_eq in Hl.
    cbn [attr Aql.str_eq] in Ht.
    destruct (type d) as [t |] eqn:Et; [| discriminate].
    apply String.eqb_eq in Ht. subst t.
    split; [reflexivity |]. split; [| split; [exact Hl | reflexivity]].
    unfold vertex in Hw. symmetry in Hw.
    destruct (DOCUMENT_Some _ _ _ Hw) as [_ Hid]. rewrite Hid. exact Hw.
  - intros Hs. unfold InitiativeService.findUnintendedConsequences.
    rewrite Hs. reflexivity.
Qed.

(** X10. Every outcome document of type unintended that
    [calculateIntentionRealityGap] lists among its actual outcomes is also
    returned by [findUnintendedConsequences] for the same initiative. *)
Theorem gap_unintended_are_consequences (st : Store) (id : string) (d : Doc) :
  In (Some d) (actual st (DOCUMENT st (mkId "initiatives" id))) ->
  collection (_id d) = "outcomes"%string ->
  type d = Some "unintended"%string ->
  In (Some d) (InitiativeService.findUnintendedConsequences st id).
Proof.
  intros Hin Hc Ht. unfold actual in Hin. apply filter_In in Hin.
  destruct Hin as [Hin _]. apply in_map_iff in Hin. destruct Hin as [w [Hv Hw]].
  apply (findUnintendedConsequences_In st id w d); try assumption.
  unfold traversal in *. destruct (DOCUMENT st (mkId "initiatives" id)); [| contradiction].
  apply extend_depth_mono. exact Hw.
Qed.

(** X11. After [linkCause] has linked a stored initiative to a stored
    outcome, [traceCausalPath] reports the direct path between them, of
    length 2, whose total strength is the given strength, or 0.5 if that
    strength is 0; and if the outcome is of type unintended,
    [findUnintendedConsequences] returns it. *)
Theorem linkCause_then_query
        (st : Store) (edgeKey initiativeId outcomeId : string) (s : Q)
        (init outcome : Doc) :
  DOCUMENT st (mkId "initiatives" initiativeId) = Some init ->
  DOCUMENT st (mkId "outcomes" outcomeId) = Some outcome ->
  (exists r,
      In r (traceCausalPath
              (InitiativeService.linkCause st edgeKey initiativeId outcomeId s)
              (mkId "initiatives" initiativeId) (mkId "outcomes" outcomeId) None)
      /\ CausalPath.length r == 2
      /\ (~ s == 0 -> CausalPath.totalStrength r == s)
      /\ (s == 0 -> CausalPath.totalStrength r == 1 # 2))
  /\ (type outcome = Some "unintended"%string ->
      In (Some outcome)
         (InitiativeService.findUnintendedConsequences
            (InitiativeService.linkCause st edgeKey initiativeId outcomeId s)
            initiativeId)).
Proof.
  intros Hi Ho.
  set (e := mkEdge (mkId "causes" edgeKey) (mkId "initiatives" initiativeId)
                   (mkId "outcomes" outcomeId) (Some s)).
  set (st' := InitiativeService.linkCause st edgeKey initiativeId outcomeId s).
  assert (He : In e (edges_of st' ["causes"%string])).
  { apply edges_of_In. split; [| left; reflexivity].
    unfold st', InitiativeService.linkCause. cbn [edge_documents].
    apply in_or_app. right. left. reflexivity. }
  assert (Hhop : forall d, In (mkId "outcomes" outcomeId, [(e, mkId "outcomes" outcomeId)])
                              (extend (edges_of st' ["causes"%string]) OUTBOUND (S d)
                                      (mkId "initiatives" initiativeId) [])).
  { intros d. apply extend_first_hop; [exact He | reflexivity |].
    apply neighbours_OUTBOUND. split; reflexivity. }
  assert (Hdoc : forall i, DOCUMENT st' i = DOCUMENT st i) by reflexivity.
  destruct (DOCUMENT_Some _ _ _ Hi) as [_ Hidi].
  destruct (DOCUMENT_Some _ _ _ Ho) as [_ Hido].
  split.
  - exists (causalPathRow st' (mkId "initiatives" initiativeId)
                          (mkId "outcomes" outcomeId)
                          (mkId "outcomes" outcomeId, [(e, mkId "outcomes" outcomeId)])).
    split.
    + unfold traceCausalPath. apply in_map. unfold causalPaths. apply filter_In. split.
      * rewrite Hdoc, Hi. unfold traversal. rewrite Hidi. apply Hhop.
      * unfold vertex. cbn [fst]. rewrite Hdoc, Ho, Hido. apply id_eqb_refl.
    + split; [reflexivity |].
      cbn [CausalPath.totalStrength causalPathRow]. unfold totalStrength, p_edges.
      cbn [snd map fst Aql.PRODUCT fold_right strength e]. split.
      * intros Hnz. rewrite (or_else_stored _ _ Hnz). ring.
      * intros Hz. unfold Aql.or_else, Aql.truthy.
        apply Qeq_bool_iff in Hz. rewrite Hz. cbn [negb]. ring.
  - intros Hty.
    apply (findUnintendedConsequences_In st' initiativeId
             (mkId "outcomes" outcomeId, [(e, mkId "outcomes" outcomeId)]) outcome).
    + rewrite Hdoc, Hi. unfold traversal. rewrite Hidi. apply Hhop.
    + unfold vertex. cbn [fst]. rewrite Hdoc. exact Ho.
    + rewrite Hido. reflexivity.
    + exact Hty.
Qed.

End Unintended.

(* ===================================================================== *)
(** ** getInitiativeWithOutcomes *)
(* ===================================================================== *)

Section InitiativeWithOutcomesFacts.

Import Fixtures MoreFixtures.

Lemma map_fst_filter_pairs {A B C : Type} (p : B -> bool) (f : A -> B) (g : A -> C)
      (l : list A) :
  map fst (filter (fun o => p (fst o)) (map (fun w => (f w, g w)) l))
  = filter p (map f l).
Proof.
  induction l as [| a l IH]; [reflexivity |].
  cbn [map filter fst]. destruct (p (f a)); cbn [map fst]; rewrite IH; reflexivity.
Qed.

Lemma filter_split_perm {A : Type} (p : A -> bool) (l : list A) :
  Permutation (filter p l ++ filter (fun x => negb (p x)) l) l.
Proof.
  induction l as [| a l IH]; [apply Permutation_refl |].
  cbn [filter]. destruct (p a); cbn [negb app].
  - apply perm_skip. exact IH.
  - apply Permutation_sym. apply Permutation_cons_app.
    apply Permutation_sym. exact IH.
Qed.

Lemma non_null_within (lo hi : Q) (l : list (option Q)) :
  Forall (Shape.within lo hi) l ->
  Forall (fun q => lo <= q /\ q <= hi) (Aql.non_null l).
Proof.
  induction 1 as [| x l Hx _ IH]; [constructor |].
  unfold Aql.non_null. cbn [flat_map]. fold (Aql.non_null l).
  destruct x as [q |]; [constructor; assumption | exact IH].
Qed.

Variable st : Store.
Variable severity : Doc -> option Q.

Lemma hop_one_vertices (init : Doc) :
  map (vertex st)
      (traversal (edges_of st ["causes"%string]) OUTBOUND 1 (Some init))
  = map (fun e => DOCUMENT st (_to e))
        (filter (fun e => id_eqb (_from e) (_id init))
                (edges_of st ["causes"%string])).
Proof.
  unfold traversal. rewrite map_vertex, ends_one_hop, map_map. reflexivity.
Qed.

(** X12. For an initiative that resolves, [getInitiativeWithOutcomes] puts
    the target of every [causes] edge leaving the initiative into exactly
    one of its two lists: [intended] holds those of type intended (the same
    list as in [calculateIntentionRealityGap]), [actual] all the others,
    whatever their type. *)
Theorem getInitiativeWithOutcomes_partition (id : string) (init : Doc) :
  DOCUMENT st (mkId "initiatives" id) = Some init ->
  exists r,
    InitiativeRead.getInitiativeWithOutcomes st severity id = Fulfilled (Some r)
    /\ InitiativeWithOutcomes.initiative r = Some init
    /\ Permutation
         (InitiativeWithOutcomes.intended r ++ InitiativeWithOutcomes.actual r)
         (map (fun e => DOCUMENT st (_to e))
              (filter (fun e => id_eqb (_from e) (_id init))
                      (edges_of st ["causes"%string])))
    /\ (List.length (InitiativeWithOutcomes.intended r)
        + List.length (InitiativeWithOutcomes.actual r))%nat
       = List.length (filter (fun e => id_eqb (_from e) (_id init))
                             (edges_of st ["causes"%string]))
    /\ InitiativeWithOutcomes.intended r = AnalyticsService.intended st (Some init)
    /\ (forall v, In v (InitiativeWithOutcomes.actual r) ->
                  attr type v <> Some "intended"%string).
Proof.
  intros Hd. eexists. split; [reflexivity |].
  cbn [first_or_null hd_error InitiativeRead.outcomesQuery
       InitiativeWithOutcomes.initiative InitiativeWithOutcomes.intended
       InitiativeWithOutcomes.actual].
  rewrite Hd. split; [reflexivity |].
  assert (Hi : InitiativeRead.intended st (Some init)
               = filter (fun v => Aql.str_eq (attr type v) (Some "intended"%string))
                        (map (vertex st)
                             (traversal (edges_of st ["causes"%string]) OUTBOUND 1
                                        (Some init)))).
  { unfold InitiativeRead.intended, InitiativeRead.outcomes.
    apply (map_fst_filter_pairs
             (fun v => Aql.str_eq (attr type v) (Some "intended"%string))). }
  assert (Ha : InitiativeRead.actual st (Some init)
               = filter (fun v => negb (Aql.str_eq (attr type v) (Some "intended"%string)))
                        (map (vertex st)
                             (traversal (edges_of st ["causes"%string]) OUTBOUND 1
                                        (Some init)))).
  { unfold InitiativeRead.actual, InitiativeRead.outcomes.
    apply (map_fst_filter_pairs
             (fun v => negb (Aql.str_eq (attr type v) (Some "intended"%string)))). }
  assert (Hp : Permutation
                 (InitiativeRead.intended st (Some init)
                  ++ InitiativeRead.actual st (Some init))
                 (map (fun e => DOCUMENT st (_to e))
                      (filter (fun e => id_eqb (_from e) (_id init))
                              (edges_of st ["causes"%string])))).
  { rewrite Hi, Ha, <- hop_one_vertices. apply filter_split_perm. }
  split; [exact Hp |]. split.
  - apply Permutation_length in Hp. rewrite length_app, length_map in Hp. exact Hp.
  - split; [exact Hi |].
    intros v Hv. rewrite Ha in Hv. apply filter_In in Hv. destruct Hv as [_ Hv].
    intros Heq. rewrite Heq in Hv. discriminate.
Qed.

(** X13. The [gap] of [getInitiativeWithOutcomes] is 0 when the [actual]
    list is empty, the mean of the severities present in it otherwise, and
    null when the list is not empty but no member has a severity.  With
    severities between 0 and 10 a numeric gap lies between 0 and 10.  For
    an identifier that does not resolve the row has a null initiative, two
    empty lists and gap 0. *)
Theorem getInitiativeWithOutcomes_gap (id : string) (r : InitiativeWithOutcomes.t) :
  InitiativeRead.getInitiativeWithOutcomes st severity id = Fulfilled (Some r) ->
  value_eq (InitiativeWithOutcomes.gap r)
           (match InitiativeWithOutcomes.actual r with
            | [] => Some 0
            | _ :: _ =>
                match Aql.non_null
                        (map (attr severity) (InitiativeWithOutcomes.actual r)) with
                | [] => None
                | s :: ss => Some (Spec.mean (s :: ss))
                end
            end)
  /\ (Forall (fun v => Shape.within 0 10 (attr severity v))
             (InitiativeWithOutcomes.actual r) ->
      forall g, InitiativeWithOutcomes.gap r = Some g -> 0 <= g /\ g <= 10)
  /\ (DOCUMENT st (mkId "initiatives" id) = None ->
      InitiativeWithOutcomes.initiative r = None
      /\ InitiativeWithOutcomes.intended r = []
      /\ InitiativeWithOutcomes.actual r = []
      /\ InitiativeWithOutcomes.gap r = Some 0).
Proof.
  intros Hr. unfold InitiativeRead.getInitiativeWithOutcomes,
               InitiativeRead.outcomesQuery in Hr.
  cbn [first_or_null hd_error] in Hr. injection Hr as <-.
  cbn [InitiativeWithOutcomes.initiative InitiativeWithOutcomes.intended
       InitiativeWithOutcomes.actual InitiativeWithOutcomes.gap].
  set (initiative := DOCUMENT st (mkId "initiatives" id)).
  split; [| split].
  - unfold InitiativeRead.gap, Aql.AVG.
    destruct (InitiativeRead.actual st initiative) as [| a l];
      [simpl; reflexivity |].
    change (0 <? List.length (a :: l))%nat with true. cbv iota.
    destruct (Aql.non_null (map (attr severity) (a :: l))); simpl;
      [exact I | reflexivity].
  - intros Hsev g Hg. unfold InitiativeRead.gap, Aql.AVG in Hg.
    destruct (InitiativeRead.actual st initiative) as [| a l] eqn:Ea.
    + cbn in Hg. injection Hg as <-. split; [lra | discriminate].
    + change (0 <? List.length (a :: l))%nat with true in Hg. cbv iota in Hg.
      assert (Hb : Forall (fun q => 0 <= q /\ q <= 10)
                          (Aql.non_null (map (attr severity) (a :: l)))).
      { apply non_null_within. apply Forall_map. exact Hsev. }
      destruct (Aql.non_null (map (attr severity) (a :: l))) as [| s ss];
        [discriminate |].
      injection Hg as <-. apply (mean_between 0 10 s ss Hb).
  - intros Hnone. subst initiative. rewrite Hnone. repeat split.
Qed.

End InitiativeWithOutcomesFacts.

(* ===================================================================== *)
(** ** VisualizationService: heat map and scatter plot *)
(* ===================================================================== *)

Section Charts.

Import AnalyticsService Fixtures MoreFixtures.

Lemma or_else_zero (x : option Q) : Aql.or_else x 0 == Aql.TO_NUMBER x.
Proof.
  unfold Aql.or_else, Aql.truthy. destruct x as [q |]; [| reflexivity].
  destruct (Qeq_bool q 0) eqn:E; cbn [negb Aql.TO_NUMBER]; [| reflexivity].
  apply Qeq_bool_iff in E. symmetry. exact E.
Qed.

Lemma flat_map_if {A B : Type} (p : A -> bool) (f : A -> B) (l : list A) :
  flat_map (fun a => if p a then [f a] else []) l = map f (filter p l).
Proof.
  induction l as [| a l IH]; [reflexivity |].
  cbn [flat_map filter]. destruct (p a); cbn [map app]; rewrite IH; reflexivity.
Qed.

Lemma LENGTH_positive {A : Type} (l : list A) :
  0 < Aql.LENGTH l -> 1 <= Aql.LENGTH l.
Proof.
  destruct l as [| a l]; [intros H; vm_compute in H; discriminate |].
  intros _. unfold Aql.LENGTH. rewrite length_S_Q.
  pose proof (LENGTH_nonneg l) as H. unfold Aql.LENGTH in H. lra.
Qed.

Lemma FOR_IN_DOCUMENT (st : Store) (c k : string) (d : Doc) :
  DOCUMENT st (mkId c k) = Some d -> In d (FOR_IN st c).
Proof.
  intros H. destruct (DOCUMENT_Some _ _ _ H) as [Hin Hid].
  apply FOR_IN_collection. split; [exact Hin |]. rewrite Hid. reflexivity.
Qed.

Lemma no_outbound_edge (E : list Edge) (d : nat) (cur : Id) (used : list Id) :
  (forall e, In e E -> _from e <> cur) -> extend E OUTBOUND d cur used = [].
Proof.
  intros H. apply no_member_nil. intros w Hw.
  destruct d as [| d]; [contradiction |].
  apply extend_inv in Hw. destruct Hw as [e [v [He [_ [Hv _]]]]].
  apply neighbours_OUTBOUND in Hv. destruct Hv as [Hf _].
  apply (H e He). exact Hf.
Qed.

Variable st : Store.

(** X17. The heat map has three cells per department.  For a department
    that resolves, its Wellness and Engagement cells carry the means that
    [calculateDepartmentSynergy] uses (0 where no employee has the score,
    never null), so that the synergy score of the department equals
    wellness * 0.3 + engagement * 0.3 + successRate * 40 on those cells. *)
Theorem heatmap_agrees_with_synergy
        (synergyIndex : Doc -> option Q) (toFixed1 : Q -> string)
        (id : string) (d : Doc) :
  DOCUMENT st (mkId "departments" id) = Some d ->
  List.length (VisualizationService.getDepartmentSynergyHeatmap st synergyIndex toFixed1)
  = (3 * List.length (FOR_IN st "departments"))%nat
  /\ exists r w e,
      calculateDepartmentSynergy st id = Fulfilled (Some r)
      /\ In (HeatmapCell.mk (name d) "Wellness" w (toFixed1 w))
            (VisualizationService.getDepartmentSynergyHeatmap st synergyIndex toFixed1)
      /\ In (HeatmapCell.mk (name d) "Engagement" e (toFixed1 e))
            (VisualizationService.getDepartmentSynergyHeatmap st synergyIndex toFixed1)
      /\ w == Spec.mean_or_zero
                (Spec.defined_scores wellnessScore
                   (Spec.of_department st "employees" d))
      /\ e == Spec.mean_or_zero
                (Spec.defined_scores engagementLevel
                   (Spec.of_department st "employees" d))
      /\ Synergy.synergyScore r
         == w * (3 # 10) + e * (3 # 10) + Synergy.initiativeSuccessRate r * 40.
Proof.
  intros Hd. split.
  - unfold VisualizationService.getDepartmentSynergyHeatmap,
      VisualizationService.heatmapQuery.
    induction (FOR_IN st "departments") as [| x l IH]; [reflexivity |].
    cbn [map flat_map]. rewrite length_app, IH.
    cbn [VisualizationService.heatmapCells List.length]. lia.
  - eexists.
    exists (Aql.or_else (avgWellness st (Some d)) 0),
           (Aql.or_else (avgEngagement st (Some d)) 0).
    split; [reflexivity |].
    assert (Hrow : In (name d,
                       Aql.or_else (avgWellness st (Some d)) 0,
                       Aql.or_else (avgEngagement st (Some d)) 0,
                       Aql.or_else (synergyIndex d) 0)
                      (VisualizationService.heatmapQuery st synergyIndex)).
    { unfold VisualizationService.heatmapQuery.
      apply (in_map (fun dept =>
                       (name dept,
                        Aql.or_else (avgWellness st (Some dept)) 0,
                        Aql.or_else (avgEngagement st (Some dept)) 0,
                        Aql.or_else (synergyIndex dept) 0))).
      apply (FOR_IN_DOCUMENT st _ _ _ Hd). }
    split; [| split].
    + unfold VisualizationService.getDepartmentSynergyHeatmap. apply in_flat_map.
      eexists. split; [exact Hrow |]. left. reflexivity.
    + unfold VisualizationService.getDepartmentSynergyHeatmap. apply in_flat_map.
      eexists. split; [exact Hrow |]. right. left. reflexivity.
    + cbn [Synergy.synergyScore Synergy.initiativeSuccessRate first_or_null
           hd_error synergyQuery]. rewrite Hd.
      rewrite !or_else_zero. unfold avgWellness, avgEngagement.
      rewrite !AVG_scores. split; [reflexivity |]. split; [reflexivity |].
      unfold synergyScore, avgWellness, avgEngagement. rewrite !AVG_scores.
      reflexivity.
Qed.

(** X16. The scatter plot has one point, in collection order, for each
    initiative with at least one intended or actual outcome.  An initiative
    that no [causes] edge leaves is never plotted, and every point has
    whole, non-negative coordinates and size x + y of at least 1. *)
Theorem scatter_points (inherited : string -> bool) :
  exists plotted : Doc -> bool,
    VisualizationService.getIntentionRealityScatter st inherited
    = map (fun init =>
             VisualizationService.scatterPoint inherited
               (name init,
                VisualizationService.intendedCount st init,
                VisualizationService.unintendedCount st init,
                status init))
          (filter plotted (FOR_IN st "initiatives"))
    /\ (forall init,
           (forall e, In e (edge_documents st) ->
                      collection (e_id e) = "causes"%string ->
                      _from e <> _id init) ->
           plotted init = false)
    /\ (forall init,
           plotted init = true
           <-> intended st (Some init) <> [] \/ actual st (Some init) <> [])
    /\ Forall (fun p => ScatterPoint.size p == ScatterPoint.x p + ScatterPoint.y p
                        /\ 1 <= ScatterPoint.size p
                        /\ 0 <= ScatterPoint.x p /\ 0 <= ScatterPoint.y p)
              (VisualizationService.getIntentionRealityScatter st inherited).
Proof.
  exists (fun init =>
            Aql.gt (Some (VisualizationService.intendedCount st init)) 0
            || Aql.gt (Some (VisualizationService.unintendedCount st init)) 0).
  assert (Hpos : forall init,
             Aql.gt (Some (VisualizationService.intendedCount st init)) 0
             || Aql.gt (Some (VisualizationService.unintendedCount st init)) 0 = true
             <-> 0 < VisualizationService.intendedCount st init
                 \/ 0 < VisualizationService.unintendedCount st init).
  { intros init. rewrite orb_true_iff. cbn [Aql.gt]. rewrite !not_Qle_bool.
    reflexivity. }
  assert (Hcount : forall (l : list (option Doc)),
             0 < Aql.LENGTH (map (fun _ : option Doc => 1) l) <-> l <> []).
  { intros l. destruct l as [| a l]; split; intros H.
    - vm_compute in H. discriminate.
    - contradiction.
    - discriminate.
    - unfold Aql.LENGTH. apply length_pos_Q. }
  split; [| split; [| split]].
  - unfold VisualizationService.getIntentionRealityScatter,
      VisualizationService.scatterQuery.
    rewrite (flat_map_if
               (fun init =>
                  Aql.gt (Some (VisualizationService.intendedCount st init)) 0
                  || Aql.gt (Some (VisualizationService.unintendedCount st init)) 0)
               (fun init =>
                  (name init, VisualizationService.intendedCount st init,
                   VisualizationService.unintendedCount st init, status init))).
    rewrite map_map. reflexivity.
  - intros init Hno.
    assert (Hnone : forall d, extend (edges_of st ["causes"%string]) OUTBOUND d
                                     (_id init) [] = []).
    { intros d. apply no_outbound_edge. intros e He.
      apply edges_of_In in He. destruct He as [He [Hc | []]].
      apply Hno; [exact He | symmetry; exact Hc]. }
    unfold VisualizationService.intendedCount, VisualizationService.unintendedCount,
      intended, actual, traversal.
    rewrite !Hnone. reflexivity.
  - intros init. rewrite Hpos.
    unfold VisualizationService.intendedCount, VisualizationService.unintendedCount.
    rewrite !Hcount. reflexivity.
  - unfold VisualizationService.getIntentionRealityScatter.
    apply Forall_forall. intros p Hp. apply in_map_iff in Hp.
    destruct Hp as [[[[nm ic] uc] stt] [<- Hrow]].
    unfold VisualizationService.scatterQuery in Hrow. apply in_flat_map in Hrow.
    destruct Hrow as [init [_ Hrow]].
    destruct (Aql.gt (Some (VisualizationService.intendedCount st init)) 0
              || Aql.gt (Some (VisualizationService.unintendedCount st init)) 0) eqn:G;
      [| contradiction].
    destruct Hrow as [Hrow | []]. injection Hrow as _ <- <- _.
    cbn [VisualizationService.scatterPoint ScatterPoint.size ScatterPoint.x
         ScatterPoint.y].
    apply Hpos in G.
    pose proof (LENGTH_nonneg (map (fun _ : option Doc => 1) (intended st (Some init)))) as Hi.
    pose proof (LENGTH_nonneg (map (fun _ : option Doc => 1) (actual st (Some init)))) as Hu.
    fold (VisualizationService.intendedCount st init) in Hi.
    fold (VisualizationService.unintendedCount st init) in Hu.
    split; [reflexivity |]. split; [| split; assumption].
    destruct G as [G | G]; apply LENGTH_positive in G.
    + fold (VisualizationService.intendedCount st init) in G. lra.
    + fold (VisualizationService.unintendedCount st init) in G. lra.
Qed.

End Charts.

(* ===================================================================== *)
(** ** VisualizationService: the initiative-outcome flow *)
(* ===================================================================== *)

Section IndexMaps.




Variable substring : nat -> nat -> string -> string.

Lemma outcomeNodes_ids (outs : list Doc) (ns : list Flow.node_t) :
  VisualizationService.outcomeNodes substring outs = Some ns ->
  map Flow.id ns = map _id outs.
Proof.
  revert ns. induction outs as [| o outs IH]; intros ns H.
  - injection H as <-. reflexivity.
  - cbn [VisualizationService.outcomeNodes] in H.
    unfold VisualizationService.outcomeNode in H.
    destruct (description o) as [text |]; [| discriminate].
    destruct (VisualizationService.outcomeNodes substring outs) as [ns' |]; [| discriminate].
    injection H as <-. cbn [map Flow.id]. rewrite (IH ns' eq_refl). reflexivity.
Qed.

Lemma outcomeNodes_None (outs : list Doc) :
  VisualizationService.outcomeNodes substring outs = None
  <-> exists o, In o outs /\ description o = None.
Proof.
  induction outs as [| o outs IH].
  - split; [discriminate | intros [o [[] _]]].
  - cbn [VisualizationService.outcomeNodes].
    unfold VisualizationService.outcomeNode.
    destruct (description o) as [text |] eqn:Ed.
    + destruct (VisualizationService.outcomeNodes substring outs) as [ns |].
      * split; [discriminate |]. intros [o' [[<- | Hin] Hn]]; [congruence |].
        exfalso. destruct IH as [_ IH].
        assert (Some ns = None) by (apply IH; exists o'; auto). discriminate.
      * split; [| reflexivity]. intros _.
        destruct IH as [IH _]. destruct (IH eq_refl) as [o' [Hin Hn]].
        exists o'. split; [right; exact Hin | exact Hn].
    + split; [| reflexivity]. intros _. exists o. split; [left; reflexivity | exact Ed].
Qed.

End IndexMaps.

Section FlowFacts.

Import Fixtures MoreFixtures.

Variable st : Store.
Variable hasStrength : Edge -> bool.
Variable substring : nat -> nat -> string -> string.

(** X14. [getInitiativeOutcomeFlow] rejects with a TypeError exactly when
    some outcome document has no description.  Otherwise it fulfils, and
    its nodes are the initiatives followed by the outcomes, in collection
    order, one node per document. *)
Theorem flow_rejects_without_description :
  (VisualizationService.getInitiativeOutcomeFlow st hasStrength substring = Rejected "TypeError"
   <-> exists o, In o (FOR_IN st "outcomes") /\ description o = None)
  /\ ((forall o, In o (FOR_IN st "outcomes") -> description o <> None) ->
      exists f,
        VisualizationService.getInitiativeOutcomeFlow st hasStrength substring = Fulfilled f
        /\ map Flow.id (Flow.nodes f)
           = map _id (FOR_IN st "initiatives") ++ map _id (FOR_IN st "outcomes")).
Proof.
  unfold VisualizationService.getInitiativeOutcomeFlow. split.
  - destruct (VisualizationService.outcomeNodes substring (FOR_IN st "outcomes")) as [ns |] eqn:E.
    + split; [discriminate |]. intros H. apply (outcomeNodes_None substring) in H.
      congruence.
    + split; [| reflexivity]. intros _. apply (outcomeNodes_None substring). exact E.
  - intros Hall.
    destruct (VisualizationService.outcomeNodes substring (FOR_IN st "outcomes")) as [ns |] eqn:E.
    + eexists. split; [reflexivity |]. cbn [Flow.nodes].
      rewrite map_app, map_map. cbn [VisualizationService.initiativeNode Flow.id].
      rewrite (outcomeNodes_ids _ _ _ E). reflexivity.
    + apply (outcomeNodes_None substring) in E. destruct E as [o [Hin Hn]].
      exfalso. apply (Hall o Hin Hn).
Qed.




End FlowFacts.

(* ===================================================================== *)
(** ** The further theorems at concrete stores *)
(* ===================================================================== *)

Section MoreInstances.

Import AnalyticsService Fixtures MoreFixtures.

(** The bounds of the gap score at the scenario store. *)
Lemma gapScore_within_bounds_at_gap_scenario :
  exists r,
    calculateIntentionRealityGap gap_scenario "i1" = Fulfilled (Some r)
    /\ IntentionRealityGap.gapScore r <= 100
    /\ (Forall (fun m => forall t, attr target m = Some t -> 0 <= t)
               (metrics gap_scenario
                        (DOCUMENT gap_scenario (mkId "initiatives" "i1"))) ->
        0 <= IntentionRealityGap.gapScore r).
Proof.
  eexists. split; [reflexivity |].
  apply (gapScore_within_bounds gap_scenario "i1"). reflexivity.
Defined.

(** The shape of the path reported in the chain of the unit test. *)
Lemma traceCausalPath_paths_are_chains_at_test_chain :
  exists w,
    causalPathRow test_chain (_id I1) (_id O2) test_chain_path
    = causalPathRow test_chain (_id I1) (_id O2) w
    /\ In w (causalPaths test_chain (_id I1) (_id O2) 5)
    /\ DOCUMENT test_chain (_id I1) <> None
    /\ DOCUMENT test_chain (_id O2) <> None
    /\ Forall (fun e => In e (edge_documents test_chain)
                        /\ collection (e_id e) = "causes"%string)
              (p_edges w)
    /\ Shape.follows (_id I1) (snd w)
    /\ last (map snd (snd w)) (_id I1) = _id O2
    /\ (1 <= List.length (p_edges w) <= 5)%nat
    /\ NoDup (map e_id (p_edges w))
    /\ CausalPath.length (causalPathRow test_chain (_id I1) (_id O2) test_chain_path)
       == inject_Z (Z.of_nat (List.length (p_edges w))) + 1
    /\ List.length
         (CausalPath.path (causalPathRow test_chain (_id I1) (_id O2) test_chain_path))
       = S (List.length (p_edges w)).
Proof.
  apply (traceCausalPath_paths_are_chains test_chain (_id I1) (_id O2) None).
  left. reflexivity.
Defined.

(** The strength bounds in the chain of the unit test (0.8, then 0.7):
    the total 0.56 is below both. *)
Lemma totalStrength_in_unit_interval_at_test_chain :
  0 <= CausalPath.totalStrength
         (causalPathRow test_chain (_id I1) (_id O2) test_chain_path)
  /\ CausalPath.totalStrength
       (causalPathRow test_chain (_id I1) (_id O2) test_chain_path) <= 1
  /\ exists w,
       In w (causalPaths test_chain (_id I1) (_id O2) 5)
       /\ causalPathRow test_chain (_id I1) (_id O2) test_chain_path
          = causalPathRow test_chain (_id I1) (_id O2) w
       /\ forall e, In e (p_edges w) ->
                    CausalPath.totalStrength
                      (causalPathRow test_chain (_id I1) (_id O2) test_chain_path)
                    <= Aql.or_else (strength e) (1 # 2)
                    /\ Aql.or_else (strength e) (1 # 2) <= 1.
Proof.
  apply (totalStrength_in_unit_interval test_chain (_id I1) (_id O2) None).
  - left. reflexivity.
  - intros e [<- | [<- | []]] _; unfold Shape.normalized; simpl; split; discriminate.
Defined.

(** No path from a handle that the empty store does not hold. *)
Lemma traceCausalPath_unresolved_endpoint_at_empty :
  traceCausalPath empty (_id I1) (_id O2) None = [].
Proof.
  apply (traceCausalPath_unresolved_endpoint empty (_id I1) (_id O2) None).
  left. reflexivity.
Defined.

(** Thresholds 0.3 and 0.5 on the store of two metrics. *)
Lemma findGameableMetrics_threshold_monotone_at_two_metrics :
  (forall r, In r (findGameableMetrics two_metrics (Some (1 # 2))) ->
             In r (findGameableMetrics two_metrics (Some (3 # 10))))
  /\ (List.length (findGameableMetrics two_metrics (Some (1 # 2)))
      <= List.length (findGameableMetrics two_metrics (Some (3 # 10)))
      <= List.length (FOR_IN two_metrics "metrics"))%nat.
Proof.
  apply (findGameableMetrics_threshold_monotone two_metrics (3 # 10) (1 # 2)).
  discriminate.
Defined.

(** The four rows of the store of four metrics under threshold 0.3: the
    row before the second EXTREME row and the row before the HIGH row. *)
Lemma findGameableMetrics_levels_descend_at_graded_metrics :
  map Gameable.suspicionLevel (findGameableMetrics graded_metrics (Some (3 # 10)))
  = ["EXTREME"; "EXTREME"; "HIGH"; "MODERATE"]%string
  /\ Gameable.suspicionLevel
       (gameableRow graded_metrics (M_far, Some (Qabs (200 - 100) / 100)))
     = "EXTREME"%string
  /\ (Gameable.suspicionLevel
        (gameableRow graded_metrics (M_near, Some (Qabs (195 - 100) / 100)))
      = "HIGH"%string
      \/ Gameable.suspicionLevel
           (gameableRow graded_metrics (M_near, Some (Qabs (195 - 100) / 100)))
         = "EXTREME"%string).
Proof.
  split; [vm_compute; reflexivity |]. split.
  - apply (proj1 (findGameableMetrics_levels_descend
                    graded_metrics (Some (3 # 10)) [] []
                    [ gameableRow graded_metrics (M_high, Some (Qabs (180 - 100) / 100));
                      gameableRow graded_metrics (M1, Some (Qabs (50 - 90) / 90)) ]
                    (gameableRow graded_metrics (M_far, Some (Qabs (200 - 100) / 100)))
                    (gameableRow graded_metrics (M_near, Some (Qabs (195 - 100) / 100)))
                    eq_refl)).
    reflexivity.
  - apply (proj2 (findGameableMetrics_levels_descend
                    graded_metrics (Some (3 # 10))
                    [ gameableRow graded_metrics (M_far, Some (Qabs (200 - 100) / 100)) ]
                    []
                    [ gameableRow graded_metrics (M1, Some (Qabs (50 - 90) / 90)) ]
                    (gameableRow graded_metrics (M_near, Some (Qabs (195 - 100) / 100)))
                    (gameableRow graded_metrics (M_high, Some (Qabs (180 - 100) / 100)))
                    eq_refl)).
    reflexivity.
Defined.

(** The bounds of the synergy score at the Engineering department. *)
Lemma synergyScore_within_bounds_at_engineering :
  exists r,
    calculateDepartmentSynergy engineering "d1" = Fulfilled (Some r)
    /\ 0 <= Synergy.synergyScore r /\ Synergy.synergyScore r < 100.
Proof.
  eexists. split; [reflexivity |].
  destruct (synergyScore_within_bounds engineering "d1" _ eq_refl) as [_ H].
  assert (Hemp : Forall (fun emp => Shape.within 0 100 (wellnessScore emp)
                                    /\ Shape.within 0 100 (engagementLevel emp))
                        (employees engineering
                                   (DOCUMENT engineering (mkId "departments" "d1")))).
  { repeat constructor; discriminate. }
  destruct (H Hemp) as [Hlo [Hhi _]]. split; assumption.
Defined.

(** The orphan metric M3 of the theater scenario is reported. *)
Lemma detectMetricTheater_isolated_and_linked_at_theater_scenario :
  In (theaterRow M3) (detectMetricTheater theater_scenario).
Proof.
  assert (Hm : In M3 (FOR_IN theater_scenario "metrics")) by (right; left; reflexivity).
  apply (proj1 (detectMetricTheater_isolated_and_linked theater_scenario M3 Hm)).
  intros e [[<- | [<- | []]] _]; split; discriminate.
Defined.

(** O2 of the scenario store is among the consequences of I1. *)
Lemma gap_unintended_are_consequences_at_gap_scenario :
  In (Some O2) (InitiativeService.findUnintendedConsequences gap_scenario "i1").
Proof.
  apply (gap_unintended_are_consequences gap_scenario "i1" O2).
  - left. reflexivity.
  - reflexivity.
  - reflexivity.
Defined.

(** Linking I1 to O2 in a store that holds only the two of them. *)
Lemma linkCause_then_query_at_unlinked_pair :
  exists r,
    In r (traceCausalPath linked_once (mkId "initiatives" "i1")
                          (mkId "outcomes" "o2") None)
    /\ CausalPath.length r == 2
    /\ CausalPath.totalStrength r == 9 # 10.
Proof.
  destruct (linkCause_then_query (mkStore [I1; O2] []) "c1" "i1" "o2" (9 # 10)
                                 I1 O2 eq_refl eq_refl) as [[r [Hin [Hlen [Hs _]]]] _].
  exists r. split; [exact Hin |]. split; [exact Hlen |].
  apply Hs. discriminate.
Defined.

(** The two lists of [getInitiativeWithOutcomes] at the scenario store. *)
Lemma getInitiativeWithOutcomes_partition_at_gap_scenario :
  exists r,
    InitiativeRead.getInitiativeWithOutcomes gap_scenario severity "i1"
    = Fulfilled (Some r)
    /\ (List.length (InitiativeWithOutcomes.intended r)
        + List.length (InitiativeWithOutcomes.actual r))%nat
       = List.length (filter (fun e => id_eqb (_from e) (_id I1))
                             (edges_of gap_scenario ["causes"%string])).
Proof.
  destruct (getInitiativeWithOutcomes_partition gap_scenario severity "i1" I1 eq_refl)
    as [r [Hr [_ [_ [Hlen _]]]]].
  exists r. split; [exact Hr | exact Hlen].
Defined.

(** The gap of [getInitiativeWithOutcomes] at the scenario store. *)
Lemma getInitiativeWithOutcomes_gap_at_gap_scenario :
  exists r,
    InitiativeRead.getInitiativeWithOutcomes gap_scenario severity "i1"
    = Fulfilled (Some r)
    /\ (forall g, InitiativeWithOutcomes.gap r = Some g -> 0 <= g /\ g <= 10).
Proof.
  eexists. split; [reflexivity |].
  destruct (getInitiativeWithOutcomes_gap gap_scenario severity "i1" _ eq_refl)
    as [_ [H _]].
  apply H. repeat constructor; discriminate.
Defined.


(** The heat map and the synergy score of the Engineering department. *)
Lemma heatmap_agrees_with_synergy_at_engineering :
  List.length (VisualizationService.getDepartmentSynergyHeatmap
                 engineering synergyIndex (fun _ => EmptyString))
  = (3 * List.length (FOR_IN engineering "departments"))%nat.
Proof.
  apply (heatmap_agrees_with_synergy engineering synergyIndex (fun _ => EmptyString)
                                     "d1"%string (dept "d1" "Engineering")).
  reflexivity.
Defined.

End MoreInstances.

(* ===================================================================== *)
(** ** ArangoConnection.initializeCollections *)
(* ===================================================================== *)

Section Initialization.

Import ArangoConnection.

Lemma collection_exists_app (db extra : Database) (name : string) :
  collection_exists (db ++ extra) name
  = collection_exists db name || collection_exists extra name.
Proof. unfold collection_exists. apply existsb_app. Qed.

(** The loop only appends: what was there stays, in place. *)
Lemma fold_ensure_extends (wanted : list (string * CollectionType))
      (db : Database) (log : list string) :
  exists added,
    fst (fold_left ensure wanted (db, log)) = db ++ added
    /\ snd (fold_left ensure wanted (db, log)) = log ++ map fst added
    /\ (forall c, In c added -> In c wanted /\ collection_exists db (fst c) = false).
Proof.
  revert db log. induction wanted as [| c wanted IH]; intros db log.
  - exists []. cbn [fold_left fst snd map]. rewrite !app_nil_r.
    split; [reflexivity |]. split; [reflexivity |]. intros c0 [].
  - cbn [fold_left].
    destruct (collection_exists db (fst c)) eqn:Ex.
    + replace (ensure (db, log) c) with (db, log)
        by (unfold ensure; cbn [fst snd]; rewrite Ex; reflexivity).
      destruct (IH db log) as [added [Hdb [Hlog Hadd]]].
      exists added. split; [exact Hdb |]. split; [exact Hlog |].
      intros c' Hc'. destruct (Hadd c' Hc') as [Hin Hn]. split; [right; exact Hin | exact Hn].
    + replace (ensure (db, log) c) with (db ++ [c], log ++ [fst c])
        by (unfold ensure; cbn [fst snd]; rewrite Ex; reflexivity).
      destruct (IH (db ++ [c]) (log ++ [fst c])) as [added [Hdb [Hlog Hadd]]].
      exists (c :: added).
      split; [etransitivity; [exact Hdb | rewrite <- app_assoc; reflexivity] |].
      split; [etransitivity; [exact Hlog | rewrite <- app_assoc; reflexivity] |].
      intros c' [<- | Hc']; [split; [left; reflexivity | exact Ex] |].
      destruct (Hadd c' Hc') as [Hin Hn]. split; [right; exact Hin |].
      rewrite collection_exists_app in Hn. apply orb_false_iff in Hn. apply Hn.
Qed.

(** After the loop every wanted name exists. *)
Lemma fold_ensure_exists (wanted : list (string * CollectionType))
      (db : Database) (log : list string) (name : string) :
  collection_exists db name = true \/ In name (map fst wanted) ->
  collection_exists (fst (fold_left ensure wanted (db, log))) name = true.
Proof.
  revert db log. induction wanted as [| c wanted IH]; intros db log H.
  - destruct H as [H | []]. exact H.
  - cbn [fold_left].
    destruct (collection_exists db (fst c)) eqn:Ex.
    + replace (ensure (db, log) c) with (db, log)
        by (unfold ensure; cbn [fst snd]; rewrite Ex; reflexivity).
      apply IH. destruct H as [H | [H | H]]; auto.
      left. rewrite <- H. exact Ex.
    + replace (ensure (db, log) c) with (db ++ [c], log ++ [fst c])
        by (unfold ensure; cbn [fst snd]; rewrite Ex; reflexivity).
      apply IH. destruct H as [H | [H | H]].
      * left. rewrite collection_exists_app, H. reflexivity.
      * left. rewrite collection_exists_app. unfold collection_exists at 2.
        cbn [existsb]. rewrite H, String.eqb_refl. apply orb_true_r.
      * right. exact H.
Qed.

(** Where every wanted name exists, the loop changes nothing. *)
Lemma fold_ensure_fixed (wanted : list (string * CollectionType))
      (db : Database) (log : list string) :
  (forall name, In name (map fst wanted) -> collection_exists db name = true) ->
  fold_left ensure wanted (db, log) = (db, log).
Proof.
  induction wanted as [| c wanted IH]; intros H; [reflexivity |].
  cbn [fold_left].
  replace (ensure (db, log) c) with (db, log)
    by (unfold ensure; cbn [fst snd];
        rewrite (H (fst c) (or_introl eq_refl)); reflexivity).
  apply IH.
  intros name Hn. apply H. right. exact Hn.
Qed.

(** X18. [initializeCollections] only appends collections: the database
    it leaves starts with the one it found, every added collection is one
    of the eleven of its table under a name that did not exist, and exactly
    the added names are logged.  Afterwards all eleven names exist, so a
    second run creates and logs nothing.  A collection that existed keeps
    its type, whatever the table says. *)
Theorem initializeCollections_idempotent (db : Database) :
  exists added,
    fst (initializeCollections db) = db ++ added
    /\ snd (initializeCollections db) = map fst added
    /\ (forall c, In c added ->
                  In c collections /\ collection_exists db (fst c) = false)
    /\ (forall c, In c collections ->
                  collection_exists (fst (initializeCollections db)) (fst c) = true)
    /\ initializeCollections (fst (initializeCollections db))
       = (fst (initializeCollections db), []).
Proof.
  unfold initializeCollections, initializeCollectionsFrom.
  destruct (fold_ensure_extends collections db []) as [added [Hdb [Hlog Hadd]]].
  exists added. split; [exact Hdb |]. split; [exact Hlog |]. split; [exact Hadd |].
  assert (Hall : forall name, In name (map fst collections) ->
                   collection_exists (fst (fold_left ensure collections (db, []))) name
                   = true).
  { intros name Hn. apply fold_ensure_exists. right. exact Hn. }
  split.
  - intros c Hc. apply Hall. apply in_map. exact Hc.
  - apply fold_ensure_fixed. exact Hall.
Qed.

End Initialization.

(* ===================================================================== *)
(** ** The analysis text of the gap row *)
(* ===================================================================== *)

Section Analysis.

Import AnalyticsService Fixtures.

Lemma divergence_cases (score : Q) :
  (75 < score -> divergence score = "severe"%string)
  /\ (50 < score -> score <= 75 -> divergence score = "significant"%string)
  /\ (score <= 50 -> divergence score = "moderate"%string).
Proof.
  unfold divergence. repeat split.
  - intros H. apply not_Qle_bool in H. rewrite H. reflexivity.
  - intros H1 H2. apply Qle_bool_iff in H2. rewrite H2.
    apply not_Qle_bool in H1. rewrite H1. reflexivity.
  - intros H. assert (H' : score <= 75) by lra.
    apply Qle_bool_iff in H. apply Qle_bool_iff in H'. rewrite H, H'. reflexivity.
Qed.

(** The cap at 100 does not change the word. *)
Lemma divergence_capped (score : Q) :
  divergence (Aql.MIN score 100) = divergence score.
Proof.
  unfold Aql.MIN. destruct (Qle_bool score 100) eqn:E; [reflexivity |].
  assert (100 < score) as H by (apply not_Qle_bool; rewrite E; reflexivity).
  destruct (divergence_cases score) as [Hs _]. rewrite Hs by lra. reflexivity.
Qed.

(** X19. The analysis text of [calculateIntentionRealityGap] agrees with
    the score it returns, although it is computed before the cap: it says
    severe when the returned score is above 75, significant when it is
    above 50 and at most 75, moderate otherwise, and the number of
    outcomes it mentions is the length of the returned list, which is
    returned twice. *)
Theorem analysis_matches_returned_score
        (st : Store) (id : string) (r : IntentionRealityGap.t) :
  calculateIntentionRealityGap st id = Fulfilled (Some r) ->
  exists word,
    IntentionRealityGap.analysis r
    = CONCAT [ Some (String.append "Initiative " dquote);
               IntentionRealityGap.initiativeName r;
               Some (String.append dquote " shows ");
               Some word;
               Some " divergence from stated intentions. "%string;
               Some (number_text
                       (List.length (IntentionRealityGap.actualOutcomes r)));
               Some " unintended outcomes detected."%string ]
    /\ (75 < IntentionRealityGap.gapScore r -> word = "severe"%string)
    /\ (50 < IntentionRealityGap.gapScore r ->
        IntentionRealityGap.gapScore r <= 75 -> word = "significant"%string)
    /\ (IntentionRealityGap.gapScore r <= 50 -> word = "moderate"%string)
    /\ IntentionRealityGap.unintendedConsequences r
       = IntentionRealityGap.actualOutcomes r.
Proof.
  intros Hr. unfold calculateIntentionRealityGap, gapQuery in Hr.
  cbn [first_or_null hd_error] in Hr. injection Hr as <-.
  cbn [IntentionRealityGap.analysis IntentionRealityGap.initiativeName
       IntentionRealityGap.actualOutcomes IntentionRealityGap.gapScore
       IntentionRealityGap.unintendedConsequences].
  exists (divergence (gapScore st (DOCUMENT st (mkId "initiatives" id)))).
  split; [reflexivity |].
  rewrite <- divergence_capped.
  destruct (divergence_cases
              (Aql.MIN (gapScore st (DOCUMENT st (mkId "initiatives" id))) 100))
    as [H1 [H2 H3]].
  repeat split; assumption.
Qed.

(** The analysis text at the scenario store. *)
Lemma analysis_matches_returned_score_at_gap_scenario :
  exists r word,
    calculateIntentionRealityGap gap_scenario "i1" = Fulfilled (Some r)
    /\ IntentionRealityGap.analysis r
       = CONCAT [ Some (String.append "Initiative " dquote);
                  IntentionRealityGap.initiativeName r;
                  Some (String.append dquote " shows ");
                  Some word;
                  Some " divergence from stated intentions. "%string;
                  Some (number_text
                          (List.length (IntentionRealityGap.actualOutcomes r)));
                  Some " unintended outcomes detected."%string ]
    /\ (IntentionRealityGap.gapScore r <= 50 -> word = "moderate"%string).
Proof.
  eexists.
  destruct (analysis_matches_returned_score gap_scenario "i1" _ eq_refl)
    as [word [Ha [_ [_ [Hm _]]]]].
  exists word. split; [reflexivity |]. split; [exact Ha | exact Hm].
Defined.

End Analysis.

(* ===================================================================== *)
(** ** VisualizationService.getCausalGraphData *)
(* ===================================================================== *)

Section Throwing.

Context {A B : Type}.
Variable f : A -> option B.

Lemma map_throwing_None (l : list A) :
  CausalGraph.map_throwing f l = None <-> exists a, In a l /\ f a = None.
Proof.
  induction l as [| a l IH].
  - split; [discriminate | intros [a [[] _]]].
  - cbn [CausalGraph.map_throwing]. destruct (f a) as [b |] eqn:Fa.
    + destruct (CausalGraph.map_throwing f l) as [bs |].
      * split; [discriminate |]. intros [a' [[<- | Hin] Hn]]; [congruence |].
        destruct IH as [_ IH].
        assert (Some bs = None) by (apply IH; exists a'; auto). discriminate.
      * split; [| reflexivity]. intros _. destruct IH as [IH _].
        destruct (IH eq_refl) as [a' [Hin Hn]]. exists a'. split; [right |]; assumption.
    + split; [| reflexivity]. intros _. exists a. split; [left; reflexivity | exact Fa].
Qed.

Lemma map_throwing_Some (l : list A) (bs : list B) :
  CausalGraph.map_throwing f l = Some bs -> Forall2 (fun a b => f a = Some b) l bs.
Proof.
  revert bs. induction l as [| a l IH]; intros bs H.
  - injection H as <-. constructor.
  - cbn [CausalGraph.map_throwing] in H. destruct (f a) as [b |] eqn:Fa; [| discriminate].
    destruct (CausalGraph.map_throwing f l) as [bs' |]; [| discriminate].
    injection H as <-. constructor; [exact Fa | apply IH; reflexivity].
Qed.

End Throwing.

Section CausalGraphFacts.

Import Fixtures MoreFixtures.

Lemma last_edge (l : list Edge) :
  l <> [] -> exists e, last (map Some l) None = Some e /\ In e l.
Proof.
  induction l as [| a l IH]; [intros H; contradiction |]. intros _.
  destruct l as [| b l]; [exists a; split; [reflexivity | left; reflexivity] |].
  destruct IH as [e [He Hin]]; [discriminate |].
  exists e. split; [| right; exact Hin].
  cbn [map]. cbn [map] in He. exact He.
Qed.

(** Every traversal result carries the edge it arrived by. *)
Lemma visit_edge (E : list Edge) (dir : Direction) (d : nat) (cur : Id)
      (used : list Id) (w : Visit) :
  In w (extend E dir d cur used) -> exists e, edge w = Some e /\ In e E.
Proof.
  intros H. pose proof (extend_path_edges _ _ _ _ _ _ H) as Hall.
  assert (Hne : p_edges w <> []).
  { destruct d as [| d]; [contradiction |]. apply extend_inv in H.
    destruct H as [e [v [_ [_ [_ [-> | [w' [_ ->]]]]]]]]; unfold p_edges; discriminate. }
  destruct (last_edge _ Hne) as [e [He Hin]]. exists e. split; [exact He |].
  rewrite Forall_forall in Hall. apply Hall. exact Hin.
Qed.

Variable st : Store.
Variable severity : Doc -> option Q.
Variable edgeType : Edge -> option string.
Variable inherited : string -> bool.
Variable substring : nat -> nat -> string -> string.

Lemma graph_edges_stored (start : option Doc) (x : option Edge) :
  In x (CausalGraph.edges st start) ->
  exists e, x = Some e /\ Spec.causal_edge st e.
Proof.
  unfold CausalGraph.edges. intros H. apply nodup_In in H.
  apply in_map_iff in H. destruct H as [w [Hw Hin]].
  unfold traversal in Hin. destruct start; [| contradiction].
  destruct (visit_edge _ _ _ _ _ _ Hin) as [e [He HE]].
  exists e. split; [congruence |]. apply causal_edge_In. exact HE.
Qed.

Lemma graph_edges_never_throw (start : option Doc) :
  CausalGraph.map_throwing (CausalGraph.graphEdge edgeType) (CausalGraph.edges st start)
  <> None.
Proof.
  intros H. apply map_throwing_None in H. destruct H as [x [Hin Hn]].
  destruct (graph_edges_stored _ _ Hin) as [e [-> _]]. discriminate.
Qed.

(** X20. Asked for the graph of one initiative, [getCausalGraphData]
    rejects with a TypeError exactly when the identifier does not resolve,
    or when some vertex reached within three hops, in either direction over
    the edges of [causal_graph], has no stored document.  It never answers
    an unknown identifier with an empty graph, and is fulfilled in every
    other case. *)
Theorem causal_graph_rejects_unresolved (initiativeId : string) :
  initiativeId <> EmptyString ->
  (CausalGraph.getCausalGraphData st severity edgeType inherited substring
                                 initiativeId
   = Rejected "TypeError"
   <-> DOCUMENT st (mkId "initiatives" initiativeId) = None
       \/ exists w,
           In w (traversal (edges_of st causal_graph) ANY 3
                   (DOCUMENT st (mkId "initiatives" initiativeId)))
           /\ vertex st w = None)
  /\ ((exists g,
         CausalGraph.getCausalGraphData st severity edgeType inherited substring
                                        initiativeId
         = Fulfilled g)
      <-> DOCUMENT st (mkId "initiatives" initiativeId) <> None
          /\ forall w,
               In w (traversal (edges_of st causal_graph) ANY 3
                       (DOCUMENT st (mkId "initiatives" initiativeId))) ->
               vertex st w <> None).
Proof.
  intros _. unfold CausalGraph.getCausalGraphData, CausalGraph.graphQuery.
  cbv zeta. cbn [fst snd].
  set (start := DOCUMENT st (mkId "initiatives" initiativeId)).
  assert (Hnodes :
            CausalGraph.map_throwing (CausalGraph.graphNode severity inherited substring)
                                     (start :: CausalGraph.vertices st start) = None
            <-> start = None
                \/ exists w, In w (traversal (edges_of st causal_graph) ANY 3 start)
                             /\ vertex st w = None).
  { rewrite map_throwing_None. split.
    - intros [v [Hin Hn]]. destruct v as [d |]; [discriminate |].
      destruct Hin as [Hs | Hin]; [left; exact Hs | right].
      unfold CausalGraph.vertices in Hin. apply nodup_In in Hin.
      apply in_map_iff in Hin. destruct Hin as [w [Hw Hin]]. exists w. auto.
    - intros [Hs | [w [Hin Hw]]].
      + exists None. split; [left; exact Hs | reflexivity].
      + exists None. split; [| reflexivity]. right.
        unfold CausalGraph.vertices. apply nodup_In. apply in_map_iff.
        exists w. auto. }
  pose proof (graph_edges_never_throw start) as He.
  destruct (CausalGraph.map_throwing (CausalGraph.graphNode severity inherited substring)
              (start :: CausalGraph.vertices st start)) as [nodes |] eqn:En.
  - destruct (CausalGraph.map_throwing (CausalGraph.graphEdge edgeType)
                (CausalGraph.edges st start)) as [es |]; [| contradiction].
    assert (Hok : ~ (start = None
                     \/ exists w,
                         In w (traversal (edges_of st causal_graph) ANY 3 start)
                         /\ vertex st w = None)).
    { intros H. apply Hnodes in H. discriminate. }
    split.
    + split; [discriminate |]. intros H. contradiction.
    + split; [| intros _; eexists; reflexivity]. intros _. split.
      * intros H. apply Hok. left. exact H.
      * intros w Hin H. apply Hok. right. exists w. split; assumption.
  - split.
    + split; [| reflexivity]. intros _. apply Hnodes. reflexivity.
    + split; [intros [g H]; discriminate |]. intros [Hs Hall].
      destruct (proj1 Hnodes eq_refl) as [H | [w [Hin H]]];
        [contradiction | destruct (Hall w Hin H)].
Qed.

(** X21. In a fulfilled graph for one initiative the first node is the
    initiative itself, and every node is a stored document.  Each node of a
    collection whose name is not an inherited member name has a colour and
    one of the five node types; documents of a collection outside the
    table, such as events, are typed outcome.  Every edge is a stored edge
    of [causal_graph], and its weight is the edge's strength, or 0.5 where
    that is absent, null or 0. *)
Theorem causal_graph_contents (initiativeId : string) (g : GraphData.t) :
  initiativeId <> EmptyString ->
  CausalGraph.getCausalGraphData st severity edgeType inherited substring
                                 initiativeId
  = Fulfilled g ->
  (exists init,
      DOCUMENT st (mkId "initiatives" initiativeId) = Some init
      /\ option_map GraphNode.properties (hd_error (GraphData.nodes g)) = Some init
      /\ option_map GraphNode.id (hd_error (GraphData.nodes g))
         = Some (mkId "initiatives" initiativeId))
  /\ (forall n, In n (GraphData.nodes g) ->
        DOCUMENT st (GraphNode.id n) = Some (GraphNode.properties n)
        /\ (inherited (collection (GraphNode.id n)) = false ->
            (exists c, GraphNode.color n = Some (JsString c))
            /\ In (GraphNode.type n)
                  (map (fun p => JsString (snd p)) CausalGraph.collectionTypes)
            /\ (~ In (collection (GraphNode.id n))
                     (map fst CausalGraph.collectionTypes) ->
                GraphNode.type n = JsString "outcome")))
  /\ (forall x, In x (GraphData.edges g) ->
        exists e,
          Spec.causal_edge st e
          /\ GraphEdge.source x = _from e /\ GraphEdge.target x = _to e
          /\ GraphEdge.weight x = Aql.or_else (strength e) (1 # 2)
          /\ (Shape.normalized e ->
              0 < GraphEdge.weight x /\ GraphEdge.weight x <= 1)).
Proof.
  intros _. unfold CausalGraph.getCausalGraphData, CausalGraph.graphQuery.
  cbv zeta. cbn [fst snd].
  set (start := DOCUMENT st (mkId "initiatives" initiativeId)).
  destruct (CausalGraph.map_throwing (CausalGraph.graphNode severity inherited substring)
              (start :: CausalGraph.vertices st start)) as [nodes |] eqn:En;
    [| discriminate].
  destruct (CausalGraph.map_throwing (CausalGraph.graphEdge edgeType)
              (CausalGraph.edges st start)) as [es |] eqn:Ee; [| discriminate].
  intros H. injection H as <-. cbn [GraphData.nodes GraphData.edges].
  apply map_throwing_Some in En. apply map_throwing_Some in Ee.
  split; [| split].
  - inversion En as [| v n vs ns Hv Hrest]; subst.
    destruct start as [init |] eqn:Es; [| discriminate].
    exists init. split; [reflexivity |].
    cbn [CausalGraph.graphNode] in Hv. injection Hv as <-.
    cbn [hd_error option_map GraphNode.properties GraphNode.id].
    split; [reflexivity |].
    destruct (DOCUMENT_Some _ _ _ Es) as [_ ->]. reflexivity.
  - intros n Hn.
    assert (Hv : exists v, In v (start :: CausalGraph.vertices st start)
                           /\ CausalGraph.graphNode severity inherited substring v = Some n).
    { clear - En Hn. induction En as [| v n' vs ns Hv _ IH]; [contradiction |].
      destruct Hn as [<- | Hn].
      - exists v. split; [left; reflexivity | exact Hv].
      - destruct (IH Hn) as [v' [Hin Hv']]. exists v'. split; [right |]; assumption. }
    destruct Hv as [v [Hin Hv]]. destruct v as [d |]; [| discriminate].
    cbn [CausalGraph.graphNode] in Hv. injection Hv as <-.
    cbn [GraphNode.id GraphNode.properties GraphNode.color GraphNode.type].
    split.
    + destruct Hin as [Hs | Hin].
      * destruct (DOCUMENT_Some _ _ _ Hs) as [_ Hid]. rewrite Hid. exact Hs.
      * unfold CausalGraph.vertices in Hin. apply nodup_In in Hin.
        apply in_map_iff in Hin. destruct Hin as [w [Hw _]]. unfold vertex in Hw.
        destruct (DOCUMENT_Some _ _ _ Hw) as [_ Hid]. rewrite Hid. exact Hw.
    + intros Hinh. unfold CausalGraph.mapCollectionToType.
      destruct (find (fun p => String.eqb (fst p) (collection (_id d)))
                     CausalGraph.collectionTypes) as [p |] eqn:F.
      * apply find_some in F. destruct F as [Hp Heq]. apply String.eqb_eq in Heq.
        split; [| split].
        -- cbn [CausalGraph.collectionTypes] in Hp.
           destruct Hp as [<- | [<- | [<- | [<- | [<- | []]]]]];
             eexists; reflexivity.
        -- apply (in_map (fun p => JsString (snd p))). exact Hp.
        -- intros Hnot. exfalso. apply Hnot. rewrite <- Heq. apply in_map. exact Hp.
      * rewrite Hinh. split; [eexists; reflexivity |].
        split; [right; left; reflexivity | reflexivity].
  - intros x Hx.
    assert (He : exists e, In e (CausalGraph.edges st start)
                           /\ CausalGraph.graphEdge edgeType e = Some x).
    { clear - Ee Hx. induction Ee as [| e x' l xs He _ IH]; [contradiction |].
      destruct Hx as [<- | Hx].
      - exists e. split; [left; reflexivity | exact He].
      - destruct (IH Hx) as [e' [Hin He']]. exists e'. split; [right |]; assumption. }
    destruct He as [e0 [Hin He]].
    destruct (graph_edges_stored _ _ Hin) as [e [-> Hc]].
    cbn [CausalGraph.graphEdge] in He. injection He as <-.
    cbn [GraphEdge.source GraphEdge.target GraphEdge.weight].
    exists e. split; [exact Hc |]. split; [reflexivity |]. split; [reflexivity |].
    split; [reflexivity |]. apply factor_in_unit_interval.
Qed.

End CausalGraphFacts.

Section CausalGraphWitnesses.

Import Fixtures MoreFixtures.

(** An identifier that names no initiative of the scenario store. *)
Lemma causal_graph_rejects_unresolved_at_gap_scenario :
  CausalGraph.getCausalGraphData gap_scenario severity (fun _ => None)
                                 (fun _ => false) String.substring "ghost"
  = Rejected "TypeError".
Proof.
  apply (proj1 (causal_graph_rejects_unresolved
                  gap_scenario severity (fun _ => None) (fun _ => false)
                  String.substring "ghost" ltac:(discriminate))).
  left. reflexivity.
Defined.

(** The graph of the initiative of the scenario store: its edges. *)
Lemma causal_graph_contents_at_gap_scenario :
  exists g,
    CausalGraph.getCausalGraphData gap_scenario severity (fun _ => None)
                                   (fun _ => false) String.substring "i1"
    = Fulfilled g
    /\ List.length (GraphData.nodes g) = 4%nat
    /\ forall x, In x (GraphData.edges g) ->
         exists e, Spec.causal_edge gap_scenario e
                   /\ GraphEdge.source x = _from e /\ GraphEdge.target x = _to e.
Proof.
  eexists. split; [reflexivity |]. split; [reflexivity |].
  intros x Hx.
  destruct (proj2 (proj2 (causal_graph_contents
                            gap_scenario severity (fun _ => None) (fun _ => false)
                            String.substring "i1" _ ltac:(discriminate) eq_refl))
             x Hx)
    as [e [Hc [Hs [Ht _]]]].
  exists e. split; [exact Hc |]. split; [exact Hs | exact Ht].
Defined.

End CausalGraphWitnesses.
